(** * Accident detection engine and alert lifecycle

    A shallow embedding of [detection.js] (class [AccidentDetector]) and of the
    alert handler module (class [AlertHandler]), together with the part of
    [emergency.js] the alert handler calls into.

    Conventions of the embedding:
    - a JavaScript number that comes from a sensor is a [num]: a finite
      rational, an infinity or NaN, compared the way [>=] and [>] compare
      doubles and subtracted the way [-] subtracts them, the exact
      difference rounded to the nearest double;
    - [Date.now()] readings are integers ([Z]); every function that reads the
      clock takes the reading as an argument;
    - an object field that holds either a handle or [null] is an [option] or a
      [bool];
    - [addLog], DOM text updates and sound synthesis leave no trace in the
      state of either class and are left out. *)

From Stdlib Require Import ZArith QArith Qabs List Bool Lia.
From Stdlib Require Ascii String.
From Stdlib.Strings Require Byte.
Import ListNotations.

Local Open Scope Z_scope.

(** ** JavaScript numbers *)

Module Num.

Inductive num : Type :=
| Fin (q : Q)
| PosInf
| NegInf
| NaN.

(** [a >= b] on doubles: false as soon as one side is NaN. *)
Definition ge (a b : num) : bool :=
  match a, b with
  | NaN, _ | _, NaN => false
  | PosInf, _ => true
  | _, NegInf => true
  | Fin x, Fin y => Qle_bool y x
  | _, _ => false
  end.

(** [a > b] on doubles. *)
Definition gt (a b : num) : bool :=
  match a, b with
  | NaN, _ | _, NaN => false
  | Fin x, Fin y => negb (Qle_bool x y)
  | PosInf, PosInf => false
  | PosInf, _ => true
  | Fin _, NegInf => true
  | _, _ => false
  end.

(** The integer nearest to [n / d] for [d > 0], a tie going to the even
    one. *)
Definition roundHalfEven (n d : Z) : Z :=
  let q := n / d in
  let r := n mod d in
  if 2 * r <? d then q
  else if d <? 2 * r then q + 1
  else if Z.even q then q
  else q + 1.

(** The integer [k] with [2^k <= n / d < 2^(k+1)]. *)
Definition floorLog2 (n d : positive) : Z :=
  let c := Z.log2 (Zpos n) - Z.log2 (Zpos d) in
  if Zpos n * 2 ^ Z.max 0 (- c) <? Zpos d * 2 ^ Z.max 0 c then c - 1 else c.

(** [m * 2^e] as a rational. *)
Definition scaled (m e : Z) : Q :=
  if 0 <=? e then inject_Z (m * 2 ^ e) else m # Z.to_pos (2 ^ (- e)).

(** The double nearest to the positive rational [n / d]: a 53-bit mantissa
    [m] at the exponent [e] of the binade of [n / d], not below the
    subnormal exponent -1074; ties go to the even mantissa, and what rounds
    to [2^1024] or more is infinite. *)
Definition roundPos (n d : positive) : num :=
  let e := Z.max (floorLog2 n d - 52) (-1074) in
  let m :=
    roundHalfEven (Zpos n * 2 ^ Z.max 0 (- e)) (Zpos d * 2 ^ Z.max 0 e) in
  if 971 <? e then PosInf
  else if (e =? 971) && (2 ^ 53 <=? m) then PosInf
  else Fin (scaled m e).

(** Unary minus. *)
Definition opp (a : num) : num :=
  match a with
  | Fin x => Fin (- x)
  | PosInf => NegInf
  | NegInf => PosInf
  | NaN => NaN
  end.

(** A rational rounded to the nearest double. *)
Definition round (q : Q) : num :=
  match Qnum q with
  | Z0 => Fin 0
  | Zpos n => roundPos n (Qden q)
  | Zneg n => opp (roundPos n (Qden q))
  end.

(** [a - b]: on finite operands the exact difference rounded to the nearest
    double, as IEEE 754 subtraction gives it. (The sign of a zero result is
    not kept; no comparison tells the two zeros apart.) *)
Definition sub (a b : num) : num :=
  match a, b with
  | NaN, _ | _, NaN => NaN
  | Fin x, Fin y => round (x - y)
  | PosInf, PosInf => NaN
  | NegInf, NegInf => NaN
  | PosInf, _ => PosInf
  | NegInf, _ => NegInf
  | Fin _, PosInf => NegInf
  | Fin _, NegInf => PosInf
  end.

(** [Math.abs]. *)
Definition abs (a : num) : num :=
  match a with
  | Fin x => Fin (Qabs x)
  | PosInf | NegInf => PosInf
  | NaN => NaN
  end.

End Num.

Import Num.

(** ** Data model *)

(** The severity strings ['none'], ['low'], ['medium'], ['high'],
    ['critical']. *)
Inductive Severity : Type := none | low | medium | high | critical.

Definition Severity_eqb (a b : Severity) : bool :=
  match a, b with
  | none, none | low, low | medium, medium | high, high
  | critical, critical => true
  | _, _ => false
  end.

(** [this.detectionThresholds]. *)
Record Thresholds : Type := {
  lowImpact : Q;
  mediumImpact : Q;
  highImpact : Q;
  criticalImpact : Q;
  crashSoundLevel : Q;
  suddenRotation : Q;
  sustainedForceDuration : Z
}.

(** The values the constructor installs. *)
Definition defaultThresholds : Thresholds := {|
  lowImpact := 5 # 2;
  mediumImpact := 4;
  highImpact := 6;
  criticalImpact := 8;
  crashSoundLevel := 100;
  suddenRotation := 45;
  sustainedForceDuration := 200
|}.

(** [sensorData.rotation]. *)
Record Orientation : Type := {
  alpha : num;
  beta : num;
  gamma : num
}.

(** The part of [sensorData] the detector reads. *)
Record SensorData : Type := {
  impactForce : num;
  rotation : Orientation
}.

(** [audioData]. *)
Record AudioData : Type := {
  level : num
}.

(** The [type] field of a history entry. *)
Inductive EventType : Type := Impact | Combined | Rotation.

Definition EventType_eqb (a b : EventType) : bool :=
  match a, b with
  | Impact, Impact | Combined, Combined | Rotation, Rotation => true
  | _, _ => false
  end.

(** The fields of a history entry that depend on its [type]. *)
Inductive Metrics : Type :=
| ImpactMetrics (force : num) (duration : Z)
| CombinedMetrics (soundLevel : num)
| RotationMetrics (deltaBeta deltaGamma : num).

(** An entry of [detectionHistory]. *)
Record DetectionEvent : Type := {
  type : EventType;
  severity : Severity;
  metrics : Metrics;
  timestamp : Z
}.

(** The [details] object handed to the alert handler. *)
Inductive Details : Type :=
| NoDetails
| ImpactDetails (force : num) (duration : Z)
| CombinedDetails (soundLevel : num).

(** The fields of an [AccidentDetector]. [detectionHistory] is oldest first:
    [push] appends at the end and [shift] removes the head. [previousRotation]
    is [None] until the first sample has been seen. *)
Record AccidentDetector : Type := {
  isActive : bool;
  detectionThresholds : Thresholds;
  detectionHistory : list DetectionEvent;
  lastImpactTime : Z;
  highForceStartTime : Z;
  sustainedHighForce : bool;
  previousRotation : option Orientation
}.

(** [new AccidentDetector()]. *)
Definition newAccidentDetector : AccidentDetector := {|
  isActive := false;
  detectionThresholds := defaultThresholds;
  detectionHistory := [];
  lastImpactTime := 0;
  highForceStartTime := 0;
  sustainedHighForce := false;
  previousRotation := None
|}.

(** ** Detector: the pure helpers *)

(** [calculateSeverity(impactForce, duration)]. *)
Definition calculateSeverity (t : Thresholds) (impactForce : num)
  (duration : Z) : Severity :=
  if ge impactForce (Fin (criticalImpact t))
     || (ge impactForce (Fin (highImpact t))
         && (sustainedForceDuration t <=? duration))
  then critical
  else if ge impactForce (Fin (highImpact t)) then high
  else if ge impactForce (Fin (mediumImpact t)) then medium
  else if ge impactForce (Fin (lowImpact t)) then low
  else none.

(** [calculateCombinedSeverity(impactEvent, soundLevel)]: two successive
    [if]s, the second reading the variable the first may have assigned. *)
Definition calculateCombinedSeverity (t : Thresholds)
  (impactEvent : DetectionEvent) (soundLevel : num) : Severity :=
  let severity0 := severity impactEvent in
  if ge soundLevel (Fin (crashSoundLevel t)) then
    let severity1 :=
      if Severity_eqb severity0 medium then high else severity0 in
    let severity2 :=
      if Severity_eqb severity1 low then medium else severity1 in
    severity2
  else severity0.

(** The test of the loop body of [hasRecentImpact]. *)
Definition isRecentImpact (currentTime timeWindow : Z)
  (event : DetectionEvent) : bool :=
  (currentTime - timestamp event <=? timeWindow)
  && EventType_eqb (type event) Impact.

(** [hasRecentImpact(currentTime, timeWindow)]: the scan runs from the last
    entry down to the first and returns the first hit, [None] for [null]. *)
Definition hasRecentImpact (d : AccidentDetector)
  (currentTime timeWindow : Z) : option DetectionEvent :=
  find (isRecentImpact currentTime timeWindow) (rev (detectionHistory d)).

(** Field updates of the detector. *)
Definition setIsActive (b : bool) (d : AccidentDetector) : AccidentDetector :=
  {| isActive := b;
     detectionThresholds := detectionThresholds d;
     detectionHistory := detectionHistory d;
     lastImpactTime := lastImpactTime d;
     highForceStartTime := highForceStartTime d;
     sustainedHighForce := sustainedHighForce d;
     previousRotation := previousRotation d |}.

Definition setDetectionHistory (h : list DetectionEvent)
  (d : AccidentDetector) : AccidentDetector :=
  {| isActive := isActive d;
     detectionThresholds := detectionThresholds d;
     detectionHistory := h;
     lastImpactTime := lastImpactTime d;
     highForceStartTime := highForceStartTime d;
     sustainedHighForce := sustainedHighForce d;
     previousRotation := previousRotation d |}.

Definition setLastImpactTime (t : Z) (d : AccidentDetector)
  : AccidentDetector :=
  {| isActive := isActive d;
     detectionThresholds := detectionThresholds d;
     detectionHistory := detectionHistory d;
     lastImpactTime := t;
     highForceStartTime := highForceStartTime d;
     sustainedHighForce := sustainedHighForce d;
     previousRotation := previousRotation d |}.

Definition setHighForceStartTime (t : Z) (d : AccidentDetector)
  : AccidentDetector :=
  {| isActive := isActive d;
     detectionThresholds := detectionThresholds d;
     detectionHistory := detectionHistory d;
     lastImpactTime := lastImpactTime d;
     highForceStartTime := t;
     sustainedHighForce := sustainedHighForce d;
     previousRotation := previousRotation d |}.

Definition setSustainedHighForce (b : bool) (d : AccidentDetector)
  : AccidentDetector :=
  {| isActive := isActive d;
     detectionThresholds := detectionThresholds d;
     detectionHistory := detectionHistory d;
     lastImpactTime := lastImpactTime d;
     highForceStartTime := highForceStartTime d;
     sustainedHighForce := b;
     previousRotation := previousRotation d |}.

Definition setPreviousRotation (r : Orientation) (d : AccidentDetector)
  : AccidentDetector :=
  {| isActive := isActive d;
     detectionThresholds := detectionThresholds d;
     detectionHistory := detectionHistory d;
     lastImpactTime := lastImpactTime d;
     highForceStartTime := highForceStartTime d;
     sustainedHighForce := sustainedHighForce d;
     previousRotation := Some r |}.

(** [addDetectionEvent(event)]: push, then drop the oldest entry once the
    history holds more than 50. ([updateSeverityDisplay] writes the DOM
    only.) *)
Definition addDetectionEvent (event : DetectionEvent)
  (d : AccidentDetector) : AccidentDetector :=
  let pushed := detectionHistory d ++ [event] in
  setDetectionHistory
    (if (50 <? Z.of_nat (length pushed)) then tl pushed else pushed) d.

(** [checkRotationAnomaly(rotation)]; [now] is the [Date.now()] read for the
    event's timestamp. ([deltaAlpha] is computed by the source and never
    used.) *)
Definition checkRotationAnomaly (now : Z) (rotation : Orientation)
  (d : AccidentDetector) : AccidentDetector :=
  match previousRotation d with
  | None => setPreviousRotation rotation d
  | Some previous =>
      let deltaBeta := abs (sub (beta rotation) (beta previous)) in
      let deltaGamma := abs (sub (gamma rotation) (gamma previous)) in
      let limit := Fin (suddenRotation (detectionThresholds d)) in
      let d1 :=
        if gt deltaBeta limit || gt deltaGamma limit then
          addDetectionEvent
            {| type := Rotation;
               severity := high;
               metrics := RotationMetrics deltaBeta deltaGamma;
               timestamp := now |} d
        else d in
      setPreviousRotation rotation d1
  end.

(** ** Alert handler *)

(** The element that carries the [active] class after [switchScreen]. *)
Inductive Screen : Type := dashboard | alertScreen | emergencyScreen.

(** The fields of an [AlertHandler]. [countdownTimer] is [None] for [null]
    and otherwise holds the [timeLeft] variable the interval callback closes
    over; [voiceRecognition], [shakeDetection], [alertAudioContext] and
    [beepInterval] say whether the field holds a live object. *)
Record AlertHandler : Type := {
  isAlertActive : bool;
  countdownTimer : option Z;
  countdownSeconds : Z;
  currentSeverity : Severity;
  alertDetails : Details;
  voiceRecognition : bool;
  shakeDetection : bool;
  alertAudioContext : bool;
  beepInterval : bool
}.

(** [new AlertHandler()]. *)
Definition newAlertHandler : AlertHandler := {|
  isAlertActive := false;
  countdownTimer := None;
  countdownSeconds := 30;
  currentSeverity := medium;
  alertDetails := NoDetails;
  voiceRecognition := false;
  shakeDetection := false;
  alertAudioContext := false;
  beepInterval := false
|}.

(** What the page offers: [window.SpeechRecognition], [window.AudioContext]
    and the global [emergencyHandler]. *)
Record Browser : Type := {
  speechRecognitionSupported : bool;
  audioContextSupported : bool;
  emergencyHandlerDefined : bool
}.

(** The calls the properties below speak about, kept as a log (newest
    first): an alert request, that is a call of [triggerAccidentAlert] with
    its clock reading [time]; [window.alertHandler.showAlert] as called by
    the detector on that reading; and [emergencyHandler.sendAlert]. *)
Inductive Call : Type :=
| AlertRequest (time : Z) (s : Severity) (details : Details)
| ShowAlertCall (time : Z) (s : Severity) (details : Details)
| SendAlertCall (s : Severity) (details : Details).

(** The two singletons and what surrounds them: the visible screen, the
    due times of the pending [setTimeout(..., 5000)] callbacks of
    [cancelAlert] (oldest first), the [sendAlert] promises that have not
    settled yet (oldest first), and the call log. [window.alertHandler] is
    assigned when the alert module loads, so it is always present. *)
Record World : Type := {
  accidentDetector : AccidentDetector;
  alertHandler : AlertHandler;
  activeScreen : Screen;
  resetTimers : list Z;
  pendingDispatch : list (Severity * Details);
  calls : list Call
}.

Definition setDetector (d : AccidentDetector) (w : World) : World :=
  {| accidentDetector := d;
     alertHandler := alertHandler w;
     activeScreen := activeScreen w;
     resetTimers := resetTimers w;
     pendingDispatch := pendingDispatch w;
     calls := calls w |}.

Definition setHandler (h : AlertHandler) (w : World) : World :=
  {| accidentDetector := accidentDetector w;
     alertHandler := h;
     activeScreen := activeScreen w;
     resetTimers := resetTimers w;
     pendingDispatch := pendingDispatch w;
     calls := calls w |}.

(** [switchScreen(screenId)]. *)
Definition switchScreen (s : Screen) (w : World) : World :=
  {| accidentDetector := accidentDetector w;
     alertHandler := alertHandler w;
     activeScreen := s;
     resetTimers := resetTimers w;
     pendingDispatch := pendingDispatch w;
     calls := calls w |}.

Definition setResetTimers (l : list Z) (w : World) : World :=
  {| accidentDetector := accidentDetector w;
     alertHandler := alertHandler w;
     activeScreen := activeScreen w;
     resetTimers := l;
     pendingDispatch := pendingDispatch w;
     calls := calls w |}.

Definition setPendingDispatch (l : list (Severity * Details)) (w : World)
  : World :=
  {| accidentDetector := accidentDetector w;
     alertHandler := alertHandler w;
     activeScreen := activeScreen w;
     resetTimers := resetTimers w;
     pendingDispatch := l;
     calls := calls w |}.

Definition logCall (c : Call) (w : World) : World :=
  {| accidentDetector := accidentDetector w;
     alertHandler := alertHandler w;
     activeScreen := activeScreen w;
     resetTimers := resetTimers w;
     pendingDispatch := pendingDispatch w;
     calls := c :: calls w |}.

(** [getCountdownTime(severity)]: the table has no ['none'] entry, so the
    lookup is [undefined] there and [|| 30] applies. *)
Definition getCountdownTime (s : Severity) : Z :=
  match s with
  | low => 60
  | medium => 30
  | high => 20
  | critical => 15
  | none => 30
  end.

(** Field updates of the handler. *)
Definition setIsAlertActive (b : bool) (h : AlertHandler) : AlertHandler :=
  {| isAlertActive := b;
     countdownTimer := countdownTimer h;
     countdownSeconds := countdownSeconds h;
     currentSeverity := currentSeverity h;
     alertDetails := alertDetails h;
     voiceRecognition := voiceRecognition h;
     shakeDetection := shakeDetection h;
     alertAudioContext := alertAudioContext h;
     beepInterval := beepInterval h |}.

Definition setCountdownTimer (t : option Z) (h : AlertHandler)
  : AlertHandler :=
  {| isAlertActive := isAlertActive h;
     countdownTimer := t;
     countdownSeconds := countdownSeconds h;
     currentSeverity := currentSeverity h;
     alertDetails := alertDetails h;
     voiceRecognition := voiceRecognition h;
     shakeDetection := shakeDetection h;
     alertAudioContext := alertAudioContext h;
     beepInterval := beepInterval h |}.

Definition setSession (s : Severity) (details : Details) (seconds : Z)
  (h : AlertHandler) : AlertHandler :=
  {| isAlertActive := isAlertActive h;
     countdownTimer := countdownTimer h;
     countdownSeconds := seconds;
     currentSeverity := s;
     alertDetails := details;
     voiceRecognition := voiceRecognition h;
     shakeDetection := shakeDetection h;
     alertAudioContext := alertAudioContext h;
     beepInterval := beepInterval h |}.

Definition setVoiceRecognition (b : bool) (h : AlertHandler) : AlertHandler :=
  {| isAlertActive := isAlertActive h;
     countdownTimer := countdownTimer h;
     countdownSeconds := countdownSeconds h;
     currentSeverity := currentSeverity h;
     alertDetails := alertDetails h;
     voiceRecognition := b;
     shakeDetection := shakeDetection h;
     alertAudioContext := alertAudioContext h;
     beepInterval := beepInterval h |}.

Definition setShakeDetection (b : bool) (h : AlertHandler) : AlertHandler :=
  {| isAlertActive := isAlertActive h;
     countdownTimer := countdownTimer h;
     countdownSeconds := countdownSeconds h;
     currentSeverity := currentSeverity h;
     alertDetails := alertDetails h;
     voiceRecognition := voiceRecognition h;
     shakeDetection := b;
     alertAudioContext := alertAudioContext h;
     beepInterval := beepInterval h |}.

Definition setAlertAudioContext (b : bool) (h : AlertHandler)
  : AlertHandler :=
  {| isAlertActive := isAlertActive h;
     countdownTimer := countdownTimer h;
     countdownSeconds := countdownSeconds h;
     currentSeverity := currentSeverity h;
     alertDetails := alertDetails h;
     voiceRecognition := voiceRecognition h;
     shakeDetection := shakeDetection h;
     alertAudioContext := b;
     beepInterval := beepInterval h |}.

Definition setBeepInterval (b : bool) (h : AlertHandler) : AlertHandler :=
  {| isAlertActive := isAlertActive h;
     countdownTimer := countdownTimer h;
     countdownSeconds := countdownSeconds h;
     currentSeverity := currentSeverity h;
     alertDetails := alertDetails h;
     voiceRecognition := voiceRecognition h;
     shakeDetection := shakeDetection h;
     alertAudioContext := alertAudioContext h;
     beepInterval := b |}.

(** [clearCountdown()]. *)
Definition clearCountdown (h : AlertHandler) : AlertHandler :=
  setCountdownTimer None h.

(** [stopVoiceRecognition()]. *)
Definition stopVoiceRecognition (h : AlertHandler) : AlertHandler :=
  setVoiceRecognition false h.

(** [stopShakeDetection()]. *)
Definition stopShakeDetection (h : AlertHandler) : AlertHandler :=
  setShakeDetection false h.

(** [stopContinuousBeeping()]: clears the interval and closes the audio
    context. *)
Definition stopContinuousBeeping (h : AlertHandler) : AlertHandler :=
  setAlertAudioContext false (setBeepInterval false h).

Section Lifecycle.

(** The page the two modules run in. *)
Variable browser : Browser.

(** [playBeep()] and [playUrgentBeep()] create the audio context on first
    use; without [AudioContext] the constructor throws inside the [try] and
    the field stays [null]. *)
Definition playBeep (h : AlertHandler) : AlertHandler :=
  setAlertAudioContext
    (alertAudioContext h || audioContextSupported browser) h.

Definition playUrgentBeep (h : AlertHandler) : AlertHandler :=
  setAlertAudioContext
    (alertAudioContext h || audioContextSupported browser) h.

(** [startCountdown()]: a fresh interval whose [timeLeft] starts at
    [countdownSeconds]. *)
Definition startCountdown (h : AlertHandler) : AlertHandler :=
  setCountdownTimer (Some (countdownSeconds h)) h.

(** [startVoiceRecognition()]: returns early without the API. *)
Definition startVoiceRecognition (h : AlertHandler) : AlertHandler :=
  if speechRecognitionSupported browser then setVoiceRecognition true h
  else h.

(** [startShakeDetection()]. *)
Definition startShakeDetection (h : AlertHandler) : AlertHandler :=
  setShakeDetection true h.

(** [startContinuousBeeping()]: arms the 2 s interval and plays the first
    beep at once. *)
Definition startContinuousBeeping (h : AlertHandler) : AlertHandler :=
  playBeep (setBeepInterval true h).

(** [showAlert(severity, details)]. [updateAlertDisplay], [playAlertSound]
    and [vibrateDevice] touch the DOM, the speaker and the vibration motor
    only. [updateLocation] awaits the GPS collaborator and later adds a
    [location] field to the details object; [Details] keeps the fields the
    detector wrote and leaves that one out. *)
Definition showAlert (s : Severity) (details : Details) (w : World)
  : World :=
  let h := alertHandler w in
  if isAlertActive h then w
  else
    let h1 := setIsAlertActive true h in
    let h2 := setSession s details (getCountdownTime s) h1 in
    let w1 := switchScreen alertScreen (setHandler h2 w) in
    let h3 := startCountdown (alertHandler w1) in
    let h4 := startVoiceRecognition h3 in
    let h5 := startShakeDetection h4 in
    let h6 := startContinuousBeeping h5 in
    setHandler h6 w1.

(** [emergencyHandler.sendAlert(severity, details)] as seen by its caller:
    an [async] function, so the call returns a promise at its first [await]
    and cannot throw; the dispatch stays pending until it settles. *)
Definition sendAlert (s : Severity) (details : Details) (w : World)
  : World :=
  logCall (SendAlertCall s details)
    (setPendingDispatch (pendingDispatch w ++ [(s, details)]) w).

(** The promise of the oldest pending [sendAlert] settles. *)
Definition dispatchSettles (w : World) : option World :=
  match pendingDispatch w with
  | [] => None
  | _ :: rest => Some (setPendingDispatch rest w)
  end.

(** [sendEmergencyAlert()]. *)
Definition sendEmergencyAlert (w : World) : World :=
  let h1 := clearCountdown (alertHandler w) in
  let h2 := stopVoiceRecognition h1 in
  let h3 := stopShakeDetection h2 in
  let h4 := stopContinuousBeeping h3 in
  let h5 := setIsAlertActive false h4 in
  let w1 := setHandler h5 w in
  if negb (emergencyHandlerDefined browser) then w1
  else
    let w2 :=
      sendAlert (currentSeverity (alertHandler w1))
        (alertDetails (alertHandler w1)) w1 in
    switchScreen emergencyScreen w2.

(** One run of the interval callback installed by [startCountdown]; [None]
    when there is no live interval to run it. *)
Definition countdownTick (w : World) : option World :=
  match countdownTimer (alertHandler w) with
  | None => None
  | Some timeLeft =>
      let h1 :=
        if (timeLeft <=? 10) && (0 <? timeLeft)
        then playUrgentBeep (alertHandler w) else alertHandler w in
      let timeLeft' := timeLeft - 1 in
      if timeLeft' <? 0 then
        Some (sendEmergencyAlert (setHandler (clearCountdown h1) w))
      else Some (setHandler (setCountdownTimer (Some timeLeft') h1) w)
  end.

(** [cancelAlert()], run at clock reading [now]: the [setTimeout] callback
    becomes due 5000 ms later. *)
Definition cancelAlert (now : Z) (w : World) : World :=
  let h1 := clearCountdown (alertHandler w) in
  let h2 := stopVoiceRecognition h1 in
  let h3 := stopShakeDetection h2 in
  let h4 := stopContinuousBeeping h3 in
  let h5 := setIsAlertActive false h4 in
  let w1 := switchScreen dashboard (setHandler h5 w) in
  setResetTimers (resetTimers w1 ++ [now + 5000]) w1.

(** Removes the first timer of the list that is due at [now]. *)
Fixpoint takeDue (now : Z) (timers : list Z) : option (list Z) :=
  match timers with
  | [] => None
  | due :: rest =>
      if due <=? now then Some rest
      else option_map (cons due) (takeDue now rest)
  end.

(** The callback scheduled by [cancelAlert] runs at clock reading [now]:
    [accidentDetector.lastImpactTime = 0]. [None] when no timer is due. *)
Definition resetTimerFires (now : Z) (w : World) : option World :=
  match takeDue now (resetTimers w) with
  | None => None
  | Some rest =>
      Some (setDetector (setLastImpactTime 0 (accidentDetector w))
              (setResetTimers rest w))
  end.

(** [callEmergencyNow()]. *)
Definition callEmergencyNow (w : World) : World := sendEmergencyAlert w.

(** ** Detector: the stateful methods *)

(** [triggerAccidentAlert(severity, details)]; [currentTime] is its own
    [Date.now()] reading. *)
Definition triggerAccidentAlert (currentTime : Z) (s : Severity)
  (details : Details) (w : World) : World :=
  let w0 := logCall (AlertRequest currentTime s details) w in
  let d := accidentDetector w0 in
  if currentTime - lastImpactTime d <? 10000 then w0
  else
    let w1 := setDetector (setLastImpactTime currentTime d) w0 in
    match s with
    | low | none => w1
    | _ =>
        showAlert s details
          (logCall (ShowAlertCall currentTime s details) w1)
    end.

(** [analyzeSensorData(sensorData)]. The three clock readings are, in
    program order, the one of [analyzeSensorData], the one of
    [triggerAccidentAlert] and the one of [checkRotationAnomaly]. *)
Definition analyzeSensorData (currentTime alertTime rotationTime : Z)
  (sensorData : SensorData) (w : World) : World :=
  let d := accidentDetector w in
  if negb (isActive d) then w
  else
    let force := impactForce sensorData in
    let w1 :=
      if ge force (Fin (lowImpact (detectionThresholds d))) then
        let d1 :=
          if negb (sustainedHighForce d)
          then setSustainedHighForce true
                 (setHighForceStartTime currentTime d)
          else d in
        let forceDuration := currentTime - highForceStartTime d1 in
        let s := calculateSeverity (detectionThresholds d1) force
                   forceDuration in
        let d2 :=
          addDetectionEvent
            {| type := Impact;
               severity := s;
               metrics := ImpactMetrics force forceDuration;
               timestamp := currentTime |} d1 in
        let w2 := setDetector d2 w in
        if negb (Severity_eqb s none)
        then triggerAccidentAlert alertTime s
               (ImpactDetails force forceDuration) w2
        else w2
      else setDetector (setSustainedHighForce false d) w in
    setDetector
      (checkRotationAnomaly rotationTime (rotation sensorData)
         (accidentDetector w1)) w1.

(** [analyzeAudioData(audioData)]; [currentTime] is its [Date.now()]
    reading and [alertTime] the one of [triggerAccidentAlert]. *)
Definition analyzeAudioData (currentTime alertTime : Z)
  (audioData : AudioData) (w : World) : World :=
  let d := accidentDetector w in
  if negb (isActive d) then w
  else if ge (level audioData) (Fin (crashSoundLevel (detectionThresholds d)))
  then
    if 5000 <? currentTime - lastImpactTime d then
      match hasRecentImpact d currentTime 2000 with
      | Some recentImpact =>
          let s := calculateCombinedSeverity (detectionThresholds d)
                     recentImpact (level audioData) in
          let d1 :=
            addDetectionEvent
              {| type := Combined;
                 severity := s;
                 metrics := CombinedMetrics (level audioData);
                 timestamp := currentTime |} d in
          triggerAccidentAlert alertTime s
            (CombinedDetails (level audioData)) (setDetector d1 w)
      | None => w
      end
    else w
  else w.

(** [start()]: the sensor and audio callbacks it registers are the
    [SensorSample] and [AudioSample] inputs below. *)
Definition start (w : World) : World :=
  setDetector
    (setDetectionHistory [] (setIsActive true (accidentDetector w))) w.

(** [stop()]. *)
Definition stop (w : World) : World :=
  setDetector (setIsActive false (accidentDetector w)) w.

(** ** The event loop *)

(** What the page can deliver to the two singletons. [CancelRequest] is
    [cancelAlert()] from any of its callers: the button, the voice
    [onresult] handler on a matching transcript, the shake listener.
    [ManualTrigger] is [alertHandler.showAlert(...)] called from outside the
    detector. *)
Inductive Input : Type :=
| Start
| Stop
| SensorSample (currentTime alertTime rotationTime : Z)
    (sensorData : SensorData)
| AudioSample (currentTime alertTime : Z) (audioData : AudioData)
| CountdownTick
| CancelRequest (now : Z)
| ResetTimerFires (now : Z)
| EmergencyNow
| DispatchSettles
| ManualTrigger (s : Severity) (details : Details).

(** One turn of the event loop; [None] when the page cannot deliver the
    input in this state (a cleared interval, no timer due, nothing
    pending). *)
Definition step (w : World) (i : Input) : option World :=
  match i with
  | Start => Some (start w)
  | Stop => Some (stop w)
  | SensorSample currentTime alertTime rotationTime sensorData =>
      Some (analyzeSensorData currentTime alertTime rotationTime sensorData w)
  | AudioSample currentTime alertTime audioData =>
      Some (analyzeAudioData currentTime alertTime audioData w)
  | CountdownTick => countdownTick w
  | CancelRequest now => Some (cancelAlert now w)
  | ResetTimerFires now => resetTimerFires now w
  | EmergencyNow => Some (callEmergencyNow w)
  | DispatchSettles => dispatchSettles w
  | ManualTrigger s details => Some (showAlert s details w)
  end.

(** The inputs of a list delivered one after the other. *)
Fixpoint run (w : World) (inputs : list Input) : option World :=
  match inputs with
  | [] => Some w
  | i :: rest =>
      match step w i with
      | Some w' => run w' rest
      | None => None
      end
  end.

(** [n] consecutive runs of the countdown callback. *)
Fixpoint ticks (n : nat) (w : World) : option World :=
  match n with
  | O => Some w
  | S k =>
      match countdownTick w with
      | Some w' => ticks k w'
      | None => None
      end
  end.

End Lifecycle.

(** The page right after both scripts have loaded. *)
Definition initialWorld : World := {|
  accidentDetector := newAccidentDetector;
  alertHandler := newAlertHandler;
  activeScreen := dashboard;
  resetTimers := [];
  pendingDispatch := [];
  calls := []
|}.

(** A browser with every optional API present. *)
Definition fullBrowser : Browser := {|
  speechRecognitionSupported := true;
  audioContextSupported := true;
  emergencyHandlerDefined := true
|}.

(** The clock readings of the [showAlert] calls of a log, newest first. *)
Fixpoint alertTimes (l : list Call) : list Z :=
  match l with
  | [] => []
  | ShowAlertCall time _ _ :: rest => time :: alertTimes rest
  | _ :: rest => alertTimes rest
  end.

Definition isResetTimerFires (i : Input) : bool :=
  match i with
  | ResetTimerFires _ => true
  | _ => false
  end.

(** ** Vocabulary of the properties *)

(** The one-step upgrade as the specification words it: low becomes medium,
    medium becomes high, high and critical stay. *)
Definition upgradeOneStep (s : Severity) : Severity :=
  match s with
  | low => medium
  | medium => high
  | other => other
  end.

(** Position in the order none < low < medium < high < critical. *)
Definition severityRank (s : Severity) : Z :=
  match s with
  | none => 0
  | low => 1
  | medium => 2
  | high => 3
  | critical => 4
  end.



(** Nothing of a session is armed: no countdown interval, no voice or shake
    listener, no beep interval, no audio context. *)
Definition Disarmed (h : AlertHandler) : Prop :=
  countdownTimer h = None
  /\ voiceRecognition h = false
  /\ shakeDetection h = false
  /\ beepInterval h = false
  /\ alertAudioContext h = false.

(** No input of the list is the firing of a cooldown-reset timer. *)
Definition noResetFires (inputs : list Input) : bool :=
  forallb (fun i => negb (isResetTimerFires i)) inputs.

(** Every earlier [showAlert] call of a log (which is newest first) is at
    least 10000 ms older than every later one. *)
Definition AlertsApart (l : list Call) : Prop :=
  ForallOrdPairs (fun later earlier => earlier + 10000 <= later)
    (alertTimes l).

(** A world whose detector has been started. *)
Definition startedWorld : World := start initialWorld.

(** A clock reading of the year 2023, in ms since the epoch. *)
Definition someTime : Z := 1700000000000.

Definition levelOrientation : Orientation :=
  {| alpha := Fin 0; beta := Fin 0; gamma := Fin 0 |}.

(** A sample of [g] g with the device lying flat. *)
Definition flatSample (g : Q) : SensorData :=
  {| impactForce := Fin g; rotation := levelOrientation |}.

(** The world a list of inputs leads to, or the starting world itself when
    one of them cannot be delivered. *)
Definition worldAfter (browser : Browser) (w : World)
  (inputs : list Input) : World :=
  match run browser w inputs with
  | Some w' => w'
  | None => w
  end.

(** A started detector that saw a 3 g bump 6 s before [someTime], a calm
    sample, and then a 5.2 g impact at [someTime]. *)
Definition mediumImpactWorld : World :=
  worldAfter fullBrowser initialWorld
    [ Start;
      SensorSample (someTime - 6000) (someTime - 6000) (someTime - 6000)
        (flatSample 3);
      SensorSample (someTime - 5900) (someTime - 5900) (someTime - 5900)
        (flatSample 1);
      SensorSample someTime someTime someTime (flatSample (52 # 10)) ].

(** The history entry of that 5.2 g impact. *)
Definition mediumImpactEvent : DetectionEvent :=
  {| type := Impact;
     severity := medium;
     metrics := ImpactMetrics (Fin (52 # 10)) 0;
     timestamp := someTime |}.

(** A device tipped over by 90 degrees about its x axis. *)
Definition tippedSample (g : Q) : SensorData :=
  {| impactForce := Fin g;
     rotation := {| alpha := Fin 0; beta := Fin 90; gamma := Fin 0 |} |}.

(** The doubles nearest to 0.1 and to 45.1, and the double next above 45. *)
Definition tenthDouble : Q := 3602879701896397 # 36028797018963968.
Definition fortyFiveAndATenthDouble : Q :=
  6347260724825293 # 140737488355328.
Definition nextAbove45 : Q := 6333186975989761 # 140737488355328.

(** An orientation with the given beta, level otherwise. *)
Definition pitched (b : Q) : Orientation :=
  {| alpha := Fin 0; beta := Fin b; gamma := Fin 0 |}.

(** A started detector that has seen one calm, flat sample. *)
Definition calmWorld : World :=
  worldAfter fullBrowser initialWorld
    [ Start; SensorSample someTime someTime someTime (flatSample 1) ].

(** The requests [triggerAccidentAlert] lets through only to log them: the
    severities below medium. *)
Definition belowMedium (s : Severity) : bool :=
  match s with
  | low | none => true
  | _ => false
  end.

(** A 9 g crash that raises an alert, a cancellation one second later, the
    reset timer of that cancellation firing when it is due, and a second 9 g
    sample one millisecond after that. *)
Definition crashCancelCrash : list Input :=
  [ Start;
    SensorSample someTime someTime someTime (flatSample 9);
    CancelRequest (someTime + 1000);
    ResetTimerFires (someTime + 6000);
    SensorSample (someTime + 6001) (someTime + 6001) (someTime + 6001)
      (flatSample 9) ].

(** A burst of 9 g samples around a cancellation whose timer has not fired
    yet. *)
Definition crashBurst : list Input :=
  [ Start;
    SensorSample someTime someTime someTime (flatSample 9);
    SensorSample (someTime + 3) (someTime + 3) (someTime + 3) (flatSample 9);
    CancelRequest (someTime + 1000);
    SensorSample (someTime + 1500) (someTime + 1500) (someTime + 1500)
      (flatSample 9);
    SensorSample (someTime + 10000) (someTime + 10000) (someTime + 10000)
      (flatSample 9) ].

(** What the spacing argument looks at: the cooldown stamp and the times of
    the [showAlert] calls (newest first). *)
Definition cooldownView (w : World) : Z * list Z :=
  (lastImpactTime (accidentDetector w), alertTimes (calls w)).

(** The invariant of the spacing argument, for the [showAlert] calls made
    since the log held the times [base]: none of them is later than the
    stamp, and they are 10000 ms apart. *)
Definition ApartSince (base : list Z) (v : Z * list Z) : Prop :=
  exists recent : list Z,
    snd v = recent ++ base
    /\ Forall (fun t => t <= fst v) recent
    /\ ForallOrdPairs (fun later earlier => earlier + 10000 <= later) recent.

(** What comes after [crashCancelCrash]: a burst of 9 g samples, a
    cancellation whose timer stays pending, and a crash 10 s after the
    first of the burst. *)
Definition burstAfterReset : list Input :=
  [ SensorSample (someTime + 6004) (someTime + 6004) (someTime + 6004)
      (flatSample 9);
    CancelRequest (someTime + 7000);
    SensorSample (someTime + 9000) (someTime + 9000) (someTime + 9000)
      (flatSample 9);
    SensorSample (someTime + 16001) (someTime + 16001) (someTime + 16001)
      (flatSample 9) ].

(** The first four inputs of [crashCancelCrash], up to the firing of the
    reset timer, and the crash that follows it. *)
Definition crashCancelReset : list Input := firstn 4 crashCancelCrash.

Definition crashAfterReset : list Input := skipn 4 crashCancelCrash.

(** A cancellation on the idle page, a 5.2 g impact 4500 ms later, the
    reset timer of the cancellation 1000 ms after the impact, and a 105 dB
    sound 500 ms after that. *)
Definition impactResetSound : list Input :=
  [ Start;
    CancelRequest (someTime - 4500);
    SensorSample someTime someTime someTime (flatSample (52 # 10));
    ResetTimerFires (someTime + 1000);
    AudioSample (someTime + 1500) (someTime + 1500) {| level := Fin 105 |} ].

(** The world while the alert raised by a 9 g crash at [someTime] is
    counting down. *)
Definition alertingWorld : World :=
  worldAfter fullBrowser initialWorld
    [ Start; SensorSample someTime someTime someTime (flatSample 9) ].

(** The same alert after its countdown has run out: sixteen ticks. *)
Definition escalatedWorld : World :=
  match ticks fullBrowser 16 alertingWorld with
  | Some w => w
  | None => alertingWorld
  end.

(** The details of the 9 g crash of [alertingWorld]. *)
Definition crashDetails : Details := ImpactDetails (Fin 9) 0.

(** The alert of [alertingWorld] with its counter at zero: fifteen ticks. *)
Definition lastSecondWorld : World :=
  match ticks fullBrowser 15 alertingWorld with
  | Some w => w
  | None => alertingWorld
  end.

(** An idle handler has nothing armed. *)
Definition IdleDisarmed (w : World) : Prop :=
  isAlertActive (alertHandler w) = false -> Disarmed (alertHandler w).

(** ** Vocabulary of the further properties *)

(** The history holds at most 50 entries. *)
Definition HistoryBounded (w : World) : Prop :=
  (length (detectionHistory (accidentDetector w)) <= 50)%nat.

(** [addDetectionEvent] called for each event of a list in turn. *)
Definition addDetectionEvents (events : list DetectionEvent)
  (d : AccidentDetector) : AccidentDetector :=
  fold_left (fun d' e => addDetectionEvent e d') events d.

(** Every impact entry of the history carries a severity other than
    ['none']. *)
Definition ImpactsClassified (w : World) : Prop :=
  Forall (fun e => type e = Impact -> severity e <> none)
    (detectionHistory (accidentDetector w)).

(** An input that is not a sensor sample below the low threshold [t]. *)
Definition keepsForce (t : Thresholds) (i : Input) : bool :=
  match i with
  | SensorSample _ _ _ sensorData =>
      ge (impactForce sensorData) (Fin (lowImpact t))
  | _ => true
  end.

(** An active alert has its countdown interval live, with a counter between
    zero and the table entry of the stored severity, and its shake listener
    and beep interval armed. *)
Definition Counting (h : AlertHandler) : Prop :=
  exists timeLeft,
    countdownTimer h = Some timeLeft
    /\ 0 <= timeLeft <= countdownSeconds h
    /\ countdownSeconds h = getCountdownTime (currentSeverity h)
    /\ shakeDetection h = true
    /\ beepInterval h = true.

Definition HandlerConsistent (h : AlertHandler) : Prop :=
  (isAlertActive h = false -> Disarmed h)
  /\ (isAlertActive h = true -> Counting h).

(** What the sustained-force tracker consists of, with the thresholds it is
    compared against. *)
Definition trackerView (d : AccidentDetector) : Thresholds * bool * Z :=
  (detectionThresholds d, sustainedHighForce d, highForceStartTime d).

(** The alert requests of a log. *)
Definition isAlertRequest (c : Call) : bool :=
  match c with
  | AlertRequest _ _ _ => true
  | _ => false
  end.

Definition alertRequests (l : list Call) : list Call :=
  filter isAlertRequest l.

(** An input that is not a sensor sample at or above the low threshold
    [t]. *)
Definition belowLow (t : Thresholds) (i : Input) : bool :=
  match i with
  | SensorSample _ _ _ sensorData =>
      negb (ge (impactForce sensorData) (Fin (lowImpact t)))
  | _ => true
  end.

(** The history holds no impact entry. *)
Definition NoImpactEntry (d : AccidentDetector) : Prop :=
  Forall (fun e => type e <> Impact) (detectionHistory d).

(** * The sensor, audio, voice and emergency modules *)

(** A sample as the detector reads it, built from its two fields. *)
Definition mkSensorData (force : num) (r : Orientation) : SensorData :=
  {| impactForce := force; rotation := r |}.

(** A whole number as a JavaScript number. *)
Definition ofInt (n : Z) : num := Fin (inject_Z n).

(** [v || 0] for a value that is a number, [null] or [undefined]: NaN and
    the missing values give 0 (and so does 0 itself). *)
Definition orZero (v : option num) : num :=
  match v with
  | Some NaN | None => Fin 0
  | Some n => n
  end.

(** ** [SensorManager] of [sensors.js] *)

Module SensorManager.

(** [sensorData.acceleration]. *)
Record Acceleration : Type := {
  x : num;
  y : num;
  z : num
}.

(** [this.sensorData]. *)
Record Data : Type := {
  acceleration : Acceleration;
  rotation : Orientation;
  impactForce : num;
  maxImpact : num
}.

(** [event.accelerationIncludingGravity] of a [devicemotion] event: absent,
    or three axes each of which may be [null]. *)
Record RawAcceleration : Type := {
  rawX : option num;
  rawY : option num;
  rawZ : option num
}.

(** The angles of a [deviceorientation] event, each of which may be
    [null]. *)
Record RawOrientation : Type := {
  rawAlpha : option num;
  rawBeta : option num;
  rawGamma : option num
}.

Section Manager.

(** The type of the registered callbacks. *)
Variable C : Type.

(** [Math.sqrt(x^2 + y^2 + z^2) / 9.81] in double arithmetic, taken as a
    parameter. *)
Variable gForce : num -> num -> num -> num.

(** The fields of a [SensorManager], the number of [devicemotion] and
    [deviceorientation] listeners it has added to [window], and the number
    of [calibrate] timers that have not fired yet. *)
Record t : Type := {
  isMonitoring : bool;
  sensorData : Data;
  callbacks : list C;
  motionListeners : nat;
  orientationListeners : nat;
  pendingCalibrations : nat
}.

(** [new SensorManager()]. *)
Definition new : t := {|
  isMonitoring := false;
  sensorData :=
    {| acceleration := {| x := Fin 0; y := Fin 0; z := Fin 0 |};
       rotation := {| alpha := Fin 0; beta := Fin 0; gamma := Fin 0 |};
       impactForce := Fin 0;
       maxImpact := Fin 0 |};
  callbacks := [];
  motionListeners := 0;
  orientationListeners := 0;
  pendingCalibrations := 0
|}.

Definition setSensorData (data : Data) (m : t) : t :=
  {| isMonitoring := isMonitoring m;
     sensorData := data;
     callbacks := callbacks m;
     motionListeners := motionListeners m;
     orientationListeners := orientationListeners m;
     pendingCalibrations := pendingCalibrations m |}.

(** [startMonitoring(callback)]; the two flags say whether
    [window.DeviceMotionEvent] and [window.DeviceOrientationEvent] exist.
    Each call that gets past the guard adds fresh listeners and starts a
    calibration timer. *)
Definition startMonitoring (hasMotion hasOrientation : bool)
  (callback : option C) (m : t) : t :=
  if isMonitoring m then m
  else
    {| isMonitoring := true;
       sensorData := sensorData m;
       callbacks :=
         match callback with
         | Some cb => callbacks m ++ [cb]
         | None => callbacks m
         end;
       motionListeners :=
         if hasMotion then S (motionListeners m) else motionListeners m;
       orientationListeners :=
         if hasOrientation then S (orientationListeners m)
         else orientationListeners m;
       pendingCalibrations := S (pendingCalibrations m) |}.

(** [stopMonitoring()]: [removeEventListener] is given a function freshly
    made by [bind], which is none of the registered ones, so the listeners
    stay. *)
Definition stopMonitoring (m : t) : t :=
  {| isMonitoring := false;
     sensorData := sensorData m;
     callbacks := callbacks m;
     motionListeners := motionListeners m;
     orientationListeners := orientationListeners m;
     pendingCalibrations := pendingCalibrations m |}.

(** The timer of [calibrate()] fires: [maxImpact = 0]. *)
Definition calibrationFires (m : t) : option t :=
  match pendingCalibrations m with
  | O => None
  | S n =>
      Some {| isMonitoring := isMonitoring m;
              sensorData :=
                {| acceleration := acceleration (sensorData m);
                   rotation := rotation (sensorData m);
                   impactForce := impactForce (sensorData m);
                   maxImpact := Fin 0 |};
              callbacks := callbacks m;
              motionListeners := motionListeners m;
              orientationListeners := orientationListeners m;
              pendingCalibrations := n |}
  end.

(** [notifyCallbacks()]: every callback is called with [this.sensorData];
    the result lists the calls in order. *)
Definition notifyCallbacks (m : t) : list (C * Data) :=
  map (fun cb => (cb, sensorData m)) (callbacks m).

(** [handleMotion(event)]: the new state and the callback calls made. *)
Definition handleMotion (accel : option RawAcceleration) (m : t)
  : t * list (C * Data) :=
  if negb (isMonitoring m) then (m, [])
  else
    match accel with
    | None => (m, [])
    | Some a =>
        let ax := orZero (rawX a) in
        let ay := orZero (rawY a) in
        let az := orZero (rawZ a) in
        let force := gForce ax ay az in
        let data := sensorData m in
        let newMax :=
          if gt force (maxImpact data) then force else maxImpact data in
        let m' :=
          setSensorData
            {| acceleration := {| x := ax; y := ay; z := az |};
               rotation := rotation data;
               impactForce := force;
               maxImpact := newMax |} m in
        (m', notifyCallbacks m')
    end.

(** [handleOrientation(event)]. *)
Definition handleOrientation (event : RawOrientation) (m : t)
  : t * list (C * Data) :=
  if negb (isMonitoring m) then (m, [])
  else
    let data := sensorData m in
    let m' :=
      setSensorData
        {| acceleration := acceleration data;
           rotation :=
             {| alpha := orZero (rawAlpha event);
                beta := orZero (rawBeta event);
                gamma := orZero (rawGamma event) |};
           impactForce := impactForce data;
           maxImpact := maxImpact data |} m in
    (m', notifyCallbacks m').

(** A [devicemotion] event reaches [window]: every listener the manager has
    added runs [handleMotion] on it, one after the other. *)
Fixpoint dispatchMotion (listeners : nat) (accel : option RawAcceleration)
  (m : t) : t * list (C * Data) :=
  match listeners with
  | O => (m, [])
  | S n =>
      let (m1, calls1) := handleMotion accel m in
      let (m2, calls2) := dispatchMotion n accel m1 in
      (m2, calls1 ++ calls2)
  end.

(** The events [window] delivers to one listener of the manager. *)
Inductive Event : Type :=
| Motion (accel : option RawAcceleration)
| Orientation (event : RawOrientation).

(** The state after one event, and after a list of them. *)
Definition handle (e : Event) (m : t) : t :=
  match e with
  | Motion accel => fst (handleMotion accel m)
  | Orientation event => fst (handleOrientation event m)
  end.

Definition handleAll (events : list Event) (m : t) : t :=
  fold_left (fun m' e => handle e m') events m.

(** What the detector's callback reads of the object it is handed. *)
Definition toSensorData (data : Data) : SensorData :=
  mkSensorData (impactForce data) (rotation data).

End Manager.

Arguments isMonitoring {C}.
Arguments sensorData {C}.
Arguments callbacks {C}.
Arguments motionListeners {C}.
Arguments orientationListeners {C}.
Arguments pendingCalibrations {C}.
Arguments setSensorData {C}.
Arguments startMonitoring {C}.
Arguments stopMonitoring {C}.
Arguments calibrationFires {C}.
Arguments notifyCallbacks {C}.
Arguments handleMotion {C}.
Arguments handleOrientation {C}.
Arguments dispatchMotion {C}.
Arguments handle {C}.
Arguments handleAll {C}.

End SensorManager.

(** The forces [handleMotion] computes for the events of a list: one for
    each [devicemotion] event that carries an acceleration. *)
Definition motionForces (gForce : num -> num -> num -> num)
  (events : list SensorManager.Event) : list num :=
  flat_map
    (fun e =>
       match e with
       | SensorManager.Motion (Some a) =>
           [ gForce (orZero (SensorManager.rawX a))
               (orZero (SensorManager.rawY a))
               (orZero (SensorManager.rawZ a)) ]
       | _ => []
       end)
    events.

(** ** [AudioMonitor] of [sensors.js] *)

Module AudioMonitor.

Section Monitor.

Variable C : Type.

(** The fields of an [AudioMonitor] that outlive a frame. *)
Record t : Type := {
  isMonitoring : bool;
  soundLevel : num;
  peakLevel : num;
  callbacks : list C
}.

(** [new AudioMonitor()]. *)
Definition new : t := {|
  isMonitoring := false;
  soundLevel := Fin 0;
  peakLevel := Fin 0;
  callbacks := []
|}.

(** The loop that adds up the entries of the [Uint8Array]. *)
Definition byteSum (dataArray : list Byte.byte) : Z :=
  fold_left (fun sum b => sum + Z.of_N (Byte.to_N b)) dataArray 0.

(** [Math.round(sum / dataArray.length)]: the mean rounded to the nearest
    integer, halves upwards; NaN for an empty array. The quotient is exact
    in double arithmetic for the 128 bins of the analyser
    ([fftSize = 256]). *)
Definition roundedAverage (dataArray : list Byte.byte) : num :=
  match dataArray with
  | [] => NaN
  | _ :: _ =>
      let n := Z.of_nat (length dataArray) in
      ofInt ((2 * byteSum dataArray + n) / (2 * n))
  end.

(** The body of [startMonitoring(callback)] once [getUserMedia] has
    resolved; when it rejects the monitor is left as it was. *)
Definition startMonitoring (granted : bool) (callback : option C) (m : t)
  : t :=
  if isMonitoring m then m
  else if granted then
    {| isMonitoring := true;
       soundLevel := soundLevel m;
       peakLevel := peakLevel m;
       callbacks :=
         match callback with
         | Some cb => callbacks m ++ [cb]
         | None => callbacks m
         end |}
  else m.

(** [stopMonitoring()]. *)
Definition stopMonitoring (m : t) : t :=
  {| isMonitoring := false;
     soundLevel := soundLevel m;
     peakLevel := peakLevel m;
     callbacks := callbacks m |}.

(** [resetPeak()]. *)
Definition resetPeak (m : t) : t :=
  {| isMonitoring := isMonitoring m;
     soundLevel := soundLevel m;
     peakLevel := Fin 0;
     callbacks := callbacks m |}.

(** One frame of [analyzeAudio()] on the bytes [getByteFrequencyData]
    wrote: the new state and the callback calls made, each with the
    [level] the detector reads. *)
Definition analyzeAudio (dataArray : list Byte.byte) (m : t)
  : t * list (C * AudioData) :=
  if negb (isMonitoring m) then (m, [])
  else
    let newLevel := roundedAverage dataArray in
    let newPeak :=
      if gt newLevel (peakLevel m) then newLevel else peakLevel m in
    let m' :=
      {| isMonitoring := isMonitoring m;
         soundLevel := newLevel;
         peakLevel := newPeak;
         callbacks := callbacks m |} in
    (m', map (fun cb => (cb, {| level := newLevel |})) (callbacks m)).

(** The state after a list of frames. *)
Definition analyzeFrames (frames : list (list Byte.byte)) (m : t) : t :=
  fold_left (fun m' dataArray => fst (analyzeAudio dataArray m')) frames m.

End Monitor.

Arguments isMonitoring {C}.
Arguments soundLevel {C}.
Arguments peakLevel {C}.
Arguments callbacks {C}.
Arguments startMonitoring {C}.
Arguments stopMonitoring {C}.
Arguments resetPeak {C}.
Arguments analyzeAudio {C}.
Arguments analyzeFrames {C}.

End AudioMonitor.

(** ** The voice listener of the alert handler *)

Module Voice.

Import Ascii String.

(** A JavaScript string as its UTF-16 code units. *)
Definition jsString : Type := list N.

(** An ASCII literal as a JavaScript string. *)
Definition lit (s : string) : jsString :=
  map N_of_ascii (list_ascii_of_string s).

(** [s.startsWith(prefix)]. *)
Fixpoint startsWith (s prefix : jsString) : bool :=
  match prefix, s with
  | [], _ => true
  | _ :: _, [] => false
  | c :: prefix', c' :: s' => N.eqb c c' && startsWith s' prefix'
  end.

(** [s.includes(search)]. *)
Fixpoint includes (s search : jsString) : bool :=
  startsWith s search
  || match s with
     | [] => false
     | _ :: rest => includes rest search
     end.

(** The [cancelKeywords] array of the [onresult] handler. *)
Definition cancelKeywords : list jsString :=
  map lit
    [ "cancel"%string; "stop"%string; "okay"%string; "ok"%string;
      "i'm okay"%string; "i'm ok"%string; "fine"%string;
      "i'm fine"%string; "safe"%string; "i'm safe"%string;
      "no emergency"%string; "false alarm"%string; "mistake"%string ].

(** The keywords that do not contain another keyword. *)
Definition cancelStems : list jsString :=
  map lit
    [ "cancel"%string; "stop"%string; "ok"%string; "fine"%string;
      "safe"%string; "no emergency"%string; "false alarm"%string;
      "mistake"%string ].

(** The [for ... of] loop with its [break]: whether some keyword is
    included. *)
Definition matchesCancelKeyword (transcript : jsString) : bool :=
  existsb (includes transcript) cancelKeywords.

(** The [onresult] handler, run at clock reading [now] on the transcripts
    of [event.results]. [toLowerCase] is [String.prototype.toLowerCase]. *)
Definition onresult (toLowerCase : jsString -> jsString)
  (results : list jsString) (now : Z) (w : World) : World :=
  let transcript := toLowerCase (List.concat results) in
  if matchesCancelKeyword transcript then cancelAlert now w else w.

(** Two transcripts a recogniser may return. *)
Definition transcriptBroken : jsString := lit "the window is broken"%string.
Definition transcriptHelp : jsString := lit "help me"%string.

End Voice.

(** ** [EmergencyHandler] and [GPSTracker] of [emergency.js] *)

Module EmergencyHandler.

Import Ascii String.

(** The two [localStorage] items the handler reads. *)
Record Storage : Type := {
  storedEmergencyNumber : option string;
  storedEnableAutoCall : option string
}.

(** The handler's own field and the storage behind it. *)
Record t : Type := {
  emergencyNumber : string;
  localStorage : Storage
}.

(** [new EmergencyHandler()] on a page with the given storage. *)
Definition new (storage : Storage) : t :=
  {| emergencyNumber := "911"%string; localStorage := storage |}.

(** [setEmergencyNumber(number)]. *)
Definition setEmergencyNumber (number : string) (h : t) : t :=
  {| emergencyNumber := number;
     localStorage :=
       {| storedEmergencyNumber := Some number;
          storedEnableAutoCall :=
            storedEnableAutoCall (localStorage h) |} |}.

(** [getEmergencyNumber()]: [stored || this.emergencyNumber], where a
    missing item and the empty string are both falsy. *)
Definition getEmergencyNumber (h : t) : string :=
  match storedEmergencyNumber (localStorage h) with
  | Some (String c rest) => String c rest
  | Some EmptyString | None => emergencyNumber h
  end.

(** [saveEmergencyNumber()] with the text of the input field, [None] when
    the field is not in the page. *)
Definition saveEmergencyNumber (input : option string) (h : t) : t :=
  match input with
  | Some (String c rest) => setEmergencyNumber (String c rest) h
  | Some EmptyString | None => h
  end.

(** The page is loaded again: a new handler over the same storage. *)
Definition reload (h : t) : t := new (localStorage h).

(** The default number. *)
Definition defaultNumber : string := "911"%string.

(** A number to store. *)
Definition sampleNumber : string := "+1 555 0100"%string.

End EmergencyHandler.

Module GPSTracker.

(** A position as the tracker stores it. *)
Record Position : Type := {
  latitude : num;
  longitude : num;
  accuracy : num;
  timestamp : Z
}.

(** The fields of a [GPSTracker] that [getCurrentPosition] uses. *)
Record t : Type := {
  currentPosition : option Position;
  isTracking : bool
}.

(** [new GPSTracker()]. *)
Definition new : t := {| currentPosition := None; isTracking := false |}.

(** How the promise of [getCurrentPosition] settles. *)
Inductive Result : Type :=
| Resolved (p : Position)
| Rejected.

(** What the browser's [navigator.geolocation.getCurrentPosition] answers:
    the success callback with a position, or the error callback. *)
Inductive Answer : Type :=
| Success (p : Position)
| Failure.

(** The success callback of [watchPosition] in [startTracking]. *)
Definition onWatchPosition (p : Position) (g : t) : t :=
  {| currentPosition := Some p; isTracking := true |}.

(** The synchronous part of [getCurrentPosition()] at clock reading [now]:
    [Some] result when the promise settles at once, [None] when the browser
    has been asked. [hasGeolocation] says whether [navigator.geolocation]
    exists. *)
Definition askPosition (now : Z) (hasGeolocation : bool) (g : t)
  : option Result :=
  match currentPosition g with
  | Some p =>
      if now - timestamp p <? 30000 then Some (Resolved p)
      else if negb hasGeolocation then Some Rejected
      else None
  | None => if negb hasGeolocation then Some Rejected else None
  end.

(** The callback the browser runs when it answers, on the tracker as it is
    at that time. *)
Definition onAnswer (a : Answer) (g : t) : t * Result :=
  match a with
  | Success p =>
      ({| currentPosition := Some p; isTracking := isTracking g |},
       Resolved p)
  | Failure =>
      match currentPosition g with
      | Some p => (g, Resolved p)
      | None => (g, Rejected)
      end
  end.

(** [getCurrentPosition()] with nothing else running between the call and
    the browser's answer. *)
Definition getCurrentPosition (now : Z) (geolocation : option Answer)
  (g : t) : t * Result :=
  match askPosition now
          (match geolocation with Some _ => true | None => false end) g with
  | Some r => (g, r)
  | None =>
      match geolocation with
      | Some a => onAnswer a g
      | None => (g, Rejected)
      end
  end.

(** The placeholder [sendAlert] uses when the promise rejects (the source
    object has no timestamp and carries [unavailable: true], which is the
    [false] of [alertLocation] below). *)
Definition placeholder : Position :=
  {| latitude := Fin 0; longitude := Fin 0; accuracy := Fin 0;
     timestamp := 0 |}.

(** The [try]/[catch] around the [await] in [sendAlert]: the location the
    message is built from and the [locationAvailable] flag. *)
Definition alertLocation (r : Result) : Position * bool :=
  match r with
  | Resolved p => (p, true)
  | Rejected => (placeholder, false)
  end.

End GPSTracker.

(** * Properties *)

(** ** Comparison of numbers *)

Lemma ge_Fin_true (f : num) (a : Q) :
  ge f (Fin a) = true <->
  f = PosInf \/ exists q, f = Fin q /\ (a <= q)%Q.
Proof.
  destruct f as [q | | |]; simpl.
  - rewrite Qle_bool_iff. split.
    + intros H. right. exists q. split; [reflexivity | exact H].
    + intros [H | [q' [H1 H2]]]; [discriminate | ].
      injection H1 as ->. exact H2.
  - split; [intros _; left; reflexivity | reflexivity].
  - split; [discriminate | ].
    intros [H | [q [H _]]]; discriminate.
  - split; [discriminate | ].
    intros [H | [q [H _]]]; discriminate.
Qed.

(** [>=] against a smaller finite bound follows from [>=] against a larger
    one. *)
Lemma ge_Fin_weaken (f : num) (a b : Q) :
  (b <= a)%Q -> ge f (Fin a) = true -> ge f (Fin b) = true.
Proof.
  intros Hba H. apply ge_Fin_true in H. apply ge_Fin_true.
  destruct H as [H | [q [H1 H2]]]; [left; exact H | ].
  right. exists q. split; [exact H1 | ].
  apply Qle_trans with a; assumption.
Qed.

Lemma ge_Fin_false_strengthen (f : num) (a b : Q) :
  (b <= a)%Q -> ge f (Fin b) = false -> ge f (Fin a) = false.
Proof.
  intros Hba H. destruct (ge f (Fin a)) eqn:E; [ | reflexivity].
  rewrite (ge_Fin_weaken f a b Hba E) in H. discriminate.
Qed.

(** ** Rounding to the nearest double *)















(** Rounding at a few known places: 0.1 and 45.1 are not doubles and
    round to the doubles next to them; a double rounds to itself; half the
    smallest subnormal rounds to zero and three halves of it to twice it;
    the midpoint above the largest double overflows. *)
Example round_samples :
  round (1 # 10) = Fin (scaled 7205759403792794 (-56))
  /\ (scaled 7205759403792794 (-56) == tenthDouble)%Q
  /\ round (451 # 10) = Fin fortyFiveAndATenthDouble
  /\ round nextAbove45 = Fin nextAbove45
  /\ round (1 # Z.to_pos (2 ^ 1075)) = Fin (0 # Z.to_pos (2 ^ 1074))
  /\ round (3 # Z.to_pos (2 ^ 1075)) = Fin (2 # Z.to_pos (2 ^ 1074))
  /\ round (inject_Z ((2 ^ 53 - 1) * 2 ^ 971))
     = Fin (inject_Z ((2 ^ 53 - 1) * 2 ^ 971))
  /\ round (inject_Z (2 ^ 1024 - 2 ^ 970)) = PosInf.
Proof.
  split; [vm_compute; reflexivity | ].
  split; [vm_compute; reflexivity | ].
  split; [vm_compute; reflexivity | ].
  split; [vm_compute; reflexivity | ].
  split; [vm_compute; reflexivity | ].
  split; [vm_compute; reflexivity | ].
  split; [vm_compute; reflexivity | ].
  vm_compute; reflexivity.
Qed.

(** ** Severity classification *)

(** The cut points of the constructor are increasing. *)
Lemma defaultThresholds_ordered :
  (lowImpact defaultThresholds < mediumImpact defaultThresholds)%Q
  /\ (mediumImpact defaultThresholds < highImpact defaultThresholds)%Q
  /\ (highImpact defaultThresholds < criticalImpact defaultThresholds)%Q.
Proof. repeat split. Qed.

Example calculateSeverity_5_2 :
  calculateSeverity defaultThresholds (Fin (52 # 10)) 0 = medium.
Proof. reflexivity. Qed.

Example calculateSeverity_7_short :
  calculateSeverity defaultThresholds (Fin 7) 199 = high.
Proof. reflexivity. Qed.

Example calculateSeverity_7_sustained :
  calculateSeverity defaultThresholds (Fin 7) 200 = critical.
Proof. reflexivity. Qed.

Example calculateSeverity_NaN :
  calculateSeverity defaultThresholds NaN 1000 = none.
Proof. reflexivity. Qed.

(** C5. With the default thresholds, [calculateSeverity] classifies a force
    [f] held for [d] ms by first match: critical exactly when [f >= 8] or
    ([f >= 6] and [d >= 200]); high exactly when [f >= 6] and neither of
    these holds; medium exactly when [4 <= f] and not [f >= 6]; low exactly
    when [2.5 <= f] and not [f >= 4]; none exactly when not [f >= 2.5]. In
    particular a finite force in [6, 8) gives high while [d < 200] and
    critical from [d = 200] on. *)
Theorem calculateSeverity_precedence : forall (f : num) (d : Z),
  let s := calculateSeverity defaultThresholds f d in
  (s = critical <->
     ge f (Fin 8) = true \/ (ge f (Fin 6) = true /\ 200 <= d))
  /\ (s = high <->
        ge f (Fin 6) = true /\ ge f (Fin 8) = false /\ d < 200)
  /\ (s = medium <-> ge f (Fin 4) = true /\ ge f (Fin 6) = false)
  /\ (s = low <-> ge f (Fin (5 # 2)) = true /\ ge f (Fin 4) = false)
  /\ (s = none <-> ge f (Fin (5 # 2)) = false)
  /\ (forall q : Q, f = Fin q -> (6 <= q)%Q -> (q < 8)%Q ->
        (d < 200 -> s = high) /\ (200 <= d -> s = critical)).
Proof.
  intros f d s. subst s. unfold calculateSeverity. simpl.
  assert (H86 : ge f (Fin 8) = true -> ge f (Fin 6) = true)
    by (apply ge_Fin_weaken; discriminate).
  assert (H64 : ge f (Fin 6) = true -> ge f (Fin 4) = true)
    by (apply ge_Fin_weaken; discriminate).
  assert (H42 : ge f (Fin 4) = true -> ge f (Fin (5 # 2)) = true)
    by (apply ge_Fin_weaken; discriminate).
  assert (Hq : forall q : Q, f = Fin q -> (6 <= q)%Q -> (q < 8)%Q ->
               ge f (Fin 6) = true /\ ge f (Fin 8) = false).
  { intros q -> H6 H8. simpl. split.
    - apply Qle_bool_iff. exact H6.
    - destruct (Qle_bool 8 q) eqn:E; [ | reflexivity].
      apply Qle_bool_iff in E. exfalso. exact (Qlt_not_le _ _ H8 E). }
  destruct (ge f (Fin 8)) eqn:E8; destruct (ge f (Fin 6)) eqn:E6;
    destruct (ge f (Fin 4)) eqn:E4; destruct (ge f (Fin (5 # 2))) eqn:E2;
    destruct (Z.leb_spec 200 d) as [Hd | Hd]; simpl;
    try (specialize (H86 eq_refl); discriminate);
    try (specialize (H64 eq_refl); discriminate);
    try (specialize (H42 eq_refl); discriminate);
    repeat split; intros;
    repeat match goal with
      | H : _ /\ _ |- _ => destruct H
      | H : _ \/ _ |- _ => destruct H
      end;
    try discriminate; try lia; try reflexivity;
    try (left; reflexivity); try (right; split; [reflexivity | lia]);
    try (match goal with
         | H : f = Fin ?q, H6 : (6 <= ?q)%Q, H8 : (?q < 8)%Q |- _ =>
             destruct (Hq q H H6 H8); discriminate
         end).
Qed.

(** ** Sound and impact combined *)

Lemma hasRecentImpact_Some (d : AccidentDetector) (now window : Z)
  (e : DetectionEvent) :
  hasRecentImpact d now window = Some e ->
  In e (detectionHistory d) /\ type e = Impact
  /\ now - timestamp e <= window.
Proof.
  unfold hasRecentImpact. intros H. apply find_some in H.
  destruct H as [Hin Htest]. unfold isRecentImpact in Htest.
  apply andb_prop in Htest. destruct Htest as [Ht Hty].
  split; [apply in_rev; exact Hin | ]. split.
  - destruct (type e); simpl in Hty; congruence.
  - apply Z.leb_le. exact Ht.
Qed.

Lemma hasRecentImpact_None (d : AccidentDetector) (now window : Z) :
  hasRecentImpact d now window = None <->
  forall e, In e (detectionHistory d) -> type e = Impact ->
            window < now - timestamp e.
Proof.
  unfold hasRecentImpact. split.
  - intros H e Hin Hty.
    pose proof (find_none _ _ H e (proj1 (in_rev _ _) Hin)) as Hf.
    unfold isRecentImpact in Hf. rewrite Hty in Hf. simpl in Hf.
    rewrite andb_true_r in Hf. apply Z.leb_gt. exact Hf.
  - intros H.
    destruct (find (isRecentImpact now window) (rev (detectionHistory d)))
      as [e | ] eqn:E; [ | reflexivity].
    apply find_some in E. destruct E as [Hin Htest]. exfalso.
    unfold isRecentImpact in Htest. apply andb_prop in Htest.
    destruct Htest as [Ht Hty]. apply Z.leb_le in Ht.
    assert (Hi : type e = Impact)
      by (destruct (type e); simpl in Hty; congruence).
    specialize (H e (proj2 (in_rev _ _) Hin) Hi). lia.
Qed.

(** The newest entry after [addDetectionEvent] is the event just added,
    whether or not the oldest one was dropped. *)
Lemma addDetectionEvent_newest (e : DetectionEvent) (d : AccidentDetector) :
  exists older,
    detectionHistory (addDetectionEvent e d) = older ++ [e]
    /\ Z.of_nat (length (detectionHistory (addDetectionEvent e d)))
       <= Z.max 50 (Z.of_nat (length (detectionHistory d))).
Proof.
  unfold addDetectionEvent. cbn [detectionHistory setDetectionHistory].
  destruct (50 <? Z.of_nat (length (detectionHistory d ++ [e]))) eqn:L.
  - apply Z.ltb_lt in L. rewrite length_app in L. cbn [length] in L.
    destruct (detectionHistory d) as [ | e0 older].
    + cbn [length] in L. lia.
    + exists older. split; [reflexivity | ].
      cbn [app tl length]. rewrite length_app. cbn [length]. lia.
  - apply Z.ltb_ge in L. exists (detectionHistory d).
    split; [reflexivity | ]. lia.
Qed.

Lemma triggerAccidentAlert_detectionHistory (browser : Browser) (now : Z)
  (s : Severity) (details : Details) (w : World) :
  detectionHistory (accidentDetector
                      (triggerAccidentAlert browser now s details w))
  = detectionHistory (accidentDetector w).
Proof.
  unfold triggerAccidentAlert, showAlert. simpl.
  destruct (now - lastImpactTime (accidentDetector w) <? 10000);
    [reflexivity | ].
  destruct s; simpl; try reflexivity;
    destruct (isAlertActive (alertHandler w)); reflexivity.
Qed.

Example calculateCombinedSeverity_low :
  calculateCombinedSeverity defaultThresholds
    {| type := Impact; severity := low;
       metrics := ImpactMetrics (Fin 3) 0; timestamp := someTime |}
    (Fin 105) = medium.
Proof. reflexivity. Qed.

(** C8. For a sound level of at least 100 dB, [calculateCombinedSeverity]
    returns the severity of the impact event raised by one step: low to
    medium, medium to high, high and critical kept, never more than one
    rank. An audio sample of that level which passes the 5000 ms guard of
    [analyzeAudioData] and finds the impact event [e] within the last
    2000 ms is recorded as a combined event of that severity, and the alert
    request is made with it. *)
Theorem combined_severity_one_step (e : DetectionEvent) (soundLevel : num) :
  ge soundLevel (Fin 100) = true ->
  let s := calculateCombinedSeverity defaultThresholds e soundLevel in
  s = upgradeOneStep (severity e)
  /\ (severity e = low -> s = medium)
  /\ (severity e = medium -> s = high)
  /\ (severity e = high -> s = high)
  /\ (severity e = critical -> s = critical)
  /\ severityRank s <= severityRank (severity e) + 1
  /\ forall (browser : Browser) (currentTime alertTime : Z) (w : World),
       isActive (accidentDetector w) = true ->
       detectionThresholds (accidentDetector w) = defaultThresholds ->
       5000 < currentTime - lastImpactTime (accidentDetector w) ->
       hasRecentImpact (accidentDetector w) currentTime 2000 = Some e ->
       let w' := analyzeAudioData browser currentTime alertTime
                   {| level := soundLevel |} w in
       type e = Impact /\ currentTime - timestamp e <= 2000
       /\ (exists older,
             detectionHistory (accidentDetector w')
             = older ++ [ {| type := Combined; severity := s;
                             metrics := CombinedMetrics soundLevel;
                             timestamp := currentTime |} ])
       /\ In (AlertRequest alertTime s (CombinedDetails soundLevel))
            (calls w').
Proof.
  intros Hlevel s.
  assert (Hs : s = upgradeOneStep (severity e)).
  { subst s. unfold calculateCombinedSeverity.
    change (crashSoundLevel defaultThresholds) with (100 : Q).
    rewrite Hlevel. destruct (severity e); reflexivity. }
  split; [exact Hs | ].
  split; [intros H; rewrite Hs, H; reflexivity | ].
  split; [intros H; rewrite Hs, H; reflexivity | ].
  split; [intros H; rewrite Hs, H; reflexivity | ].
  split; [intros H; rewrite Hs, H; reflexivity | ].
  split; [rewrite Hs; destruct (severity e); simpl; lia | ].
  intros browser currentTime alertTime w Hact Hthr Hguard Hfind w'.
  destruct (hasRecentImpact_Some _ _ _ _ Hfind) as [_ [Hty Hwin]].
  assert (Hw' : w' = triggerAccidentAlert browser alertTime s
                  (CombinedDetails soundLevel)
                  (setDetector
                     (addDetectionEvent
                        {| type := Combined; severity := s;
                           metrics := CombinedMetrics soundLevel;
                           timestamp := currentTime |}
                        (accidentDetector w)) w)).
  { subst w' s. unfold analyzeAudioData.
    rewrite Hact, Hthr. cbn [negb level]. cbv iota.
    change (crashSoundLevel defaultThresholds) with (100 : Q).
    rewrite Hlevel.
    destruct (Z.ltb_spec 5000
                (currentTime - lastImpactTime (accidentDetector w)));
      [ | lia].
    rewrite Hfind. reflexivity. }
  split; [exact Hty | ]. split; [exact Hwin | ]. split.
  - rewrite Hw', triggerAccidentAlert_detectionHistory.
    cbn [accidentDetector setDetector].
    destruct (addDetectionEvent_newest
                {| type := Combined; severity := s;
                   metrics := CombinedMetrics soundLevel;
                   timestamp := currentTime |} (accidentDetector w))
      as [older [Ho _]].
    exists older. exact Ho.
  - rewrite Hw'. unfold triggerAccidentAlert, showAlert. simpl.
    destruct (alertTime - lastImpactTime (accidentDetector w) <? 10000);
      [left; reflexivity | ].
    destruct s; simpl; try (left; reflexivity);
      destruct (isAlertActive (alertHandler w)); simpl;
      right; left; reflexivity.
Qed.

Lemma combined_severity_one_step_witness :
  calculateCombinedSeverity defaultThresholds mediumImpactEvent (Fin 105)
  = high
  /\ hasRecentImpact (accidentDetector mediumImpactWorld) (someTime + 500)
       2000
     = Some mediumImpactEvent
  /\ exists older,
       detectionHistory
         (accidentDetector
            (analyzeAudioData fullBrowser (someTime + 500) (someTime + 500)
               {| level := Fin 105 |} mediumImpactWorld))
       = older ++ [ {| type := Combined; severity := high;
                       metrics := CombinedMetrics (Fin 105);
                       timestamp := someTime + 500 |} ].
Proof.
  assert (Hfind : hasRecentImpact (accidentDetector mediumImpactWorld)
                    (someTime + 500) 2000 = Some mediumImpactEvent)
    by (vm_compute; reflexivity).
  destruct (combined_severity_one_step mediumImpactEvent (Fin 105))
    as [_ [_ [Hmed [_ [_ [_ Hworld]]]]]].
  - vm_compute; reflexivity.
  - split; [apply Hmed; reflexivity | ]. split; [exact Hfind | ].
    destruct (Hworld fullBrowser (someTime + 500) (someTime + 500)
                mediumImpactWorld) as [_ [_ [Hhist _]]].
    + vm_compute; reflexivity.
    + vm_compute; reflexivity.
    + vm_compute; reflexivity.
    + exact Hfind.
    + rewrite (Hmed eq_refl) in Hhist. exact Hhist.
Defined.

(** The 5000 ms guard comes first: when the impact itself was let through
    the cooldown gate 500 ms earlier, [analyzeAudioData] stops before the
    search and records nothing. *)
Example audio_after_stamping_impact_is_ignored :
  analyzeAudioData fullBrowser (someTime + 500) (someTime + 500)
    {| level := Fin 105 |}
    (worldAfter fullBrowser initialWorld
       [ Start;
         SensorSample someTime someTime someTime (flatSample (52 # 10)) ])
  = worldAfter fullBrowser initialWorld
      [ Start;
        SensorSample someTime someTime someTime (flatSample (52 # 10)) ].
Proof. vm_compute. reflexivity. Qed.

(** ** One modality alone *)






(** The difference of the doubles 45.1 and 0.1 is exactly 45 although
    their exact difference is larger: no rotation event is recorded. *)
Example tilt_from_a_tenth_to_45_and_a_tenth :
  (45 < fortyFiveAndATenthDouble - tenthDouble)%Q
  /\ sub (Fin fortyFiveAndATenthDouble) (Fin tenthDouble)
     = Fin (6333186975989760 # 140737488355328)
  /\ (6333186975989760 # 140737488355328 == 45)%Q
  /\ checkRotationAnomaly (someTime + 20) (pitched fortyFiveAndATenthDouble)
       (setPreviousRotation (pitched tenthDouble)
          (accidentDetector calmWorld))
     = setPreviousRotation (pitched fortyFiveAndATenthDouble)
         (accidentDetector calmWorld).
Proof.
  split; [vm_compute; reflexivity | ].
  split; [vm_compute; reflexivity | ].
  split; [vm_compute; reflexivity | ].
  vm_compute; reflexivity.
Qed.

(** From level to the first double above 45 degrees the event is
    recorded, with the difference itself as its metric. *)
Example tilt_to_the_next_double_above_45 :
  detectionHistory
    (checkRotationAnomaly (someTime + 20) (pitched nextAbove45)
       (accidentDetector calmWorld))
  = [ {| type := Rotation;
         severity := high;
         metrics := RotationMetrics (Fin nextAbove45) (Fin 0);
         timestamp := someTime + 20 |} ].
Proof. vm_compute. reflexivity. Qed.

(** ** Inactive detector *)

Lemma stop_inactive (w : World) : isActive (accidentDetector (stop w)) = false.
Proof. reflexivity. Qed.

Lemma initialWorld_inactive : isActive (accidentDetector initialWorld) = false.
Proof. reflexivity. Qed.

(** C10. While [isActive] is false, [analyzeSensorData] and
    [analyzeAudioData] return the world they were given: no history entry, no
    alert request, and the cooldown stamp and the sustained-force tracker
    untouched. *)
Theorem inactive_detector_ignores_samples (browser : Browser) (w : World) :
  isActive (accidentDetector w) = false ->
  (forall (currentTime alertTime rotationTime : Z) (sensorData : SensorData),
      analyzeSensorData browser currentTime alertTime rotationTime
        sensorData w = w)
  /\ (forall (currentTime alertTime : Z) (audioData : AudioData),
        analyzeAudioData browser currentTime alertTime audioData w = w).
Proof.
  intros Hoff. split; intros.
  - unfold analyzeSensorData. rewrite Hoff. reflexivity.
  - unfold analyzeAudioData. rewrite Hoff. reflexivity.
Qed.

Lemma inactive_detector_ignores_samples_witness :
  analyzeSensorData fullBrowser someTime someTime someTime (tippedSample 9)
    (stop calmWorld) = stop calmWorld
  /\ analyzeAudioData fullBrowser someTime someTime {| level := Fin 120 |}
       (stop calmWorld) = stop calmWorld.
Proof.
  destruct (inactive_detector_ignores_samples fullBrowser (stop calmWorld)
              (stop_inactive calmWorld)) as [Hs Ha].
  split; [apply Hs | apply Ha].
Defined.

(** ** The cooldown gate *)

Example low_bump_masks_crash :
  alertTimes
    (calls
       (worldAfter fullBrowser initialWorld
          [ Start;
            SensorSample someTime someTime someTime (flatSample 3);
            SensorSample (someTime + 100) (someTime + 100) (someTime + 100)
              (flatSample 9) ]))
  = [].
Proof. vm_compute. reflexivity. Qed.

(** C1. The code does not keep what the specification states. On a
    started detector whose cooldown is open, a request of severity low
    passes the 10000 ms gate, is dropped without a [showAlert] call, and has
    still moved [lastImpactTime] from 0 to its clock reading. The stamp of
    the dropped request then closes the gate: the 9 g crash 100 ms after a
    3 g bump reaches no [showAlert] call, while the same crash without the
    bump does. *)
Theorem low_request_restamps_cooldown :
  10000 <= someTime - lastImpactTime (accidentDetector startedWorld)
  /\ alertTimes
       (calls (triggerAccidentAlert fullBrowser someTime low
                 (ImpactDetails (Fin 3) 0) startedWorld)) = []
  /\ lastImpactTime
       (accidentDetector
          (triggerAccidentAlert fullBrowser someTime low
             (ImpactDetails (Fin 3) 0) startedWorld)) = someTime
  /\ lastImpactTime (accidentDetector startedWorld) = 0
  /\ lastImpactTime
       (accidentDetector
          (triggerAccidentAlert fullBrowser someTime low
             (ImpactDetails (Fin 3) 0) startedWorld))
     <> lastImpactTime (accidentDetector startedWorld)
  /\ alertTimes
       (calls
          (worldAfter fullBrowser initialWorld
             [ Start;
               SensorSample someTime someTime someTime (flatSample 3);
               SensorSample (someTime + 100) (someTime + 100)
                 (someTime + 100) (flatSample 9) ]))
     = []
  /\ alertTimes
       (calls
          (worldAfter fullBrowser initialWorld
             [ Start;
               SensorSample (someTime + 100) (someTime + 100)
                 (someTime + 100) (flatSample 9) ]))
     = [someTime + 100].
Proof.
  split; [vm_compute; congruence | ].
  split; [vm_compute; reflexivity | ].
  split; [vm_compute; reflexivity | ].
  split; [vm_compute; reflexivity | ].
  split; [vm_compute; congruence | ].
  split; [vm_compute; reflexivity | ].
  vm_compute; reflexivity.
Qed.

(** What [triggerAccidentAlert] does to the stamp and to the log, whatever
    the request: the stamp moves to the clock reading when the request
    passes the 10000 ms gate, and [showAlert] is called when in addition
    the severity is medium, high or critical. *)
Lemma triggerAccidentAlert_stamp_and_log (browser : Browser)
  (now : Z) (s : Severity) (details : Details) (w : World) :
  let w' := triggerAccidentAlert browser now s details w in
  let last := lastImpactTime (accidentDetector w) in
  lastImpactTime (accidentDetector w')
  = (if now - last <? 10000 then last else now)
  /\ calls w'
     = (if (now - last <? 10000) || belowMedium s
        then [AlertRequest now s details]
        else [ShowAlertCall now s details; AlertRequest now s details])
       ++ calls w.
Proof.
  intros w' last. subst w' last. unfold triggerAccidentAlert, showAlert.
  cbn [accidentDetector logCall].
  destruct (now - lastImpactTime (accidentDetector w) <? 10000).
  - split; reflexivity.
  - destruct s; cbn [orb belowMedium]; try (split; reflexivity);
      cbn [alertHandler setDetector logCall];
      destruct (isAlertActive (alertHandler w)); split; reflexivity.
Qed.

(** ** Spacing of honoured requests *)

Lemma alertTimes_app (a b : list Call) :
  alertTimes (a ++ b) = alertTimes a ++ alertTimes b.
Proof.
  induction a as [ | c a IH]; [reflexivity | ].
  destruct c; simpl; rewrite IH; reflexivity.
Qed.

Lemma run_app (browser : Browser) (a b : list Input) :
  forall w : World,
    run browser w (a ++ b)
    = match run browser w a with
      | Some w1 => run browser w1 b
      | None => None
      end.
Proof.
  induction a as [ | i a IH]; intros w; [reflexivity | ].
  simpl. destruct (step browser w i) as [w1 | ]; [apply IH | reflexivity].
Qed.

(** *** The log only grows *)

Lemma showAlert_calls (browser : Browser) (s : Severity) (details : Details)
  (w : World) :
  calls (showAlert browser s details w) = calls w.
Proof.
  unfold showAlert. destruct (isAlertActive (alertHandler w)); reflexivity.
Qed.

Lemma sendEmergencyAlert_calls (browser : Browser) (w : World) :
  exists added, calls (sendEmergencyAlert browser w) = added ++ calls w.
Proof.
  unfold sendEmergencyAlert.
  destruct (emergencyHandlerDefined browser); cbn [negb].
  - eexists [_]. reflexivity.
  - exists []. reflexivity.
Qed.

Lemma triggerAccidentAlert_calls (browser : Browser) (now : Z)
  (s : Severity) (details : Details) (w : World) :
  exists added,
    calls (triggerAccidentAlert browser now s details w) = added ++ calls w.
Proof.
  destruct (triggerAccidentAlert_stamp_and_log browser now s details w)
    as [_ H].
  eexists. exact H.
Qed.

Lemma analyzeSensorData_calls (browser : Browser)
  (currentTime alertTime rotationTime : Z) (sensorData : SensorData)
  (w : World) :
  exists added,
    calls (analyzeSensorData browser currentTime alertTime rotationTime
             sensorData w)
    = added ++ calls w.
Proof.
  unfold analyzeSensorData.
  destruct (isActive (accidentDetector w)); cbn [negb];
    [ | exists []; reflexivity].
  cbn [calls setDetector].
  destruct (ge (impactForce sensorData) _); [ | exists []; reflexivity].
  match goal with
  | |- context [if negb (Severity_eqb ?s none) then _ else _] =>
      destruct (negb (Severity_eqb s none))
  end; [ | exists []; reflexivity].
  match goal with
  | |- context [triggerAccidentAlert _ ?t ?s ?dt ?w0] =>
      destruct (triggerAccidentAlert_calls browser t s dt w0) as [added H]
  end.
  exists added. exact H.
Qed.

Lemma analyzeAudioData_calls (browser : Browser)
  (currentTime alertTime : Z) (audioData : AudioData) (w : World) :
  exists added,
    calls (analyzeAudioData browser currentTime alertTime audioData w)
    = added ++ calls w.
Proof.
  unfold analyzeAudioData.
  destruct (isActive (accidentDetector w)); cbn [negb];
    [ | exists []; reflexivity].
  destruct (ge (level audioData) _); [ | exists []; reflexivity].
  destruct (5000 <? _); [ | exists []; reflexivity].
  destruct (hasRecentImpact _ _ _); [ | exists []; reflexivity].
  match goal with
  | |- context [triggerAccidentAlert _ ?t ?s ?dt ?w0] =>
      destruct (triggerAccidentAlert_calls browser t s dt w0) as [added H]
  end.
  exists added. exact H.
Qed.

Lemma step_calls (browser : Browser) (w w' : World) (i : Input) :
  step browser w i = Some w' -> exists added, calls w' = added ++ calls w.
Proof.
  intros Hstep. destruct i; simpl in Hstep.
  - injection Hstep as <-. exists []. reflexivity.
  - injection Hstep as <-. exists []. reflexivity.
  - injection Hstep as <-. apply analyzeSensorData_calls.
  - injection Hstep as <-. apply analyzeAudioData_calls.
  - unfold countdownTick in Hstep.
    destruct (countdownTimer (alertHandler w)) as [timeLeft | ];
      [ | discriminate].
    destruct (timeLeft - 1 <? 0); injection Hstep as <-.
    + match goal with
      | |- context [sendEmergencyAlert _ ?w0] =>
          destruct (sendEmergencyAlert_calls browser w0) as [added H]
      end.
      exists added. exact H.
    + exists []. reflexivity.
  - injection Hstep as <-. exists []. reflexivity.
  - unfold resetTimerFires in Hstep.
    destruct (takeDue now (resetTimers w)); [ | discriminate].
    injection Hstep as <-. exists []. reflexivity.
  - injection Hstep as <-. apply sendEmergencyAlert_calls.
  - unfold dispatchSettles in Hstep.
    destruct (pendingDispatch w); [discriminate | ].
    injection Hstep as <-. exists []. reflexivity.
  - injection Hstep as <-. exists []. apply showAlert_calls.
Qed.

Lemma run_calls (browser : Browser) (inputs : list Input) :
  forall w w' : World,
    run browser w inputs = Some w' ->
    exists added, calls w' = added ++ calls w.
Proof.
  induction inputs as [ | i rest IH]; intros w w' Hrun.
  - simpl in Hrun. injection Hrun as <-. exists []. reflexivity.
  - simpl in Hrun.
    destruct (step browser w i) as [w1 | ] eqn:Hstep; [ | discriminate].
    destruct (step_calls browser w w1 i Hstep) as [a1 H1].
    destruct (IH w1 w' Hrun) as [a2 H2].
    exists (a2 ++ a1). rewrite H2, H1. apply app_assoc.
Qed.

(** *** The stamp and the times of the [showAlert] calls *)

Lemma setDetector_view (d : AccidentDetector) (w : World) :
  lastImpactTime d = lastImpactTime (accidentDetector w) ->
  cooldownView (setDetector d w) = cooldownView w.
Proof. intros H. unfold cooldownView. simpl. rewrite H. reflexivity. Qed.

Lemma showAlert_view (browser : Browser) (s : Severity) (details : Details)
  (w : World) :
  cooldownView (showAlert browser s details w) = cooldownView w.
Proof.
  unfold showAlert. destruct (isAlertActive (alertHandler w)); reflexivity.
Qed.

Lemma sendEmergencyAlert_view (browser : Browser) (w : World) :
  cooldownView (sendEmergencyAlert browser w) = cooldownView w.
Proof.
  unfold sendEmergencyAlert.
  destruct (emergencyHandlerDefined browser); reflexivity.
Qed.

Lemma countdownTick_view (browser : Browser) (w w' : World) :
  countdownTick browser w = Some w' -> cooldownView w' = cooldownView w.
Proof.
  unfold countdownTick.
  destruct (countdownTimer (alertHandler w)) as [timeLeft | ];
    [ | discriminate].
  destruct (timeLeft - 1 <? 0); intros H; injection H as <-.
  - rewrite sendEmergencyAlert_view. reflexivity.
  - reflexivity.
Qed.

Lemma cancelAlert_view (now : Z) (w : World) :
  cooldownView (cancelAlert now w) = cooldownView w.
Proof. reflexivity. Qed.

Lemma dispatchSettles_view (w w' : World) :
  dispatchSettles w = Some w' -> cooldownView w' = cooldownView w.
Proof.
  unfold dispatchSettles. destruct (pendingDispatch w); [discriminate | ].
  intros H. injection H as <-. reflexivity.
Qed.

Lemma addDetectionEvent_lastImpactTime (e : DetectionEvent)
  (d : AccidentDetector) :
  lastImpactTime (addDetectionEvent e d) = lastImpactTime d.
Proof. reflexivity. Qed.

Lemma checkRotationAnomaly_lastImpactTime (now : Z) (r : Orientation)
  (d : AccidentDetector) :
  lastImpactTime (checkRotationAnomaly now r d) = lastImpactTime d.
Proof.
  unfold checkRotationAnomaly.
  destruct (previousRotation d); [ | reflexivity].
  destruct (_ || _); reflexivity.
Qed.

(** The view after a request: untouched below the gate; otherwise the stamp
    is the clock reading, and the reading joins the [showAlert] times unless
    the severity is below medium. *)
Lemma triggerAccidentAlert_view (browser : Browser) (now : Z) (s : Severity)
  (details : Details) (w : World) :
  cooldownView (triggerAccidentAlert browser now s details w)
  = if now - fst (cooldownView w) <? 10000 then cooldownView w
    else (now, if belowMedium s then snd (cooldownView w)
               else now :: snd (cooldownView w)).
Proof.
  unfold triggerAccidentAlert. cbn [accidentDetector logCall fst cooldownView].
  destruct (now - lastImpactTime (accidentDetector w) <? 10000);
    [reflexivity | ].
  destruct s; cbn [belowMedium]; try reflexivity;
    rewrite showAlert_view; reflexivity.
Qed.

(** A property of the view that survives every request that passes the gate
    survives every input but the firing of a reset timer. *)
Section ViewInvariant.

Variable browser : Browser.
Variable P : Z * list Z -> Prop.

Hypothesis P_request :
  forall (now : Z) (s : Severity) (v : Z * list Z),
    P v -> 10000 <= now - fst v ->
    P (now, if belowMedium s then snd v else now :: snd v).

Lemma triggerAccidentAlert_keeps (now : Z) (s : Severity)
  (details : Details) (w : World) :
  P (cooldownView w) ->
  P (cooldownView (triggerAccidentAlert browser now s details w)).
Proof.
  intros Hp. rewrite triggerAccidentAlert_view.
  destruct (Z.ltb_spec (now - fst (cooldownView w)) 10000) as [Hlt | Hge];
    [exact Hp | ].
  apply P_request; assumption.
Qed.

Lemma analyzeSensorData_keeps (currentTime alertTime rotationTime : Z)
  (sensorData : SensorData) (w : World) :
  P (cooldownView w) ->
  P (cooldownView
       (analyzeSensorData browser currentTime alertTime rotationTime
          sensorData w)).
Proof.
  intros Hok. unfold analyzeSensorData.
  destruct (isActive (accidentDetector w)); cbn [negb]; [ | exact Hok].
  rewrite setDetector_view
    by apply checkRotationAnomaly_lastImpactTime.
  destruct (ge (impactForce sensorData) _).
  - match goal with
    | |- context [if negb (Severity_eqb ?s none) then _ else _] =>
        destruct (negb (Severity_eqb s none))
    end.
    + apply triggerAccidentAlert_keeps.
      rewrite setDetector_view; [exact Hok | ].
      rewrite addDetectionEvent_lastImpactTime.
      destruct (sustainedHighForce (accidentDetector w)); reflexivity.
    + rewrite setDetector_view; [exact Hok | ].
      rewrite addDetectionEvent_lastImpactTime.
      destruct (sustainedHighForce (accidentDetector w)); reflexivity.
  - rewrite setDetector_view; [exact Hok | reflexivity].
Qed.

Lemma analyzeAudioData_keeps (currentTime alertTime : Z)
  (audioData : AudioData) (w : World) :
  P (cooldownView w) ->
  P (cooldownView
       (analyzeAudioData browser currentTime alertTime audioData w)).
Proof.
  intros Hok. unfold analyzeAudioData.
  destruct (isActive (accidentDetector w)); cbn [negb]; [ | exact Hok].
  destruct (ge (level audioData) _); [ | exact Hok].
  destruct (5000 <? _); [ | exact Hok].
  destruct (hasRecentImpact _ _ _); [ | exact Hok].
  apply triggerAccidentAlert_keeps.
  rewrite setDetector_view; [exact Hok | reflexivity].
Qed.

Lemma step_keeps (w w' : World) (i : Input) :
  isResetTimerFires i = false ->
  step browser w i = Some w' ->
  P (cooldownView w) -> P (cooldownView w').
Proof.
  intros Hi Hstep Hok. destruct i; simpl in Hstep; try discriminate Hi.
  - injection Hstep as <-. exact Hok.
  - injection Hstep as <-. exact Hok.
  - injection Hstep as <-. apply analyzeSensorData_keeps. exact Hok.
  - injection Hstep as <-. apply analyzeAudioData_keeps. exact Hok.
  - rewrite (countdownTick_view _ _ _ Hstep). exact Hok.
  - injection Hstep as <-. rewrite cancelAlert_view. exact Hok.
  - injection Hstep as <-. unfold callEmergencyNow.
    rewrite sendEmergencyAlert_view. exact Hok.
  - rewrite (dispatchSettles_view _ _ Hstep). exact Hok.
  - injection Hstep as <-. rewrite showAlert_view. exact Hok.
Qed.

Lemma run_keeps (inputs : list Input) :
  forall w w' : World,
    noResetFires inputs = true ->
    run browser w inputs = Some w' ->
    P (cooldownView w) -> P (cooldownView w').
Proof.
  induction inputs as [ | i rest IH]; intros w w' Hno Hrun Hok.
  - simpl in Hrun. injection Hrun as <-. exact Hok.
  - simpl in Hno. apply andb_prop in Hno. destruct Hno as [Hi Hrest].
    apply negb_true_iff in Hi. simpl in Hrun.
    destruct (step browser w i) as [w1 | ] eqn:Hstep; [ | discriminate].
    apply (IH w1 w' Hrest Hrun).
    exact (step_keeps w w1 i Hi Hstep Hok).
Qed.

End ViewInvariant.

Lemma ApartSince_request (base : list Z) (now : Z) (s : Severity)
  (v : Z * list Z) :
  ApartSince base v -> 10000 <= now - fst v ->
  ApartSince base (now, if belowMedium s then snd v else now :: snd v).
Proof.
  intros [recent [Hsnd [Hstamp Hapart]]] Hpass.
  assert (Hold : Forall (fun t => t + 10000 <= now) recent).
  { eapply Forall_impl; [ | exact Hstamp]. cbv beta. intros t Ht. lia. }
  destruct (belowMedium s).
  - exists recent. cbn [fst snd]. split; [exact Hsnd | ].
    split; [ | exact Hapart].
    eapply Forall_impl; [ | exact Hold]. cbv beta. intros t Ht. lia.
  - exists (now :: recent). cbn [fst snd].
    split; [rewrite Hsnd; reflexivity | ].
    split.
    + constructor; [lia | ].
      eapply Forall_impl; [ | exact Hold]. cbv beta. intros t Ht. lia.
    + constructor; assumption.
Qed.

(** The [showAlert] calls a run without a reset firing adds to the log are
    10000 ms apart, whatever world the run starts in. *)
Lemma run_adds_calls_apart (browser : Browser) (inputs : list Input)
  (w w' : World) :
  noResetFires inputs = true ->
  run browser w inputs = Some w' ->
  exists new, calls w' = new ++ calls w /\ AlertsApart new.
Proof.
  intros Hno Hrun.
  destruct (run_calls browser inputs w w' Hrun) as [new Hnew].
  exists new. split; [exact Hnew | ].
  assert (Hstart : ApartSince (alertTimes (calls w)) (cooldownView w)).
  { exists []. split; [reflexivity | ]. split; constructor. }
  pose proof (run_keeps browser (ApartSince (alertTimes (calls w)))
                (ApartSince_request (alertTimes (calls w)))
                inputs w w' Hno Hrun Hstart) as [recent [Hsnd [_ Hapart]]].
  unfold cooldownView in Hsnd. cbn [snd] in Hsnd.
  rewrite Hnew, alertTimes_app in Hsnd.
  apply app_inv_tail in Hsnd. unfold AlertsApart. rewrite Hsnd.
  exact Hapart.
Qed.

(** C2, as the specification states it, fails: after a cancellation the
    reset timer clears the stamp, and a request 6001 ms after the previous
    honoured one reaches [showAlert]. *)
Lemma reset_timer_reopens_gate :
  run fullBrowser initialWorld crashCancelCrash
  = Some (worldAfter fullBrowser initialWorld crashCancelCrash)
  /\ alertTimes (calls (worldAfter fullBrowser initialWorld crashCancelCrash))
     = [someTime + 6001; someTime]
  /\ (someTime + 6001) - someTime < 10000
  /\ ~ AlertsApart (calls (worldAfter fullBrowser initialWorld
                             crashCancelCrash)).
Proof.
  assert (Htimes :
            alertTimes
              (calls (worldAfter fullBrowser initialWorld crashCancelCrash))
            = [someTime + 6001; someTime])
    by (vm_compute; reflexivity).
  split; [vm_compute; reflexivity | ].
  split; [exact Htimes | ].
  split; [vm_compute; reflexivity | ].
  unfold AlertsApart. rewrite Htimes. intros H.
  inversion H as [ | a l Hall _]; subst.
  inversion Hall as [ | x l' Hx _]; subst.
  unfold someTime in Hx. lia.
Qed.

(** C2, amended. Take any execution, from any state of the page, and any
    stretch of it during which no reset timer of a cancellation fires: the
    requests that reach [showAlert] during the stretch are at least
    10000 ms apart from one another, whatever samples, countdown ticks,
    cancellations and escalations the stretch contains and whatever
    happened before it. The firing of a reset timer sets [lastImpactTime]
    to 0 and logs nothing; and while [lastImpactTime] is 0 a request of
    severity medium, high or critical (at a clock reading of 10000 or
    more) reaches [showAlert] and stamps its clock reading, however close
    the previous [showAlert] call is. *)
Theorem honoured_requests_apart_without_reset (browser : Browser) :
  (forall (w0 wEnd : World) (before between after : list Input),
      noResetFires between = true ->
      run browser w0 (before ++ between ++ after) = Some wEnd ->
      exists (w1 w2 : World) (new later : list Call),
        run browser w0 before = Some w1
        /\ run browser w1 between = Some w2
        /\ run browser w2 after = Some wEnd
        /\ calls w2 = new ++ calls w1
        /\ calls wEnd = later ++ new ++ calls w1
        /\ AlertsApart new)
  /\ (forall (now : Z) (w w' : World),
        resetTimerFires now w = Some w' ->
        lastImpactTime (accidentDetector w') = 0 /\ calls w' = calls w)
  /\ (forall (now : Z) (s : Severity) (details : Details) (w : World),
        lastImpactTime (accidentDetector w) = 0 ->
        10000 <= now ->
        belowMedium s = false ->
        let w' := triggerAccidentAlert browser now s details w in
        calls w'
        = ShowAlertCall now s details :: AlertRequest now s details
          :: calls w
        /\ lastImpactTime (accidentDetector w') = now).
Proof.
  split; [ | split].
  - intros w0 wEnd before between after Hno Hrun.
    rewrite run_app in Hrun.
    destruct (run browser w0 before) as [w1 | ]; [ | discriminate].
    rewrite run_app in Hrun.
    destruct (run browser w1 between) as [w2 | ] eqn:Hbetween;
      [ | discriminate].
    destruct (run_adds_calls_apart browser between w1 w2 Hno Hbetween)
      as [new [Hnew Hapart]].
    destruct (run_calls browser after w2 wEnd Hrun) as [later Hlater].
    exists w1, w2, new, later.
    split; [reflexivity | ]. split; [exact Hbetween | ].
    split; [exact Hrun | ]. split; [exact Hnew | ].
    split; [rewrite Hlater, Hnew; reflexivity | exact Hapart].
  - intros now w w' Hfire. unfold resetTimerFires in Hfire.
    destruct (takeDue now (resetTimers w)); [ | discriminate].
    injection Hfire as <-. split; reflexivity.
  - intros now s details w Hzero Hnow Hs w'. subst w'.
    destruct (triggerAccidentAlert_stamp_and_log browser now s details w)
      as [Hstamp Hcalls].
    rewrite Hzero in Hstamp, Hcalls.
    destruct (Z.ltb_spec (now - 0) 10000) as [Hlt | _]; [lia | ].
    rewrite Hs in Hcalls. cbn [orb] in Hcalls.
    split; [exact Hcalls | exact Hstamp].
Qed.

Lemma honoured_requests_apart_without_reset_witness :
  noResetFires (crashAfterReset ++ burstAfterReset) = true
  /\ (exists (w1 w2 : World) (new later : list Call),
        run fullBrowser initialWorld crashCancelReset = Some w1
        /\ run fullBrowser w1 (crashAfterReset ++ burstAfterReset) = Some w2
        /\ run fullBrowser w2 []
           = Some (worldAfter fullBrowser initialWorld
                     (crashCancelReset ++ crashAfterReset
                      ++ burstAfterReset))
        /\ calls w2 = new ++ calls w1
        /\ calls (worldAfter fullBrowser initialWorld
                    (crashCancelReset ++ crashAfterReset ++ burstAfterReset))
           = later ++ new ++ calls w1
        /\ AlertsApart new)
  /\ alertTimes
       (calls
          (worldAfter fullBrowser initialWorld
             (crashCancelReset ++ crashAfterReset ++ burstAfterReset)))
     = [someTime + 16001; someTime + 6001; someTime]
  /\ lastImpactTime
       (accidentDetector
          (worldAfter fullBrowser initialWorld (firstn 3 crashCancelCrash)))
     = someTime
  /\ lastImpactTime
       (accidentDetector
          (worldAfter fullBrowser initialWorld crashCancelReset))
     = 0
  /\ calls
       (triggerAccidentAlert fullBrowser (someTime + 6001) critical
          crashDetails
          (worldAfter fullBrowser initialWorld crashCancelReset))
     = ShowAlertCall (someTime + 6001) critical crashDetails
       :: AlertRequest (someTime + 6001) critical crashDetails
       :: calls (worldAfter fullBrowser initialWorld crashCancelReset).
Proof.
  destruct (honoured_requests_apart_without_reset fullBrowser)
    as [Hstretch [Hreset Hnext]].
  split; [reflexivity | ].
  split.
  { apply (Hstretch initialWorld
             (worldAfter fullBrowser initialWorld
                (crashCancelReset ++ crashAfterReset ++ burstAfterReset))
             crashCancelReset (crashAfterReset ++ burstAfterReset) []).
    - reflexivity.
    - vm_compute; reflexivity. }
  split; [vm_compute; reflexivity | ].
  split; [vm_compute; reflexivity | ].
  split.
  { apply (Hreset (someTime + 6000)
             (worldAfter fullBrowser initialWorld
                (firstn 3 crashCancelCrash))
             (worldAfter fullBrowser initialWorld crashCancelReset)).
    vm_compute; reflexivity. }
  apply (Hnext (someTime + 6001) critical crashDetails
           (worldAfter fullBrowser initialWorld crashCancelReset)).
  - vm_compute; reflexivity.
  - vm_compute; congruence.
  - reflexivity.
Defined.

(** ** The alert session *)

(** C7. [showAlert] on a handler whose alert is active returns the world it
    was given: severity, details, countdown and every other field of the
    running session stay as they are and nothing is queued; a request of the
    detector that arrives meanwhile leaves the handler untouched as well. *)
Theorem showAlert_while_active_is_noop (browser : Browser) (s : Severity)
  (details : Details) (w : World) :
  isAlertActive (alertHandler w) = true ->
  showAlert browser s details w = w
  /\ forall now : Z,
       alertHandler (triggerAccidentAlert browser now s details w)
       = alertHandler w
       /\ activeScreen (triggerAccidentAlert browser now s details w)
          = activeScreen w
       /\ pendingDispatch (triggerAccidentAlert browser now s details w)
          = pendingDispatch w.
Proof.
  intros Hact.
  assert (Hshow : forall w0, isAlertActive (alertHandler w0) = true ->
                             showAlert browser s details w0 = w0).
  { intros w0 H0. unfold showAlert. rewrite H0. reflexivity. }
  split; [apply Hshow; exact Hact | ].
  intros now. unfold triggerAccidentAlert. cbn [accidentDetector logCall].
  destruct (now - lastImpactTime (accidentDetector w) <? 10000);
    [repeat split | ].
  destruct s; try (repeat split; fail); rewrite Hshow by exact Hact;
    repeat split.
Qed.

Lemma showAlert_while_active_is_noop_witness :
  isAlertActive (alertHandler alertingWorld) = true
  /\ currentSeverity (alertHandler alertingWorld) = critical
  /\ showAlert fullBrowser medium NoDetails alertingWorld = alertingWorld.
Proof.
  split; [vm_compute; reflexivity | ].
  split; [vm_compute; reflexivity | ].
  apply (showAlert_while_active_is_noop fullBrowser medium NoDetails
           alertingWorld).
  vm_compute; reflexivity.
Defined.

(** ** Countdown *)

(** While the counter can still be decremented without going below zero,
    a tick only lowers it by one (and may open the audio context). *)
Lemma countdownTick_decrement (browser : Browser) (w : World) (t : Z) :
  countdownTimer (alertHandler w) = Some t ->
  1 <= t ->
  exists w',
    countdownTick browser w = Some w'
    /\ countdownTimer (alertHandler w') = Some (t - 1)
    /\ isAlertActive (alertHandler w') = isAlertActive (alertHandler w)
    /\ currentSeverity (alertHandler w') = currentSeverity (alertHandler w)
    /\ alertDetails (alertHandler w') = alertDetails (alertHandler w)
    /\ countdownSeconds (alertHandler w') = countdownSeconds (alertHandler w)
    /\ calls w' = calls w
    /\ pendingDispatch w' = pendingDispatch w
    /\ activeScreen w' = activeScreen w
    /\ accidentDetector w' = accidentDetector w.
Proof.
  intros Ht Hpos. unfold countdownTick. rewrite Ht.
  destruct (Z.ltb_spec (t - 1) 0) as [Hneg | _]; [lia | ].
  eexists. split; [reflexivity | ].
  destruct ((t <=? 10) && (0 <? t)); repeat split.
Qed.

Lemma ticks_decrement (browser : Browser) (k : nat) :
  forall (w : World) (t : Z),
    countdownTimer (alertHandler w) = Some t ->
    Z.of_nat k <= t ->
    exists w',
      ticks browser k w = Some w'
      /\ countdownTimer (alertHandler w') = Some (t - Z.of_nat k)
      /\ isAlertActive (alertHandler w') = isAlertActive (alertHandler w)
      /\ currentSeverity (alertHandler w') = currentSeverity (alertHandler w)
      /\ alertDetails (alertHandler w') = alertDetails (alertHandler w)
      /\ countdownSeconds (alertHandler w')
         = countdownSeconds (alertHandler w)
      /\ calls w' = calls w
      /\ pendingDispatch w' = pendingDispatch w
      /\ activeScreen w' = activeScreen w
      /\ accidentDetector w' = accidentDetector w.
Proof.
  induction k as [ | k IH]; intros w t Ht Hk.
  - exists w. simpl. rewrite Z.sub_0_r. repeat split. exact Ht.
  - destruct (countdownTick_decrement browser w t Ht ltac:(lia))
      as [w1 [Htick [Ht1 [Ha [Hs [Hd [Hc [Hl [Hp [Hsc Hdet]]]]]]]]]].
    destruct (IH w1 (t - 1) Ht1 ltac:(lia))
      as [w' [Hticks [Ht' [Ha' [Hs' [Hd' [Hc' [Hl' [Hp' [Hsc' Hdet']]]]]]]]]].
    exists w'. simpl. rewrite Htick. split; [exact Hticks | ].
    split; [rewrite Ht'; f_equal; lia | ].
    repeat split; congruence.
Qed.

(** One more tick after [k] ticks is a tick in the world they lead to. *)
Lemma ticks_snoc (browser : Browser) (k : nat) :
  forall w wk : World,
    ticks browser k w = Some wk ->
    ticks browser (S k) w = countdownTick browser wk.
Proof.
  induction k as [ | k IH]; intros w wk Hticks.
  - simpl in Hticks. injection Hticks as ->. simpl.
    destruct (countdownTick browser wk); reflexivity.
  - change (ticks browser (S (S k)) w)
      with (match countdownTick browser w with
            | Some w1 => ticks browser (S k) w1
            | None => None
            end).
    simpl in Hticks.
    destruct (countdownTick browser w) as [w1 | ]; [ | discriminate].
    apply IH. exact Hticks.
Qed.

(** The tick that finds the counter at zero takes it below zero and runs
    [sendEmergencyAlert]. *)
Lemma countdownTick_expiry (browser : Browser) (w : World) :
  countdownTimer (alertHandler w) = Some 0 ->
  countdownTick browser w
  = Some (sendEmergencyAlert browser
            (setHandler (clearCountdown (alertHandler w)) w)).
Proof.
  intros Ht. unfold countdownTick. rewrite Ht. reflexivity.
Qed.

(** What [sendEmergencyAlert] leaves behind. *)
Lemma sendEmergencyAlert_effect (browser : Browser) (w : World) :
  let w' := sendEmergencyAlert browser w in
  isAlertActive (alertHandler w') = false
  /\ Disarmed (alertHandler w')
  /\ currentSeverity (alertHandler w') = currentSeverity (alertHandler w)
  /\ alertDetails (alertHandler w') = alertDetails (alertHandler w)
  /\ accidentDetector w' = accidentDetector w
  /\ resetTimers w' = resetTimers w
  /\ (if emergencyHandlerDefined browser
      then calls w'
           = SendAlertCall (currentSeverity (alertHandler w))
               (alertDetails (alertHandler w)) :: calls w
           /\ pendingDispatch w'
              = pendingDispatch w
                ++ [(currentSeverity (alertHandler w),
                     alertDetails (alertHandler w))]
           /\ activeScreen w' = emergencyScreen
      else calls w' = calls w
           /\ pendingDispatch w' = pendingDispatch w
           /\ activeScreen w' = activeScreen w).
Proof.
  unfold sendEmergencyAlert, Disarmed.
  destruct (emergencyHandlerDefined browser); simpl; repeat split.
Qed.

Lemma showAlert_accepted (browser : Browser) (s : Severity)
  (details : Details) (w : World) :
  isAlertActive (alertHandler w) = false ->
  let w' := showAlert browser s details w in
  isAlertActive (alertHandler w') = true
  /\ currentSeverity (alertHandler w') = s
  /\ alertDetails (alertHandler w') = details
  /\ countdownSeconds (alertHandler w') = getCountdownTime s
  /\ countdownTimer (alertHandler w') = Some (getCountdownTime s)
  /\ shakeDetection (alertHandler w') = true
  /\ beepInterval (alertHandler w') = true
  /\ activeScreen w' = alertScreen
  /\ calls w' = calls w
  /\ pendingDispatch w' = pendingDispatch w
  /\ accidentDetector w' = accidentDetector w.
Proof.
  intros Hidle. unfold showAlert. rewrite Hidle.
  unfold startVoiceRecognition.
  destruct (speechRecognitionSupported browser); simpl; repeat split.
Qed.

Lemma getCountdownTime_nonneg (s : Severity) : 0 <= getCountdownTime s.
Proof. destruct s; simpl; lia. Qed.

(** C6. A trigger accepted with severity [s] starts the counter at the table
    entry of [s] (60, 30, 20 and 15 seconds for low, medium, high and
    critical); each of the first [n] ticks, [n] being that entry, lowers the
    counter by one and leaves the alert active with nothing sent; the tick
    after those, which takes the counter below zero, ends the countdown and
    hands the alert to [sendAlert]. For critical that is the 16th tick. *)
Theorem countdown_escalates_on_tick_after_zero (browser : Browser)
  (s : Severity) (details : Details) (w : World) :
  isAlertActive (alertHandler w) = false ->
  let w0 := showAlert browser s details w in
  let n := getCountdownTime s in
  getCountdownTime low = 60 /\ getCountdownTime medium = 30
  /\ getCountdownTime high = 20 /\ getCountdownTime critical = 15
  /\ countdownTimer (alertHandler w0) = Some n
  /\ countdownSeconds (alertHandler w0) = n
  /\ (forall k : nat,
        Z.of_nat k <= n ->
        exists wk,
          ticks browser k w0 = Some wk
          /\ countdownTimer (alertHandler wk) = Some (n - Z.of_nat k)
          /\ isAlertActive (alertHandler wk) = true
          /\ calls wk = calls w
          /\ pendingDispatch wk = pendingDispatch w)
  /\ (exists w',
        ticks browser (S (Z.to_nat n)) w0 = Some w'
        /\ isAlertActive (alertHandler w') = false
        /\ countdownTimer (alertHandler w') = None
        /\ (emergencyHandlerDefined browser = true ->
            calls w' = SendAlertCall s details :: calls w
            /\ pendingDispatch w' = pendingDispatch w ++ [(s, details)]))
  /\ (s = critical -> S (Z.to_nat n) = 16%nat).
Proof.
  intros Hidle w0 n.
  destruct (showAlert_accepted browser s details w Hidle)
    as [Hact [Hsev [Hdet [Hsec [Htimer [_ [_ [_ [Hcalls [Hpend _]]]]]]]]]].
  fold w0 in Hact, Hsev, Hdet, Hsec, Htimer, Hcalls, Hpend.
  fold n in Hsec, Htimer.
  repeat split; try reflexivity; try assumption.
  - intros k Hk.
    destruct (ticks_decrement browser k w0 n Htimer Hk)
      as [wk [Hticks [Ht [Ha [_ [_ [_ [Hc [Hp _]]]]]]]]].
    exists wk. repeat split; congruence.
  - pose proof (getCountdownTime_nonneg s) as Hn. fold n in Hn.
    destruct (ticks_decrement browser (Z.to_nat n) w0 n Htimer
                ltac:(lia))
      as [wn [Hticks [Ht [Ha [Hs [Hd [_ [Hc [Hp _]]]]]]]]].
    rewrite Z2Nat.id, Z.sub_diag in Ht by exact Hn.
    exists (sendEmergencyAlert browser
              (setHandler (clearCountdown (alertHandler wn)) wn)).
    split.
    { rewrite (ticks_snoc browser (Z.to_nat n) w0 wn Hticks).
      apply countdownTick_expiry. exact Ht. }
    destruct (sendEmergencyAlert_effect browser
                (setHandler (clearCountdown (alertHandler wn)) wn))
      as [Hoff [Hdis [_ [_ [_ [_ Hsend]]]]]].
    split; [exact Hoff | ]. split; [exact (proj1 Hdis) | ].
    intros Hdef. rewrite Hdef in Hsend. cbn [alertHandler setHandler
      currentSeverity alertDetails clearCountdown setCountdownTimer calls
      pendingDispatch] in Hsend.
    destruct Hsend as [Hc' [Hp' _]]. rewrite Hc', Hp'.
    split; congruence.
  - intros ->. reflexivity.
Qed.

Lemma countdown_escalates_on_tick_after_zero_witness :
  countdownTimer (alertHandler
                    (showAlert fullBrowser critical crashDetails
                       startedWorld)) = Some 15
  /\ (exists w15,
        ticks fullBrowser 15
          (showAlert fullBrowser critical crashDetails startedWorld)
        = Some w15
        /\ countdownTimer (alertHandler w15) = Some (15 - Z.of_nat 15)
        /\ isAlertActive (alertHandler w15) = true
        /\ calls w15 = calls startedWorld
        /\ pendingDispatch w15 = pendingDispatch startedWorld)
  /\ (exists w16,
        ticks fullBrowser 16
          (showAlert fullBrowser critical crashDetails startedWorld)
        = Some w16
        /\ isAlertActive (alertHandler w16) = false
        /\ calls w16 = [SendAlertCall critical crashDetails]).
Proof.
  destruct (countdown_escalates_on_tick_after_zero fullBrowser critical
              crashDetails startedWorld)
    as [_ [_ [_ [_ [Htimer [_ [Hbefore [Hafter _]]]]]]]].
  - reflexivity.
  - split; [exact Htimer | ]. split.
    + apply (Hbefore 15%nat). simpl. lia.
    + destruct Hafter as [w16 [Hticks [Hoff [_ Hsend]]]].
      exists w16. split; [exact Hticks | ]. split; [exact Hoff | ].
      exact (proj1 (Hsend eq_refl)).
Defined.

(** ** Expiry of the countdown *)

(** C3, as the specification states it, fails: once the countdown has run
    out the handler is idle although the dispatch it started has not
    settled, and the next request of the detector opens a new alert while
    that dispatch is still pending. *)
Lemma idle_while_dispatch_pending :
  ticks fullBrowser 16 alertingWorld = Some escalatedWorld
  /\ pendingDispatch escalatedWorld = [(critical, crashDetails)]
  /\ isAlertActive (alertHandler escalatedWorld) = false
  /\ isAlertActive
       (alertHandler
          (analyzeSensorData fullBrowser (someTime + 20000)
             (someTime + 20000) (someTime + 20000) (flatSample 7)
             escalatedWorld)) = true
  /\ pendingDispatch
       (analyzeSensorData fullBrowser (someTime + 20000)
          (someTime + 20000) (someTime + 20000) (flatSample 7)
          escalatedWorld) = [(critical, crashDetails)].
Proof.
  split; [vm_compute; reflexivity | ].
  split; [vm_compute; reflexivity | ].
  split; [vm_compute; reflexivity | ].
  split; vm_compute; reflexivity.
Qed.

(** C3, amended. The tick that takes the counter below zero disarms the
    countdown, the listeners and the cues and sets the handler idle; when
    the emergency handler is defined it then calls [sendAlert] with the
    stored severity and details and shows the emergency screen, without
    waiting for the dispatch to settle, and otherwise it sends nothing. A
    trigger that arrives afterwards is accepted whether or not the dispatch
    is still pending. *)
Theorem expiry_goes_idle_and_dispatches (browser : Browser) (w : World) :
  countdownTimer (alertHandler w) = Some 0 ->
  exists w',
    countdownTick browser w = Some w'
    /\ isAlertActive (alertHandler w') = false
    /\ Disarmed (alertHandler w')
    /\ (if emergencyHandlerDefined browser
        then calls w'
             = SendAlertCall (currentSeverity (alertHandler w))
                 (alertDetails (alertHandler w)) :: calls w
             /\ pendingDispatch w'
                = pendingDispatch w
                  ++ [(currentSeverity (alertHandler w),
                       alertDetails (alertHandler w))]
             /\ activeScreen w' = emergencyScreen
        else calls w' = calls w
             /\ pendingDispatch w' = pendingDispatch w
             /\ activeScreen w' = activeScreen w)
    /\ forall (s : Severity) (details : Details),
         isAlertActive (alertHandler (showAlert browser s details w'))
         = true
         /\ currentSeverity (alertHandler (showAlert browser s details w'))
            = s
         /\ pendingDispatch (showAlert browser s details w')
            = pendingDispatch w'.
Proof.
  intros Ht.
  exists (sendEmergencyAlert browser
            (setHandler (clearCountdown (alertHandler w)) w)).
  split; [apply countdownTick_expiry; exact Ht | ].
  destruct (sendEmergencyAlert_effect browser
              (setHandler (clearCountdown (alertHandler w)) w))
    as [Hoff [Hdis [_ [_ [_ [_ Hsend]]]]]].
  split; [exact Hoff | ]. split; [exact Hdis | ].
  split; [exact Hsend | ].
  intros s details.
  destruct (showAlert_accepted browser s details _ Hoff)
    as [Hact [Hsev [_ [_ [_ [_ [_ [_ [_ [Hpend _]]]]]]]]]].
  split; [exact Hact | ]. split; [exact Hsev | exact Hpend].
Qed.

Lemma expiry_goes_idle_and_dispatches_witness :
  countdownTimer (alertHandler lastSecondWorld) = Some 0
  /\ exists w',
       countdownTick fullBrowser lastSecondWorld = Some w'
       /\ isAlertActive (alertHandler w') = false
       /\ pendingDispatch w' = [(critical, crashDetails)].
Proof.
  assert (Ht : countdownTimer (alertHandler lastSecondWorld) = Some 0)
    by (vm_compute; reflexivity).
  split; [exact Ht | ].
  destruct (expiry_goes_idle_and_dispatches fullBrowser lastSecondWorld Ht)
    as [w' [Htick [Hoff [_ [Hsend _]]]]].
  exists w'. split; [exact Htick | ]. split; [exact Hoff | ].
  cbn [emergencyHandlerDefined fullBrowser] in Hsend.
  destruct Hsend as [_ [Hpend _]]. rewrite Hpend.
  vm_compute. reflexivity.
Defined.

(** ** Cancellation *)

Lemma showAlert_handler (browser : Browser) (s : Severity)
  (details : Details) (w : World) :
  alertHandler (showAlert browser s details w) = alertHandler w
  \/ isAlertActive (alertHandler (showAlert browser s details w)) = true.
Proof.
  destruct (isAlertActive (alertHandler w)) eqn:E.
  - left. unfold showAlert. rewrite E. reflexivity.
  - right. apply (showAlert_accepted browser s details w E).
Qed.

Lemma triggerAccidentAlert_handler (browser : Browser) (now : Z)
  (s : Severity) (details : Details) (w : World) :
  alertHandler (triggerAccidentAlert browser now s details w)
  = alertHandler w
  \/ isAlertActive
       (alertHandler (triggerAccidentAlert browser now s details w)) = true.
Proof.
  unfold triggerAccidentAlert. cbn [accidentDetector logCall].
  destruct (now - lastImpactTime (accidentDetector w) <? 10000);
    [left; reflexivity | ].
  destruct s; try (left; reflexivity);
    match goal with
    | |- context [showAlert browser ?s0 ?d0 ?w0] =>
        destruct (showAlert_handler browser s0 d0 w0) as [H | H]
    end; [left; rewrite H; reflexivity | right; exact H
         | left; rewrite H; reflexivity | right; exact H
         | left; rewrite H; reflexivity | right; exact H].
Qed.

Lemma analyzeSensorData_handler (browser : Browser)
  (currentTime alertTime rotationTime : Z) (sensorData : SensorData)
  (w : World) :
  let w' := analyzeSensorData browser currentTime alertTime rotationTime
              sensorData w in
  alertHandler w' = alertHandler w
  \/ isAlertActive (alertHandler w') = true.
Proof.
  unfold analyzeSensorData.
  destruct (isActive (accidentDetector w)); cbn [negb];
    [ | left; reflexivity].
  cbn [alertHandler setDetector].
  destruct (ge (impactForce sensorData) _); [ | left; reflexivity].
  match goal with
  | |- context [if negb (Severity_eqb ?s none) then _ else _] =>
      destruct (negb (Severity_eqb s none))
  end; [ | left; reflexivity].
  match goal with
  | |- context [triggerAccidentAlert browser ?t ?s ?d ?w0] =>
      destruct (triggerAccidentAlert_handler browser t s d w0) as [H | H]
  end; [left; rewrite H; reflexivity | right; exact H].
Qed.

Lemma analyzeAudioData_handler (browser : Browser)
  (currentTime alertTime : Z) (audioData : AudioData) (w : World) :
  let w' := analyzeAudioData browser currentTime alertTime audioData w in
  alertHandler w' = alertHandler w
  \/ isAlertActive (alertHandler w') = true.
Proof.
  unfold analyzeAudioData.
  destruct (isActive (accidentDetector w)); cbn [negb];
    [ | left; reflexivity].
  destruct (ge (level audioData) _); [ | left; reflexivity].
  destruct (5000 <? _); [ | left; reflexivity].
  destruct (hasRecentImpact _ _ _); [ | left; reflexivity].
  match goal with
  | |- context [triggerAccidentAlert browser ?t ?s ?d ?w0] =>
      destruct (triggerAccidentAlert_handler browser t s d w0) as [H | H]
  end; [left; rewrite H; reflexivity | right; exact H].
Qed.

(** What [cancelAlert] leaves behind, in any state. *)
Lemma cancelAlert_effect (now : Z) (w : World) :
  let w' := cancelAlert now w in
  isAlertActive (alertHandler w') = false
  /\ Disarmed (alertHandler w')
  /\ activeScreen w' = dashboard
  /\ resetTimers w' = resetTimers w ++ [now + 5000]
  /\ accidentDetector w' = accidentDetector w
  /\ currentSeverity (alertHandler w') = currentSeverity (alertHandler w)
  /\ alertDetails (alertHandler w') = alertDetails (alertHandler w)
  /\ countdownSeconds (alertHandler w') = countdownSeconds (alertHandler w)
  /\ calls w' = calls w
  /\ pendingDispatch w' = pendingDispatch w.
Proof. unfold cancelAlert, Disarmed. simpl. repeat split. Qed.

Lemma step_IdleDisarmed (browser : Browser) (w w' : World) (i : Input) :
  step browser w i = Some w' -> IdleDisarmed w -> IdleDisarmed w'.
Proof.
  intros Hstep Hinv. destruct i; simpl in Hstep.
  - injection Hstep as <-. exact Hinv.
  - injection Hstep as <-. exact Hinv.
  - injection Hstep as <-.
    destruct (analyzeSensorData_handler browser currentTime alertTime
                rotationTime sensorData w) as [H | H];
      unfold IdleDisarmed; [rewrite H; exact Hinv | congruence].
  - injection Hstep as <-.
    destruct (analyzeAudioData_handler browser currentTime alertTime
                audioData w) as [H | H];
      unfold IdleDisarmed; [rewrite H; exact Hinv | congruence].
  - unfold countdownTick in Hstep.
    destruct (countdownTimer (alertHandler w)) as [t | ] eqn:Ht;
      [ | discriminate].
    destruct (t - 1 <? 0); injection Hstep as <-.
    + intros _. apply sendEmergencyAlert_effect.
    + intros Hoff. exfalso.
      assert (Hw : isAlertActive (alertHandler w) = false).
      { revert Hoff. cbn [alertHandler setHandler].
        destruct ((t <=? 10) && (0 <? t)); exact (fun H => H). }
      destruct (Hinv Hw) as [Hnone _]. congruence.
  - injection Hstep as <-. intros _. apply cancelAlert_effect.
  - unfold resetTimerFires in Hstep.
    destruct (takeDue now (resetTimers w)); [ | discriminate].
    injection Hstep as <-. exact Hinv.
  - injection Hstep as <-. intros _. apply sendEmergencyAlert_effect.
  - unfold dispatchSettles in Hstep.
    destruct (pendingDispatch w); [discriminate | ].
    injection Hstep as <-. exact Hinv.
  - injection Hstep as <-.
    destruct (showAlert_handler browser s details w) as [H | H];
      unfold IdleDisarmed; [rewrite H; exact Hinv | congruence].
Qed.

(** In every world the page can reach, an idle handler has nothing
    armed. *)
Lemma run_IdleDisarmed (browser : Browser) (inputs : list Input) :
  forall w w' : World,
    run browser w inputs = Some w' -> IdleDisarmed w -> IdleDisarmed w'.
Proof.
  induction inputs as [ | i rest IH]; intros w w' Hrun Hinv.
  - simpl in Hrun. injection Hrun as <-. exact Hinv.
  - simpl in Hrun.
    destruct (step browser w i) as [w1 | ] eqn:Hstep; [ | discriminate].
    exact (IH w1 w' Hrun (step_IdleDisarmed browser w w1 i Hstep Hinv)).
Qed.

Lemma initialWorld_IdleDisarmed : IdleDisarmed initialWorld.
Proof. intros _. repeat split. Qed.

(** C4, as the specification states it, fails in its second half:
    [cancelAlert] on an idle handler (here after an escalation) leaves the
    emergency screen for the dashboard and schedules a reset timer, and
    when that timer fires the cooldown stamp is cleared. *)
Lemma idle_cancel_changes_state :
  isAlertActive (alertHandler escalatedWorld) = false
  /\ activeScreen escalatedWorld = emergencyScreen
  /\ activeScreen (cancelAlert (someTime + 17000) escalatedWorld) = dashboard
  /\ resetTimers escalatedWorld = []
  /\ resetTimers (cancelAlert (someTime + 17000) escalatedWorld)
     = [someTime + 22000]
  /\ cancelAlert (someTime + 17000) escalatedWorld <> escalatedWorld
  /\ lastImpactTime (accidentDetector escalatedWorld) = someTime
  /\ option_map (fun w => lastImpactTime (accidentDetector w))
       (resetTimerFires (someTime + 22000)
          (cancelAlert (someTime + 17000) escalatedWorld)) = Some 0.
Proof.
  split; [vm_compute; reflexivity | ].
  split; [vm_compute; reflexivity | ].
  split; [vm_compute; reflexivity | ].
  split; [vm_compute; reflexivity | ].
  split; [vm_compute; reflexivity | ].
  split; [ | split; vm_compute; reflexivity].
  intros H.
  assert (Hs : activeScreen (cancelAlert (someTime + 17000) escalatedWorld)
               = activeScreen escalatedWorld) by (rewrite H; reflexivity).
  vm_compute in Hs. discriminate Hs.
Qed.

(** C4, amended. [cancelAlert] always leaves the handler idle with the
    countdown, the voice and shake listeners, the beep interval and the
    audio context disarmed, which from an active alert is the return to
    idle. On a handler that is already idle it changes neither the handler
    nor the detector nor the call log, but it still shows the dashboard and
    schedules one more reset of the cooldown stamp for 5000 ms later. *)
Theorem cancelAlert_idles_and_disarms (browser : Browser)
  (inputs : list Input) (w : World) (now : Z) :
  run browser initialWorld inputs = Some w ->
  let w' := cancelAlert now w in
  isAlertActive (alertHandler w') = false
  /\ Disarmed (alertHandler w')
  /\ accidentDetector w' = accidentDetector w
  /\ calls w' = calls w
  /\ pendingDispatch w' = pendingDispatch w
  /\ activeScreen w' = dashboard
  /\ resetTimers w' = resetTimers w ++ [now + 5000]
  /\ (isAlertActive (alertHandler w) = false ->
      alertHandler w' = alertHandler w).
Proof.
  intros Hrun w'.
  destruct (cancelAlert_effect now w)
    as [Hoff [Hdis [Hscreen [Htimers [Hdet [_ [_ [_ [Hcalls Hpend]]]]]]]]].
  repeat split; try assumption; try apply Hdis.
  intros Hidle.
  destruct (run_IdleDisarmed browser inputs initialWorld w Hrun
              initialWorld_IdleDisarmed Hidle)
    as [Ht [Hv [Hsh [Hb Hctx]]]].
  subst w'. unfold cancelAlert. cbn [alertHandler setResetTimers
    switchScreen setHandler].
  destruct (alertHandler w) as [a t sec sev det v sh ctx b].
  simpl in *. subst. reflexivity.
Qed.

Lemma cancelAlert_idles_and_disarms_witness :
  isAlertActive (alertHandler alertingWorld) = true
  /\ isAlertActive (alertHandler (cancelAlert (someTime + 1000)
                                    alertingWorld)) = false
  /\ Disarmed (alertHandler (cancelAlert (someTime + 1000) alertingWorld))
  /\ resetTimers (cancelAlert (someTime + 1000) alertingWorld)
     = [someTime + 6000].
Proof.
  split; [vm_compute; reflexivity | ].
  destruct (cancelAlert_idles_and_disarms fullBrowser
              [ Start;
                SensorSample someTime someTime someTime (flatSample 9) ]
              alertingWorld (someTime + 1000))
    as [Hoff [Hdis [_ [_ [_ [_ [Htimers _]]]]]]].
  - vm_compute; reflexivity.
  - split; [exact Hoff | ]. split; [exact Hdis | ].
    rewrite Htimers. vm_compute. reflexivity.
Defined.

(** * Further properties of the detector *)

(** ** The history buffer *)

Lemma addDetectionEvent_shape (e : DetectionEvent) (d : AccidentDetector) :
  detectionHistory (addDetectionEvent e d)
  = (if (length (detectionHistory d) <? 50)%nat
     then detectionHistory d else tl (detectionHistory d)) ++ [e].
Proof.
  unfold addDetectionEvent. cbn [detectionHistory setDetectionHistory].
  rewrite length_app. cbn [length].
  destruct (Nat.ltb_spec (length (detectionHistory d)) 50) as [Hlt | Hge].
  - destruct (Z.ltb_spec 50 (Z.of_nat (length (detectionHistory d) + 1)));
      [lia | reflexivity].
  - destruct (Z.ltb_spec 50 (Z.of_nat (length (detectionHistory d) + 1)));
      [ | lia].
    destruct (detectionHistory d); [simpl in Hge; lia | reflexivity].
Qed.

Lemma addDetectionEvent_bounded (e : DetectionEvent) (d : AccidentDetector) :
  (length (detectionHistory d) <= 50)%nat ->
  (length (detectionHistory (addDetectionEvent e d)) <= 50)%nat.
Proof.
  intros H. rewrite addDetectionEvent_shape.
  destruct (Nat.ltb_spec (length (detectionHistory d)) 50) as [Hlt | Hge];
    rewrite length_app; cbn [length].
  - lia.
  - destruct (detectionHistory d); simpl in *; lia.
Qed.

Lemma checkRotationAnomaly_bounded (now : Z) (r : Orientation)
  (d : AccidentDetector) :
  (length (detectionHistory d) <= 50)%nat ->
  (length (detectionHistory (checkRotationAnomaly now r d)) <= 50)%nat.
Proof.
  intros H. unfold checkRotationAnomaly.
  destruct (previousRotation d); [ | exact H].
  destruct (_ || _); cbn [detectionHistory setPreviousRotation];
    [apply addDetectionEvent_bounded; exact H | exact H].
Qed.

Lemma analyzeSensorData_bounded (browser : Browser)
  (currentTime alertTime rotationTime : Z) (sensorData : SensorData)
  (w : World) :
  HistoryBounded w ->
  HistoryBounded (analyzeSensorData browser currentTime alertTime
                    rotationTime sensorData w).
Proof.
  unfold HistoryBounded. intros H. unfold analyzeSensorData.
  destruct (isActive (accidentDetector w)); cbn [negb]; [ | exact H].
  cbn [accidentDetector setDetector].
  apply checkRotationAnomaly_bounded.
  destruct (ge (impactForce sensorData) _); [ | exact H].
  match goal with
  | |- context [if negb (Severity_eqb ?s none) then _ else _] =>
      destruct (negb (Severity_eqb s none))
  end.
  - rewrite triggerAccidentAlert_detectionHistory.
    cbn [accidentDetector setDetector].
    apply addDetectionEvent_bounded.
    destruct (sustainedHighForce (accidentDetector w)); exact H.
  - cbn [accidentDetector setDetector].
    apply addDetectionEvent_bounded.
    destruct (sustainedHighForce (accidentDetector w)); exact H.
Qed.

Lemma analyzeAudioData_bounded (browser : Browser)
  (currentTime alertTime : Z) (audioData : AudioData) (w : World) :
  HistoryBounded w ->
  HistoryBounded (analyzeAudioData browser currentTime alertTime audioData w).
Proof.
  unfold HistoryBounded. intros H. unfold analyzeAudioData.
  destruct (isActive (accidentDetector w)); cbn [negb]; [ | exact H].
  destruct (ge (level audioData) _); [ | exact H].
  destruct (5000 <? _); [ | exact H].
  destruct (hasRecentImpact _ _ _); [ | exact H].
  rewrite triggerAccidentAlert_detectionHistory.
  cbn [accidentDetector setDetector].
  apply addDetectionEvent_bounded. exact H.
Qed.

(** The inputs that do not go through the detector leave its history
    alone. *)
Lemma step_detectionHistory (browser : Browser) (w w' : World) (i : Input) :
  step browser w i = Some w' ->
  match i with
  | Start | SensorSample _ _ _ _ | AudioSample _ _ _ => True
  | _ => detectionHistory (accidentDetector w')
         = detectionHistory (accidentDetector w)
  end.
Proof.
  intros Hstep. destruct i; simpl in Hstep; try exact I.
  - injection Hstep as <-. reflexivity.
  - unfold countdownTick in Hstep.
    destruct (countdownTimer (alertHandler w)) as [t | ]; [ | discriminate].
    destruct (t - 1 <? 0); injection Hstep as <-; [ | reflexivity].
    unfold sendEmergencyAlert.
    destruct (emergencyHandlerDefined browser); reflexivity.
  - injection Hstep as <-. reflexivity.
  - unfold resetTimerFires in Hstep.
    destruct (takeDue now (resetTimers w)); [ | discriminate].
    injection Hstep as <-. reflexivity.
  - injection Hstep as <-. unfold callEmergencyNow, sendEmergencyAlert.
    destruct (emergencyHandlerDefined browser); reflexivity.
  - unfold dispatchSettles in Hstep.
    destruct (pendingDispatch w); [discriminate | ].
    injection Hstep as <-. reflexivity.
  - injection Hstep as <-. unfold showAlert.
    destruct (isAlertActive (alertHandler w)); reflexivity.
Qed.

Lemma step_bounded (browser : Browser) (w w' : World) (i : Input) :
  step browser w i = Some w' -> HistoryBounded w -> HistoryBounded w'.
Proof.
  intros Hstep H. pose proof (step_detectionHistory browser w w' i Hstep) as Hh.
  destruct i; try (unfold HistoryBounded in *; rewrite Hh; exact H);
    simpl in Hstep; injection Hstep as <-.
  - unfold HistoryBounded. simpl. lia.
  - apply analyzeSensorData_bounded. exact H.
  - apply analyzeAudioData_bounded. exact H.
Qed.

(** X1. Whatever the page delivers, a history of at most 50 entries stays
    at most 50 entries long. *)
Theorem history_stays_within_50 (browser : Browser) (inputs : list Input) :
  forall w w' : World,
    HistoryBounded w ->
    run browser w inputs = Some w' ->
    HistoryBounded w'.
Proof.
  induction inputs as [ | i rest IH]; intros w w' H Hrun.
  - simpl in Hrun. injection Hrun as <-. exact H.
  - simpl in Hrun.
    destruct (step browser w i) as [w1 | ] eqn:Hstep; [ | discriminate].
    exact (IH w1 w' (step_bounded browser w w1 i Hstep H) Hrun).
Qed.

Lemma history_stays_within_50_witness :
  HistoryBounded (worldAfter fullBrowser initialWorld crashBurst).
Proof.
  apply (history_stays_within_50 fullBrowser crashBurst initialWorld).
  - unfold HistoryBounded. simpl. lia.
  - vm_compute. reflexivity.
Defined.

Lemma skipn_snoc_keep {A : Type} (n : nat) (l : list A) (a : A) :
  (n <= length l)%nat -> skipn n (l ++ [a]) = skipn n l ++ [a].
Proof.
  intros H. rewrite skipn_app.
  replace (n - length l)%nat with 0%nat by lia. reflexivity.
Qed.

Lemma tl_skipn {A : Type} (n : nat) (l : list A) :
  tl (skipn n l) = skipn (S n) l.
Proof.
  revert l. induction n as [ | n IH]; intros l.
  - destruct l; reflexivity.
  - destruct l as [ | a l]; [reflexivity | ]. cbn [skipn]. rewrite IH.
    destruct l; reflexivity.
Qed.

Lemma addDetectionEvent_last_50 (e : DetectionEvent) (d : AccidentDetector)
  (pushed : list DetectionEvent) :
  detectionHistory d = skipn (length pushed - 50) pushed ->
  detectionHistory (addDetectionEvent e d)
  = skipn (length (pushed ++ [e]) - 50) (pushed ++ [e]).
Proof.
  intros H. rewrite addDetectionEvent_shape, H.
  rewrite length_skipn, length_app. cbn [length].
  destruct (Nat.ltb_spec (length pushed - (length pushed - 50)) 50)
    as [Hlt | Hge].
  - replace (length pushed + 1 - 50)%nat with 0%nat by lia.
    replace (length pushed - 50)%nat with 0%nat by lia. reflexivity.
  - rewrite tl_skipn.
    replace (length pushed + 1 - 50)%nat
      with (S (length pushed - 50)) by lia.
    rewrite skipn_snoc_keep by lia. reflexivity.
Qed.

(** X2. Starting from an empty history, after any number of
    [addDetectionEvent] calls the history is the last 50 of the events
    pushed, in the order they were pushed: eviction is oldest first. *)
Theorem history_is_last_50 (events : list DetectionEvent)
  (d : AccidentDetector) :
  detectionHistory d = [] ->
  detectionHistory (addDetectionEvents events d)
  = skipn (length events - 50) events.
Proof.
  intros Hempty.
  assert (Hgen : forall (es pushed : list DetectionEvent)
                   (d0 : AccidentDetector),
             detectionHistory d0 = skipn (length pushed - 50) pushed ->
             detectionHistory (addDetectionEvents es d0)
             = skipn (length (pushed ++ es) - 50) (pushed ++ es)).
  { induction es as [ | e es IH]; intros pushed d0 H0.
    - rewrite app_nil_r. exact H0.
    - cbn [addDetectionEvents fold_left].
      change (fold_left (fun d' e0 => addDetectionEvent e0 d') es
                (addDetectionEvent e d0))
        with (addDetectionEvents es (addDetectionEvent e d0)).
      rewrite (IH (pushed ++ [e]) (addDetectionEvent e d0)
                 (addDetectionEvent_last_50 e d0 pushed H0)).
      rewrite <- app_assoc. reflexivity. }
  apply (Hgen events [] d). rewrite Hempty. reflexivity.
Qed.

Lemma history_is_last_50_witness :
  detectionHistory
    (addDetectionEvents
       (map (fun n => {| type := Impact; severity := low;
                         metrics := ImpactMetrics (Fin 3) 0;
                         timestamp := Z.of_nat n |}) (seq 0 52))
       newAccidentDetector)
  = map (fun n => {| type := Impact; severity := low;
                     metrics := ImpactMetrics (Fin 3) 0;
                     timestamp := Z.of_nat n |}) (seq 2 50).
Proof.
  rewrite (history_is_last_50 _ newAccidentDetector eq_refl).
  vm_compute. reflexivity.
Defined.

(** ** The search for a recent impact *)

Lemma find_first {A : Type} (f : A -> bool) (l : list A) (x : A) :
  find f l = Some x ->
  exists before after,
    l = before ++ x :: after
    /\ f x = true
    /\ Forall (fun y => f y = false) before.
Proof.
  induction l as [ | a l IH]; [discriminate | ]. simpl.
  destruct (f a) eqn:Ha.
  - intros H. injection H as <-. exists [], l.
    split; [reflexivity | ]. split; [exact Ha | constructor].
  - intros H. destruct (IH H) as [before [after [Hl [Hx Hb]]]].
    exists (a :: before), after. subst l.
    split; [reflexivity | ]. split; [exact Hx | ].
    constructor; assumption.
Qed.

(** X3. When [hasRecentImpact] returns an event, that event is an impact
    inside the time window and it is the newest such entry: no entry pushed
    after it is an impact inside the window. *)
Theorem hasRecentImpact_returns_newest (d : AccidentDetector)
  (currentTime timeWindow : Z) (e : DetectionEvent) :
  hasRecentImpact d currentTime timeWindow = Some e ->
  exists older newer,
    detectionHistory d = older ++ e :: newer
    /\ type e = Impact
    /\ currentTime - timestamp e <= timeWindow
    /\ Forall (fun e' => type e' <> Impact
                         \/ timeWindow < currentTime - timestamp e') newer.
Proof.
  intros H. pose proof (hasRecentImpact_Some _ _ _ _ H) as [_ [Hty Hwin]].
  unfold hasRecentImpact in H.
  destruct (find_first _ _ _ H) as [before [after [Hrev [_ Hbefore]]]].
  exists (rev after), (rev before).
  split.
  { rewrite <- (rev_involutive (detectionHistory d)), Hrev.
    rewrite rev_app_distr. cbn [rev]. rewrite <- app_assoc. reflexivity. }
  split; [exact Hty | ]. split; [exact Hwin | ].
  apply Forall_rev. eapply Forall_impl; [ | exact Hbefore].
  cbv beta. intros e' He'. unfold isRecentImpact in He'.
  apply andb_false_iff in He'. destruct He' as [Ht | Hk].
  - right. apply Z.leb_gt in Ht. exact Ht.
  - left. intros Himp. rewrite Himp in Hk. discriminate.
Qed.

Lemma hasRecentImpact_returns_newest_witness :
  exists older newer,
    detectionHistory (accidentDetector mediumImpactWorld)
    = older ++ mediumImpactEvent :: newer
    /\ type mediumImpactEvent = Impact
    /\ (someTime + 500) - timestamp mediumImpactEvent <= 2000
    /\ Forall (fun e' => type e' <> Impact
                         \/ 2000 < (someTime + 500) - timestamp e') newer.
Proof.
  apply (hasRecentImpact_returns_newest (accidentDetector mediumImpactWorld)
           (someTime + 500) 2000 mediumImpactEvent).
  vm_compute. reflexivity.
Defined.

(** ** Severity as a function of force and duration *)

Lemma ge_trans_Fin (f' f : num) (t : Q) :
  ge f' f = true -> ge f (Fin t) = true -> ge f' (Fin t) = true.
Proof.
  destruct f' as [q' | | | ], f as [q | | | ]; simpl;
    try discriminate; try reflexivity.
  rewrite !Qle_bool_iff. intros H1 H2. apply Qle_trans with q; assumption.
Qed.

(** X4. [calculateSeverity] is monotone: a force that compares [>=] to
    another, held at least as long, is never classified lower, whatever the
    thresholds. *)
Theorem calculateSeverity_monotone (t : Thresholds) (f f' : num)
  (d d' : Z) :
  ge f' f = true ->
  d <= d' ->
  severityRank (calculateSeverity t f d)
  <= severityRank (calculateSeverity t f' d').
Proof.
  intros Hf Hd. unfold calculateSeverity.
  pose proof (ge_trans_Fin f' f (criticalImpact t) Hf) as H4.
  pose proof (ge_trans_Fin f' f (highImpact t) Hf) as H3.
  pose proof (ge_trans_Fin f' f (mediumImpact t) Hf) as H2.
  pose proof (ge_trans_Fin f' f (lowImpact t) Hf) as H1.
  assert (Hb : (sustainedForceDuration t <=? d) = true ->
               (sustainedForceDuration t <=? d') = true).
  { rewrite !Z.leb_le. lia. }
  destruct (ge f (Fin (criticalImpact t))) eqn:A4;
    destruct (ge f (Fin (highImpact t))) eqn:A3;
    destruct (ge f (Fin (mediumImpact t))) eqn:A2;
    destruct (ge f (Fin (lowImpact t))) eqn:A1;
    destruct (sustainedForceDuration t <=? d) eqn:B;
    destruct (ge f' (Fin (criticalImpact t))) eqn:A4';
    destruct (ge f' (Fin (highImpact t))) eqn:A3';
    destruct (ge f' (Fin (mediumImpact t))) eqn:A2';
    destruct (ge f' (Fin (lowImpact t))) eqn:A1';
    destruct (sustainedForceDuration t <=? d') eqn:B';
    simpl; try lia;
    try (specialize (H4 eq_refl); discriminate);
    try (specialize (H3 eq_refl); discriminate);
    try (specialize (H2 eq_refl); discriminate);
    try (specialize (H1 eq_refl); discriminate);
    try (specialize (Hb eq_refl); discriminate).
Qed.

Lemma calculateSeverity_monotone_witness :
  severityRank (calculateSeverity defaultThresholds (Fin 5) 0)
  <= severityRank (calculateSeverity defaultThresholds (Fin 7) 250).
Proof.
  apply (calculateSeverity_monotone defaultThresholds (Fin 5) (Fin 7) 0 250).
  - reflexivity.
  - lia.
Defined.

(** A force at or above the low threshold is never classified ['none'],
    whatever the order of the thresholds. *)
Lemma calculateSeverity_not_none (t : Thresholds) (f : num) (d : Z) :
  ge f (Fin (lowImpact t)) = true -> calculateSeverity t f d <> none.
Proof.
  intros H. unfold calculateSeverity. rewrite H.
  destruct (_ || _); [discriminate | ].
  destruct (ge f (Fin (highImpact t))); [discriminate | ].
  destruct (ge f (Fin (mediumImpact t))); discriminate.
Qed.

(** ** The impact path *)

Lemma triggerAccidentAlert_logs_request (browser : Browser) (now : Z)
  (s : Severity) (details : Details) (w : World) :
  In (AlertRequest now s details)
    (calls (triggerAccidentAlert browser now s details w)).
Proof.
  unfold triggerAccidentAlert, showAlert. cbn [accidentDetector logCall].
  destruct (now - lastImpactTime (accidentDetector w) <? 10000);
    [left; reflexivity | ].
  destruct s; simpl; try (left; reflexivity);
    destruct (isAlertActive (alertHandler w)); simpl;
    right; left; reflexivity.
Qed.

Lemma checkRotationAnomaly_keeps_newest (now : Z) (r : Orientation)
  (d : AccidentDetector) (older : list DetectionEvent) (e : DetectionEvent) :
  detectionHistory d = older ++ [e] ->
  In e (detectionHistory (checkRotationAnomaly now r d)).
Proof.
  intros H.
  assert (Hin : In e (detectionHistory d))
    by (rewrite H; apply in_or_app; right; left; reflexivity).
  unfold checkRotationAnomaly.
  destruct (previousRotation d); [ | exact Hin].
  destruct (_ || _); cbn [detectionHistory setPreviousRotation];
    [ | exact Hin].
  rewrite addDetectionEvent_shape. apply in_or_app. left.
  destruct (length (detectionHistory d) <? 50)%nat eqn:L; [exact Hin | ].
  apply Nat.ltb_ge in L. rewrite H in *.
  destruct older as [ | e0 older].
  - simpl in L. lia.
  - simpl. apply in_or_app. right. left. reflexivity.
Qed.

(** What the impact path of [analyzeSensorData] leaves in the history and
    in the log. *)
Lemma analyzeSensorData_impact_path (browser : Browser)
  (currentTime alertTime rotationTime : Z) (sensorData : SensorData)
  (w : World) :
  isActive (accidentDetector w) = true ->
  ge (impactForce sensorData)
    (Fin (lowImpact (detectionThresholds (accidentDetector w)))) = true ->
  let d := accidentDetector w in
  let forceDuration :=
    if sustainedHighForce d then currentTime - highForceStartTime d else 0 in
  let s := calculateSeverity (detectionThresholds d)
             (impactForce sensorData) forceDuration in
  let w' := analyzeSensorData browser currentTime alertTime rotationTime
              sensorData w in
  s <> none
  /\ In {| type := Impact;
           severity := s;
           metrics := ImpactMetrics (impactForce sensorData) forceDuration;
           timestamp := currentTime |}
       (detectionHistory (accidentDetector w'))
  /\ In (AlertRequest alertTime s
           (ImpactDetails (impactForce sensorData) forceDuration))
       (calls w').
Proof.
  intros Hact Hge d forceDuration s w'.
  assert (Hs : s <> none) by (apply calculateSeverity_not_none; exact Hge).
  split; [exact Hs | ].
  assert (Hneg : negb (Severity_eqb s none) = true)
    by (destruct s; try reflexivity; congruence).
  subst w'. unfold analyzeSensorData. rewrite Hact, Hge.
  cbn [negb]. cbv iota.
  assert (Hd1 :
            forall d1,
              d1 = (if negb (sustainedHighForce (accidentDetector w))
                    then setSustainedHighForce true
                           (setHighForceStartTime currentTime
                              (accidentDetector w))
                    else accidentDetector w) ->
              currentTime - highForceStartTime d1 = forceDuration
              /\ detectionThresholds d1 = detectionThresholds d).
  { intros d1 ->. subst forceDuration d.
    destruct (sustainedHighForce (accidentDetector w)); simpl;
      split; try reflexivity. apply Z.sub_diag. }
  destruct (Hd1 _ eq_refl) as [Hdur Hthr]. rewrite Hdur, Hthr.
  fold s. rewrite Hneg.
  cbn [accidentDetector setDetector calls].
  split.
  - match goal with
    | |- In ?ev (detectionHistory (checkRotationAnomaly _ _ ?d2)) =>
        assert (Hlast : exists older, detectionHistory d2 = older ++ [ev])
    end.
    { rewrite triggerAccidentAlert_detectionHistory.
      cbn [accidentDetector setDetector].
      match goal with
      | |- context [addDetectionEvent ?ev ?d1] =>
          destruct (addDetectionEvent_newest ev d1) as [older [Ho _]]
      end.
      exists older. exact Ho. }
    destruct Hlast as [older Ho].
    exact (checkRotationAnomaly_keeps_newest _ _ _ older _ Ho).
  - apply triggerAccidentAlert_logs_request.
Qed.


(** X5. On an active detector every sample whose force is at or above the
    low threshold records an impact event and makes an alert request, both
    with the class [calculateSeverity] gives to the force and to the time
    since the tracker was started (zero when this sample starts it); that
    class is never ['none']. *)
Theorem impact_sample_records_and_requests (browser : Browser)
  (currentTime alertTime rotationTime : Z) (sensorData : SensorData)
  (w : World) :
  isActive (accidentDetector w) = true ->
  ge (impactForce sensorData)
    (Fin (lowImpact (detectionThresholds (accidentDetector w)))) = true ->
  let d := accidentDetector w in
  let forceDuration :=
    if sustainedHighForce d then currentTime - highForceStartTime d else 0 in
  let s := calculateSeverity (detectionThresholds d)
             (impactForce sensorData) forceDuration in
  let w' := analyzeSensorData browser currentTime alertTime rotationTime
              sensorData w in
  s <> none
  /\ In {| type := Impact;
           severity := s;
           metrics := ImpactMetrics (impactForce sensorData) forceDuration;
           timestamp := currentTime |}
       (detectionHistory (accidentDetector w'))
  /\ In (AlertRequest alertTime s
           (ImpactDetails (impactForce sensorData) forceDuration))
       (calls w').
Proof.
  exact (analyzeSensorData_impact_path browser currentTime alertTime
           rotationTime sensorData w).
Qed.

Lemma impact_sample_records_and_requests_witness :
  In (AlertRequest (someTime + 40) medium (ImpactDetails (Fin 5) 0))
    (calls (analyzeSensorData fullBrowser (someTime + 40) (someTime + 40)
              (someTime + 40) (flatSample 5) calmWorld)).
Proof.
  destruct (impact_sample_records_and_requests fullBrowser (someTime + 40)
              (someTime + 40) (someTime + 40) (flatSample 5) calmWorld)
    as [_ [_ Hreq]].
  - vm_compute; reflexivity.
  - vm_compute; reflexivity.
  - exact Hreq.
Defined.

(** ** Impact entries and the audio path *)

Lemma addDetectionEvent_Forall (P : DetectionEvent -> Prop)
  (e : DetectionEvent) (d : AccidentDetector) :
  Forall P (detectionHistory d) -> P e ->
  Forall P (detectionHistory (addDetectionEvent e d)).
Proof.
  intros Hall He. rewrite addDetectionEvent_shape.
  apply Forall_app. split; [ | constructor; [exact He | constructor]].
  destruct (length (detectionHistory d) <? 50)%nat; [exact Hall | ].
  destruct (detectionHistory d) as [ | e0 rest]; [constructor | ].
  simpl. inversion Hall; assumption.
Qed.

Lemma checkRotationAnomaly_Forall (P : DetectionEvent -> Prop) (now : Z)
  (r : Orientation) (d : AccidentDetector) :
  (forall e, type e = Rotation -> P e) ->
  Forall P (detectionHistory d) ->
  Forall P (detectionHistory (checkRotationAnomaly now r d)).
Proof.
  intros Hrot Hall. unfold checkRotationAnomaly.
  destruct (previousRotation d); [ | exact Hall].
  destruct (_ || _); cbn [detectionHistory setPreviousRotation];
    [ | exact Hall].
  apply addDetectionEvent_Forall; [exact Hall | ]. apply Hrot. reflexivity.
Qed.

Lemma analyzeSensorData_classified (browser : Browser)
  (currentTime alertTime rotationTime : Z) (sensorData : SensorData)
  (w : World) :
  ImpactsClassified w ->
  ImpactsClassified (analyzeSensorData browser currentTime alertTime
                       rotationTime sensorData w).
Proof.
  unfold ImpactsClassified. intros H. unfold analyzeSensorData.
  destruct (isActive (accidentDetector w)); cbn [negb]; [ | exact H].
  cbn [accidentDetector setDetector].
  apply checkRotationAnomaly_Forall;
    [intros e He Himp; rewrite He in Himp; discriminate | ].
  destruct (ge (impactForce sensorData) _) eqn:Hge; [ | exact H].
  assert (Hadd :
            forall d1 dur,
              detectionThresholds d1
              = detectionThresholds (accidentDetector w) ->
              Forall (fun e => type e = Impact -> severity e <> none)
                (detectionHistory d1) ->
              Forall (fun e => type e = Impact -> severity e <> none)
                (detectionHistory
                   (addDetectionEvent
                      {| type := Impact;
                         severity :=
                           calculateSeverity (detectionThresholds d1)
                             (impactForce sensorData) dur;
                         metrics :=
                           ImpactMetrics (impactForce sensorData) dur;
                         timestamp := currentTime |} d1))).
  { intros d1 dur Hthr H1. apply addDetectionEvent_Forall; [exact H1 | ].
    intros _. cbn [severity]. apply calculateSeverity_not_none.
    rewrite Hthr. exact Hge. }
  match goal with
  | |- context [if negb (Severity_eqb ?s none) then _ else _] =>
      destruct (negb (Severity_eqb s none))
  end.
  - rewrite triggerAccidentAlert_detectionHistory.
    cbn [accidentDetector setDetector]. apply Hadd.
    + destruct (sustainedHighForce (accidentDetector w)); reflexivity.
    + destruct (sustainedHighForce (accidentDetector w)); exact H.
  - cbn [accidentDetector setDetector]. apply Hadd.
    + destruct (sustainedHighForce (accidentDetector w)); reflexivity.
    + destruct (sustainedHighForce (accidentDetector w)); exact H.
Qed.

Lemma analyzeAudioData_classified (browser : Browser)
  (currentTime alertTime : Z) (audioData : AudioData) (w : World) :
  ImpactsClassified w ->
  ImpactsClassified (analyzeAudioData browser currentTime alertTime
                       audioData w).
Proof.
  unfold ImpactsClassified. intros H. unfold analyzeAudioData.
  destruct (isActive (accidentDetector w)); cbn [negb]; [ | exact H].
  destruct (ge (level audioData) _); [ | exact H].
  destruct (5000 <? _); [ | exact H].
  destruct (hasRecentImpact _ _ _); [ | exact H].
  rewrite triggerAccidentAlert_detectionHistory.
  cbn [accidentDetector setDetector].
  apply addDetectionEvent_Forall; [exact H | ].
  intros Himp. discriminate Himp.
Qed.

Lemma run_classified (browser : Browser) (inputs : list Input) :
  forall w w' : World,
    ImpactsClassified w ->
    run browser w inputs = Some w' ->
    ImpactsClassified w'.
Proof.
  induction inputs as [ | i rest IH]; intros w w' H Hrun.
  - simpl in Hrun. injection Hrun as <-. exact H.
  - simpl in Hrun.
    destruct (step browser w i) as [w1 | ] eqn:Hstep; [ | discriminate].
    apply (IH w1 w'); [ | exact Hrun].
    pose proof (step_detectionHistory browser w w1 i Hstep) as Hh.
    destruct i; try (unfold ImpactsClassified in *; rewrite Hh; exact H);
      simpl in Hstep; injection Hstep as <-.
    + unfold ImpactsClassified. simpl. constructor.
    + apply analyzeSensorData_classified. exact H.
    + apply analyzeAudioData_classified. exact H.
Qed.

(** X6. In every world the page can reach from its initial state, an audio
    sample that gets as far as finding a recent impact makes its request
    with severity medium, high or critical: the severity test of
    [triggerAccidentAlert] never stops a combined request, so the request
    reaches [showAlert] whenever it passes the cooldown. *)
Theorem combined_request_is_never_below_medium (browser : Browser)
  (inputs : list Input) (w : World) (currentTime alertTime : Z)
  (audioData : AudioData) (e : DetectionEvent) :
  run browser initialWorld inputs = Some w ->
  isActive (accidentDetector w) = true ->
  ge (level audioData)
    (Fin (crashSoundLevel (detectionThresholds (accidentDetector w))))
  = true ->
  5000 < currentTime - lastImpactTime (accidentDetector w) ->
  hasRecentImpact (accidentDetector w) currentTime 2000 = Some e ->
  let s := calculateCombinedSeverity
             (detectionThresholds (accidentDetector w)) e
             (level audioData) in
  let w' := analyzeAudioData browser currentTime alertTime audioData w in
  belowMedium s = false
  /\ (10000 <= alertTime - lastImpactTime (accidentDetector w) ->
      In (ShowAlertCall alertTime s (CombinedDetails (level audioData)))
        (calls w')).
Proof.
  intros Hrun Hact Hlevel Hguard Hfind s w'.
  assert (Hinit : ImpactsClassified initialWorld) by constructor.
  pose proof (run_classified browser inputs initialWorld w Hinit Hrun)
    as Hcls.
  destruct (hasRecentImpact_Some _ _ _ _ Hfind) as [Hin [Hty _]].
  unfold ImpactsClassified in Hcls. rewrite Forall_forall in Hcls.
  pose proof (Hcls e Hin Hty) as Hsev.
  assert (Hs : belowMedium s = false).
  { subst s. unfold calculateCombinedSeverity. rewrite Hlevel.
    destruct (severity e); try reflexivity. congruence. }
  split; [exact Hs | ].
  intros Hcool. subst w'. unfold analyzeAudioData.
  rewrite Hact. cbn [negb]. rewrite Hlevel.
  destruct (Z.ltb_spec 5000
              (currentTime - lastImpactTime (accidentDetector w)));
    [ | lia].
  rewrite Hfind. fold s.
  unfold triggerAccidentAlert. cbn [accidentDetector logCall setDetector].
  rewrite addDetectionEvent_lastImpactTime.
  destruct (Z.ltb_spec (alertTime - lastImpactTime (accidentDetector w))
              10000); [lia | ].
  destruct s; try discriminate Hs;
    unfold showAlert; cbn [alertHandler setDetector logCall];
    destruct (isAlertActive (alertHandler w)); simpl; left; reflexivity.
Qed.

Lemma combined_request_is_never_below_medium_witness :
  belowMedium
    (calculateCombinedSeverity
       (detectionThresholds (accidentDetector mediumImpactWorld))
       mediumImpactEvent (Fin 105)) = false.
Proof.
  destruct (combined_request_is_never_below_medium fullBrowser
              [ Start;
                SensorSample (someTime - 6000) (someTime - 6000)
                  (someTime - 6000) (flatSample 3);
                SensorSample (someTime - 5900) (someTime - 5900)
                  (someTime - 5900) (flatSample 1);
                SensorSample someTime someTime someTime
                  (flatSample (52 # 10)) ]
              mediumImpactWorld (someTime + 500) (someTime + 500)
              {| level := Fin 105 |} mediumImpactEvent) as [Hs _].
  - vm_compute; reflexivity.
  - vm_compute; reflexivity.
  - vm_compute; reflexivity.
  - vm_compute; reflexivity.
  - vm_compute; reflexivity.
  - exact Hs.
Defined.

(** Without a reset firing the stamp never goes back. *)
Lemma run_stamp_grows (browser : Browser) (inputs : list Input)
  (w w' : World) :
  noResetFires inputs = true ->
  run browser w inputs = Some w' ->
  lastImpactTime (accidentDetector w)
  <= lastImpactTime (accidentDetector w').
Proof.
  intros Hno Hrun.
  apply (run_keeps browser
           (fun v => lastImpactTime (accidentDetector w) <= fst v)
           ltac:(cbn [fst]; intros; lia) inputs w w' Hno Hrun).
  cbn [fst cooldownView]. lia.
Qed.

(** X7. A request that passes the cooldown gate closes the audio path for
    the next 5000 ms, as long as no reset timer of a cancellation fires:
    after any inputs that follow the request, none of them the firing of a
    reset timer, an audio sample read no more than 5000 ms after the clock
    reading of that request leaves the world as it is, whatever its level
    and whatever the history holds. *)
Theorem stamping_request_silences_audio (browser : Browser) (now : Z)
  (s : Severity) (details : Details) (w w2 : World) (inputs : list Input)
  (currentTime alertTime : Z) (audioData : AudioData) :
  10000 <= now - lastImpactTime (accidentDetector w) ->
  noResetFires inputs = true ->
  run browser (triggerAccidentAlert browser now s details w) inputs
  = Some w2 ->
  currentTime - now <= 5000 ->
  analyzeAudioData browser currentTime alertTime audioData w2 = w2.
Proof.
  intros Hpass Hno Hrun Hsoon.
  assert (Hstamp :
            lastImpactTime
              (accidentDetector (triggerAccidentAlert browser now s details w))
            = now).
  { pose proof (triggerAccidentAlert_view browser now s details w) as Hv.
    unfold cooldownView in Hv. cbn [fst snd] in Hv.
    destruct (Z.ltb_spec (now - lastImpactTime (accidentDetector w)) 10000);
      [lia | ].
    injection Hv as Hl _. exact Hl. }
  pose proof (run_stamp_grows browser inputs _ w2 Hno Hrun) as Hgrow.
  rewrite Hstamp in Hgrow.
  unfold analyzeAudioData.
  destruct (isActive _); cbn [negb]; [ | reflexivity].
  destruct (ge (level audioData) _); [ | reflexivity].
  destruct (Z.ltb_spec 5000
              (currentTime - lastImpactTime (accidentDetector w2)));
    [lia | reflexivity].
Qed.

Lemma stamping_request_silences_audio_witness :
  analyzeAudioData fullBrowser (someTime + 500) (someTime + 500)
    {| level := Fin 105 |}
    (triggerAccidentAlert fullBrowser someTime medium
       (ImpactDetails (Fin (52 # 10)) 0) calmWorld)
  = triggerAccidentAlert fullBrowser someTime medium
      (ImpactDetails (Fin (52 # 10)) 0) calmWorld
  /\ analyzeAudioData fullBrowser (someTime + 4000) (someTime + 4000)
       {| level := Fin 105 |}
       (worldAfter fullBrowser
          (triggerAccidentAlert fullBrowser someTime medium
             (ImpactDetails (Fin (52 # 10)) 0) calmWorld)
          [ CountdownTick; CancelRequest (someTime + 1500);
            SensorSample (someTime + 2000) (someTime + 2000)
              (someTime + 2000) (flatSample 9) ])
     = worldAfter fullBrowser
         (triggerAccidentAlert fullBrowser someTime medium
            (ImpactDetails (Fin (52 # 10)) 0) calmWorld)
         [ CountdownTick; CancelRequest (someTime + 1500);
           SensorSample (someTime + 2000) (someTime + 2000)
             (someTime + 2000) (flatSample 9) ].
Proof.
  split.
  - apply (stamping_request_silences_audio fullBrowser someTime medium
             (ImpactDetails (Fin (52 # 10)) 0) calmWorld _ []).
    + vm_compute. congruence.
    + reflexivity.
    + reflexivity.
    + vm_compute. congruence.
  - apply (stamping_request_silences_audio fullBrowser someTime medium
             (ImpactDetails (Fin (52 # 10)) 0) calmWorld _
             [ CountdownTick; CancelRequest (someTime + 1500);
               SensorSample (someTime + 2000) (someTime + 2000)
                 (someTime + 2000) (flatSample 9) ]).
    + vm_compute. congruence.
    + reflexivity.
    + vm_compute. reflexivity.
    + vm_compute. congruence.
Defined.

(** A reset timer that fires in between reopens the audio path: the
    105 dB sound 1500 ms after the 5.2 g impact is combined with it, and the
    request it makes reaches [showAlert] too. *)
Example reset_timer_reopens_audio_path :
  run fullBrowser initialWorld impactResetSound
  = Some (worldAfter fullBrowser initialWorld impactResetSound)
  /\ alertTimes (calls (worldAfter fullBrowser initialWorld impactResetSound))
     = [someTime + 1500; someTime]
  /\ map (fun e => (type e, severity e, timestamp e))
       (detectionHistory
          (accidentDetector
             (worldAfter fullBrowser initialWorld impactResetSound)))
     = [ (Impact, medium, someTime); (Combined, high, someTime + 1500) ].
Proof.
  split; [vm_compute; reflexivity | ].
  split; [vm_compute; reflexivity | ].
  vm_compute; reflexivity.
Qed.

(** ** The sustained-force tracker *)

Lemma triggerAccidentAlert_trackerView (browser : Browser) (now : Z)
  (s : Severity) (details : Details) (w : World) :
  trackerView (accidentDetector (triggerAccidentAlert browser now s details w))
  = trackerView (accidentDetector w).
Proof.
  unfold triggerAccidentAlert, showAlert. cbn [accidentDetector logCall].
  destruct (now - lastImpactTime (accidentDetector w) <? 10000);
    [reflexivity | ].
  destruct s; try reflexivity;
    cbn [alertHandler setDetector logCall];
    destruct (isAlertActive (alertHandler w)); reflexivity.
Qed.

Lemma checkRotationAnomaly_trackerView (now : Z) (r : Orientation)
  (d : AccidentDetector) :
  trackerView (checkRotationAnomaly now r d) = trackerView d.
Proof.
  unfold checkRotationAnomaly.
  destruct (previousRotation d); [ | reflexivity].
  destruct (_ || _); reflexivity.
Qed.

Lemma step_trackerView (browser : Browser) (w w' : World) (i : Input) :
  step browser w i = Some w' ->
  sustainedHighForce (accidentDetector w) = true ->
  keepsForce (detectionThresholds (accidentDetector w)) i = true ->
  trackerView (accidentDetector w') = trackerView (accidentDetector w).
Proof.
  intros Hstep Hon Hkeep. destruct i; simpl in Hstep.
  - injection Hstep as <-. reflexivity.
  - injection Hstep as <-. reflexivity.
  - injection Hstep as <-. simpl in Hkeep. unfold analyzeSensorData.
    destruct (isActive (accidentDetector w)); cbn [negb]; [ | reflexivity].
    rewrite Hkeep, Hon. cbn [negb accidentDetector setDetector].
    rewrite checkRotationAnomaly_trackerView.
    match goal with
    | |- context [if negb (Severity_eqb ?s none) then _ else _] =>
        destruct (negb (Severity_eqb s none))
    end; [rewrite triggerAccidentAlert_trackerView | ]; reflexivity.
  - injection Hstep as <-. unfold analyzeAudioData.
    destruct (isActive (accidentDetector w)); cbn [negb]; [ | reflexivity].
    destruct (ge (level audioData) _); [ | reflexivity].
    destruct (5000 <? _); [ | reflexivity].
    destruct (hasRecentImpact _ _ _); [ | reflexivity].
    rewrite triggerAccidentAlert_trackerView. reflexivity.
  - unfold countdownTick in Hstep.
    destruct (countdownTimer (alertHandler w)) as [t | ]; [ | discriminate].
    destruct (t - 1 <? 0); injection Hstep as <-; [ | reflexivity].
    unfold sendEmergencyAlert.
    destruct (emergencyHandlerDefined browser); reflexivity.
  - injection Hstep as <-. reflexivity.
  - unfold resetTimerFires in Hstep.
    destruct (takeDue now (resetTimers w)); [ | discriminate].
    injection Hstep as <-. reflexivity.
  - injection Hstep as <-. unfold callEmergencyNow, sendEmergencyAlert.
    destruct (emergencyHandlerDefined browser); reflexivity.
  - unfold dispatchSettles in Hstep.
    destruct (pendingDispatch w); [discriminate | ].
    injection Hstep as <-. reflexivity.
  - injection Hstep as <-. unfold showAlert.
    destruct (isAlertActive (alertHandler w)); reflexivity.
Qed.

(** X8. Once the tracker runs, only a sensor sample below the low threshold
    stops it: through any inputs without such a sample (further strong
    samples, audio, ticks, cancellations, and also [stop()] followed by
    [start()]) the tracker stays on and keeps its start time, so the
    durations of later samples are still measured from the first one. *)
Theorem tracker_runs_until_calm_sample (browser : Browser)
  (inputs : list Input) :
  forall w w' : World,
    sustainedHighForce (accidentDetector w) = true ->
    forallb (keepsForce (detectionThresholds (accidentDetector w))) inputs
    = true ->
    run browser w inputs = Some w' ->
    sustainedHighForce (accidentDetector w') = true
    /\ highForceStartTime (accidentDetector w')
       = highForceStartTime (accidentDetector w).
Proof.
  induction inputs as [ | i rest IH]; intros w w' Hon Hkeep Hrun.
  - simpl in Hrun. injection Hrun as <-. split; [exact Hon | reflexivity].
  - simpl in Hkeep. apply andb_prop in Hkeep. destruct Hkeep as [Hi Hrest].
    simpl in Hrun.
    destruct (step browser w i) as [w1 | ] eqn:Hstep; [ | discriminate].
    pose proof (step_trackerView browser w w1 i Hstep Hon Hi) as Hv.
    unfold trackerView in Hv. injection Hv as Hthr Hs Ht.
    rewrite <- Hthr in Hrest. rewrite Hon in Hs.
    destruct (IH w1 w' Hs Hrest Hrun) as [Hon' Ht'].
    split; [exact Hon' | congruence].
Qed.

Lemma tracker_runs_until_calm_sample_witness :
  sustainedHighForce
    (accidentDetector
       (worldAfter fullBrowser alertingWorld
          [ Stop; Start;
            SensorSample (someTime + 9000) (someTime + 9000)
              (someTime + 9000) (flatSample 7) ])) = true
  /\ highForceStartTime
       (accidentDetector
          (worldAfter fullBrowser alertingWorld
             [ Stop; Start;
               SensorSample (someTime + 9000) (someTime + 9000)
                 (someTime + 9000) (flatSample 7) ]))
     = highForceStartTime (accidentDetector alertingWorld).
Proof.
  apply (tracker_runs_until_calm_sample fullBrowser
           [ Stop; Start;
             SensorSample (someTime + 9000) (someTime + 9000)
               (someTime + 9000) (flatSample 7) ] alertingWorld).
  - vm_compute; reflexivity.
  - vm_compute; reflexivity.
  - vm_compute; reflexivity.
Defined.

(** ** Rotation *)

(** With an operand that is not finite the difference is infinite, and so
    above every finite limit, unless it is NaN: an operand is NaN, or both
    are the same infinity. *)
Lemma gt_abs_sub_not_finite (x y : num) (limit : Q) :
  (forall q, x <> Fin q) \/ (forall q, y <> Fin q) ->
  gt (abs (sub x y)) (Fin limit) = true
  <-> x <> NaN /\ y <> NaN /\ x <> y.
Proof.
  intros Hinf.
  destruct x as [qx | | | ], y as [qy | | | ]; cbn [sub abs gt];
    try (split; [intros _; repeat split; discriminate | reflexivity]);
    try (split; [discriminate | intros [H1 [H2 H3]]; congruence]).
  destruct Hinf as [H | H]; [destruct (H qx) | destruct (H qy)]; reflexivity.
Qed.

(** A number minus itself is +0, or NaN when it is not finite. *)
Lemma sub_self (x : num) : sub x x = Fin 0 \/ sub x x = NaN.
Proof.
  destruct x as [q | | | ]; [left | right; reflexivity ..].
  cbn [sub]. unfold round.
  assert (H : Qnum (q - q) = 0).
  { destruct q as [n d]. unfold Qminus, Qplus, Qopp. cbn [Qnum Qden]. lia. }
  rewrite H. reflexivity.
Qed.

Lemma gt_abs_sub_self (x : num) (limit : Q) :
  (0 <= limit)%Q -> gt (abs (sub x x)) (Fin limit) = false.
Proof.
  intros Hl. destruct (sub_self x) as [-> | ->]; [ | reflexivity].
  cbn [abs gt]. apply negb_false_iff. apply Qle_bool_iff. exact Hl.
Qed.

(** X9. With a non-negative rotation limit, a sample whose beta and gamma
    equal those of the previous sample records no rotation event, whatever
    its alpha and also when the angles are not finite: [checkRotationAnomaly]
    then only stores the sample as the previous one. *)
Theorem unchanged_tilt_records_nothing (now : Z) (r previous : Orientation)
  (d : AccidentDetector) :
  previousRotation d = Some previous ->
  beta r = beta previous ->
  gamma r = gamma previous ->
  (0 <= suddenRotation (detectionThresholds d))%Q ->
  checkRotationAnomaly now r d = setPreviousRotation r d.
Proof.
  intros Hprev Hb Hg Hlimit. unfold checkRotationAnomaly.
  rewrite Hprev, Hb, Hg.
  rewrite !gt_abs_sub_self by exact Hlimit. reflexivity.
Qed.

Lemma unchanged_tilt_records_nothing_witness :
  checkRotationAnomaly (someTime + 20)
    {| alpha := Fin 180; beta := Fin 0; gamma := Fin 0 |}
    (accidentDetector calmWorld)
  = setPreviousRotation
      {| alpha := Fin 180; beta := Fin 0; gamma := Fin 0 |}
      (accidentDetector calmWorld).
Proof.
  apply (unchanged_tilt_records_nothing (someTime + 20)
           {| alpha := Fin 180; beta := Fin 0; gamma := Fin 0 |}
           levelOrientation (accidentDetector calmWorld)).
  - vm_compute; reflexivity.
  - reflexivity.
  - reflexivity.
  - vm_compute. congruence.
Defined.

(** * Further properties of the alert handler *)

Lemma showAlert_consistent (browser : Browser) (s : Severity)
  (details : Details) (w : World) :
  HandlerConsistent (alertHandler w) ->
  HandlerConsistent (alertHandler (showAlert browser s details w)).
Proof.
  intros H. destruct (isAlertActive (alertHandler w)) eqn:E.
  - unfold showAlert. rewrite E. exact H.
  - destruct (showAlert_accepted browser s details w E)
      as [Hact [Hsev [_ [Hsec [Htimer [Hshake [Hbeep _]]]]]]].
    split; [congruence | ]. intros _.
    exists (getCountdownTime s).
    split; [exact Htimer | ]. rewrite Hsec, Hsev.
    pose proof (getCountdownTime_nonneg s).
    repeat split; try assumption; lia.
Qed.

Lemma triggerAccidentAlert_consistent (browser : Browser) (now : Z)
  (s : Severity) (details : Details) (w : World) :
  HandlerConsistent (alertHandler w) ->
  HandlerConsistent
    (alertHandler (triggerAccidentAlert browser now s details w)).
Proof.
  intros H. unfold triggerAccidentAlert. cbn [accidentDetector logCall].
  destruct (now - lastImpactTime (accidentDetector w) <? 10000);
    [exact H | ].
  destruct s; try exact H; apply showAlert_consistent; exact H.
Qed.

Lemma sendEmergencyAlert_consistent (browser : Browser) (w : World) :
  HandlerConsistent (alertHandler (sendEmergencyAlert browser w)).
Proof.
  destruct (sendEmergencyAlert_effect browser w) as [Hoff [Hdis _]].
  split; [intros _; exact Hdis | congruence].
Qed.

Lemma countdownTick_consistent (browser : Browser) (w w' : World) :
  countdownTick browser w = Some w' ->
  HandlerConsistent (alertHandler w) ->
  HandlerConsistent (alertHandler w').
Proof.
  unfold countdownTick. intros Htick [Hidle Hactive].
  destruct (countdownTimer (alertHandler w)) as [t | ] eqn:Ht;
    [ | discriminate].
  destruct (Z.ltb_spec (t - 1) 0) as [Hneg | Hpos];
    injection Htick as <-; [apply sendEmergencyAlert_consistent | ].
  assert (Hsame :
            forall h1,
              h1 = (if (t <=? 10) && (0 <? t)
                    then playUrgentBeep browser (alertHandler w)
                    else alertHandler w) ->
              isAlertActive h1 = isAlertActive (alertHandler w)
              /\ countdownSeconds h1 = countdownSeconds (alertHandler w)
              /\ currentSeverity h1 = currentSeverity (alertHandler w)
              /\ shakeDetection h1 = shakeDetection (alertHandler w)
              /\ beepInterval h1 = beepInterval (alertHandler w)).
  { intros h1 ->. destruct ((t <=? 10) && (0 <? t)); repeat split. }
  destruct (Hsame _ eq_refl) as [Ha [Hsec [Hsev [Hsh Hb]]]].
  cbn [alertHandler setHandler].
  destruct (isAlertActive (alertHandler w)) eqn:E.
  - destruct (Hactive eq_refl) as [t0 [Ht0 [Hrange [Htable [Hshake Hbeep]]]]].
    rewrite Ht in Ht0. injection Ht0 as <-.
    split; [cbn; rewrite Ha; discriminate | ]. intros _.
    exists (t - 1). cbn. rewrite Hsec, Hsev, Hsh, Hb.
    repeat split; try assumption; lia.
  - destruct (Hidle eq_refl) as [Hnone _]. congruence.
Qed.

Lemma cancelAlert_consistent (now : Z) (w : World) :
  HandlerConsistent (alertHandler (cancelAlert now w)).
Proof.
  destruct (cancelAlert_effect now w) as [Hoff [Hdis _]].
  split; [intros _; exact Hdis | congruence].
Qed.

Lemma step_consistent (browser : Browser) (w w' : World) (i : Input) :
  step browser w i = Some w' ->
  HandlerConsistent (alertHandler w) ->
  HandlerConsistent (alertHandler w').
Proof.
  intros Hstep H. destruct i; simpl in Hstep.
  - injection Hstep as <-. exact H.
  - injection Hstep as <-. exact H.
  - injection Hstep as <-. unfold analyzeSensorData.
    destruct (isActive (accidentDetector w)); cbn [negb]; [ | exact H].
    cbn [alertHandler setDetector].
    destruct (ge (impactForce sensorData) _); [ | exact H].
    match goal with
    | |- context [if negb (Severity_eqb ?s none) then _ else _] =>
        destruct (negb (Severity_eqb s none))
    end; [ | exact H].
    apply triggerAccidentAlert_consistent. exact H.
  - injection Hstep as <-. unfold analyzeAudioData.
    destruct (isActive (accidentDetector w)); cbn [negb]; [ | exact H].
    destruct (ge (level audioData) _); [ | exact H].
    destruct (5000 <? _); [ | exact H].
    destruct (hasRecentImpact _ _ _); [ | exact H].
    apply triggerAccidentAlert_consistent. exact H.
  - exact (countdownTick_consistent browser w w' Hstep H).
  - injection Hstep as <-. apply cancelAlert_consistent.
  - unfold resetTimerFires in Hstep.
    destruct (takeDue now (resetTimers w)); [ | discriminate].
    injection Hstep as <-. exact H.
  - injection Hstep as <-. apply sendEmergencyAlert_consistent.
  - unfold dispatchSettles in Hstep.
    destruct (pendingDispatch w); [discriminate | ].
    injection Hstep as <-. exact H.
  - injection Hstep as <-. apply showAlert_consistent. exact H.
Qed.

Lemma handler_state_after_run (browser : Browser) (inputs : list Input) :
  forall w : World,
    run browser initialWorld inputs = Some w ->
    HandlerConsistent (alertHandler w).
Proof.
  assert (Hgen : forall (l : list Input) (w0 w : World),
             HandlerConsistent (alertHandler w0) ->
             run browser w0 l = Some w ->
             HandlerConsistent (alertHandler w)).
  { induction l as [ | i rest IH]; intros w0 w H0 Hrun.
    - simpl in Hrun. injection Hrun as <-. exact H0.
    - simpl in Hrun.
      destruct (step browser w0 i) as [w1 | ] eqn:Hstep; [ | discriminate].
      exact (IH w1 w (step_consistent browser w0 w1 i Hstep H0) Hrun). }
  intros w Hrun. apply (Hgen inputs initialWorld w); [ | exact Hrun].
  split; [intros _; repeat split | discriminate].
Qed.

(** X10. In every world the page can reach from its initial state the
    handler is in one of two shapes. Idle: no countdown interval, no voice
    or shake listener, no beep interval, no audio context. Active: a live
    countdown whose counter lies between zero and [countdownSeconds], which
    is the table entry of the stored severity, with the shake listener and
    the beep interval armed. *)
Theorem handler_is_idle_and_disarmed_or_counting (browser : Browser)
  (inputs : list Input) :
  forall w : World,
    run browser initialWorld inputs = Some w ->
    HandlerConsistent (alertHandler w).
Proof.
  exact (handler_state_after_run browser inputs).
Qed.

Lemma handler_is_idle_and_disarmed_or_counting_witness :
  HandlerConsistent
    (alertHandler (worldAfter fullBrowser initialWorld crashBurst)).
Proof.
  apply (handler_is_idle_and_disarmed_or_counting fullBrowser crashBurst).
  vm_compute. reflexivity.
Defined.

(** X11. From any reachable world with an active alert, the countdown
    left to itself ends: after [timeLeft + 1] further ticks, which is at
    most [countdownSeconds + 1], the handler is idle, and when the emergency
    handler is defined exactly one [sendAlert] call has been added, carrying
    the stored severity and details. *)
Theorem active_alert_escalates_when_left_alone (browser : Browser)
  (inputs : list Input) (w : World) :
  run browser initialWorld inputs = Some w ->
  isAlertActive (alertHandler w) = true ->
  exists (timeLeft : Z) (w' : World),
    countdownTimer (alertHandler w) = Some timeLeft
    /\ 0 <= timeLeft <= countdownSeconds (alertHandler w)
    /\ ticks browser (S (Z.to_nat timeLeft)) w = Some w'
    /\ isAlertActive (alertHandler w') = false
    /\ (emergencyHandlerDefined browser = true ->
        calls w'
        = SendAlertCall (currentSeverity (alertHandler w))
            (alertDetails (alertHandler w)) :: calls w).
Proof.
  intros Hrun Hact.
  destruct (handler_state_after_run browser inputs w Hrun) as [_ Hcount].
  destruct (Hcount Hact) as [t [Ht [Hrange _]]].
  destruct (ticks_decrement browser (Z.to_nat t) w t Ht ltac:(lia))
    as [wn [Hticks [Htn [_ [Hs [Hd [_ [Hc _]]]]]]]].
  rewrite Z2Nat.id, Z.sub_diag in Htn by lia.
  exists t,
    (sendEmergencyAlert browser
       (setHandler (clearCountdown (alertHandler wn)) wn)).
  split; [exact Ht | ]. split; [exact Hrange | ].
  split.
  { rewrite (ticks_snoc browser (Z.to_nat t) w wn Hticks).
    apply countdownTick_expiry. exact Htn. }
  destruct (sendEmergencyAlert_effect browser
              (setHandler (clearCountdown (alertHandler wn)) wn))
    as [Hoff [_ [_ [_ [_ [_ Hsend]]]]]].
  split; [exact Hoff | ].
  intros Hdef. rewrite Hdef in Hsend.
  cbn [alertHandler setHandler currentSeverity alertDetails clearCountdown
         setCountdownTimer calls] in Hsend.
  destruct Hsend as [Hc' _]. rewrite Hc'. congruence.
Qed.

Lemma active_alert_escalates_when_left_alone_witness :
  exists (timeLeft : Z) (w' : World),
    countdownTimer (alertHandler alertingWorld) = Some timeLeft
    /\ 0 <= timeLeft <= countdownSeconds (alertHandler alertingWorld)
    /\ ticks fullBrowser (S (Z.to_nat timeLeft)) alertingWorld = Some w'
    /\ isAlertActive (alertHandler w') = false
    /\ (emergencyHandlerDefined fullBrowser = true ->
        calls w'
        = SendAlertCall (currentSeverity (alertHandler alertingWorld))
            (alertDetails (alertHandler alertingWorld))
          :: calls alertingWorld).
Proof.
  apply (active_alert_escalates_when_left_alone fullBrowser
           [ Start; SensorSample someTime someTime someTime (flatSample 9) ]
           alertingWorld).
  - vm_compute; reflexivity.
  - vm_compute; reflexivity.
Defined.

(** X12. A more severe alert never gets a longer countdown: among low,
    medium, high and critical the table of [getCountdownTime] is decreasing
    in the severity, every value lies between 15 and 60 seconds, and a
    severity outside the table gets the 30 seconds of medium. *)
Theorem getCountdownTime_shrinks_with_severity (s1 s2 : Severity) :
  s1 <> none ->
  severityRank s1 <= severityRank s2 ->
  getCountdownTime s2 <= getCountdownTime s1
  /\ 15 <= getCountdownTime s2 <= 60
  /\ getCountdownTime none = getCountdownTime medium.
Proof.
  intros H1 Hrank.
  destruct s1, s2; simpl in *; try congruence; lia.
Qed.

Lemma getCountdownTime_shrinks_with_severity_witness :
  getCountdownTime critical <= getCountdownTime medium.
Proof.
  apply (getCountdownTime_shrinks_with_severity medium critical).
  - discriminate.
  - simpl. lia.
Defined.

(** X13. [sendEmergencyAlert] does not look at [isAlertActive], so the
    emergency button works on an idle handler too and sends what the last
    trigger stored: after an alert with severity [s] and details [d] has
    been accepted and then cancelled, [callEmergencyNow] hands [(s, d)] to
    [sendAlert] and shows the emergency screen. *)
Theorem emergency_now_after_cancel_sends_cancelled_alert (browser : Browser)
  (s : Severity) (details : Details) (now : Z) (w : World) :
  isAlertActive (alertHandler w) = false ->
  emergencyHandlerDefined browser = true ->
  let w' := callEmergencyNow browser
              (cancelAlert now (showAlert browser s details w)) in
  calls w' = SendAlertCall s details :: calls w
  /\ pendingDispatch w' = pendingDispatch w ++ [(s, details)]
  /\ activeScreen w' = emergencyScreen
  /\ isAlertActive (alertHandler w') = false.
Proof.
  intros Hidle Hdef w'.
  destruct (showAlert_accepted browser s details w Hidle)
    as [_ [Hsev [Hdet [_ [_ [_ [_ [_ [Hcalls [Hpend _]]]]]]]]]].
  destruct (cancelAlert_effect now (showAlert browser s details w))
    as [_ [_ [_ [_ [_ [Hsev' [Hdet' [_ [Hcalls' Hpend']]]]]]]]].
  destruct (sendEmergencyAlert_effect browser
              (cancelAlert now (showAlert browser s details w)))
    as [Hoff [_ [_ [_ [_ [_ Hsend]]]]]].
  rewrite Hdef in Hsend. destruct Hsend as [Hc [Hp Hscreen]].
  subst w'. unfold callEmergencyNow.
  split; [rewrite Hc; congruence | ].
  split; [rewrite Hp; congruence | ].
  split; [exact Hscreen | exact Hoff].
Qed.

Lemma emergency_now_after_cancel_sends_cancelled_alert_witness :
  calls (callEmergencyNow fullBrowser
           (cancelAlert (someTime + 1000)
              (showAlert fullBrowser high crashDetails startedWorld)))
  = [SendAlertCall high crashDetails].
Proof.
  destruct (emergency_now_after_cancel_sends_cancelled_alert fullBrowser
              high crashDetails (someTime + 1000) startedWorld)
    as [Hcalls _].
  - reflexivity.
  - reflexivity.
  - exact Hcalls.
Defined.

(** * Properties of the sensor and audio modules *)

(** ** Whole numbers as JavaScript numbers *)

Lemma ge_ofInt (a b : Z) : ge (ofInt a) (ofInt b) = true <-> b <= a.
Proof.
  unfold ofInt. simpl. rewrite Qle_bool_iff, <- Zle_Qle. reflexivity.
Qed.

Lemma gt_ofInt (a b : Z) : gt (ofInt a) (ofInt b) = true <-> b < a.
Proof.
  unfold ofInt. simpl. rewrite negb_true_iff.
  destruct (Qle_bool (inject_Z a) (inject_Z b)) eqn:E.
  - apply Qle_bool_iff in E. rewrite <- Zle_Qle in E.
    split; [discriminate | lia].
  - split; [intros _ | reflexivity].
    destruct (Z.lt_ge_cases b a) as [H | H]; [exact H | ].
    assert (Hq : Qle_bool (inject_Z a) (inject_Z b) = true)
      by (apply Qle_bool_iff; rewrite <- Zle_Qle; exact H).
    congruence.
Qed.

(** ** The sound level of a frame *)

Lemma byteSum_from (dataArray : list Byte.byte) (start : Z) :
  fold_left (fun sum b => sum + Z.of_N (Byte.to_N b)) dataArray start
  = start + AudioMonitor.byteSum dataArray.
Proof.
  unfold AudioMonitor.byteSum. revert start.
  induction dataArray as [ | b rest IH]; intros start; simpl.
  - lia.
  - rewrite IH, (IH (Z.of_N (Byte.to_N b))). lia.
Qed.

Lemma byteSum_range (dataArray : list Byte.byte) :
  0 <= AudioMonitor.byteSum dataArray
       <= 255 * Z.of_nat (length dataArray).
Proof.
  induction dataArray as [ | b rest IH].
  - unfold AudioMonitor.byteSum. simpl. lia.
  - unfold AudioMonitor.byteSum. cbn [fold_left]. rewrite byteSum_from.
    pose proof (Byte.to_N_bounded b) as Hb.
    cbn [length]. lia.
Qed.

Lemma roundedAverage_128 (dataArray : list Byte.byte) :
  length dataArray = 128%nat ->
  exists n : Z,
    AudioMonitor.roundedAverage dataArray = ofInt n
    /\ 0 <= n <= 255
    /\ 128 * n - 64 <= AudioMonitor.byteSum dataArray <= 128 * n + 63.
Proof.
  intros Hlen. pose proof (byteSum_range dataArray) as Hsum.
  rewrite Hlen in Hsum.
  unfold AudioMonitor.roundedAverage.
  destruct dataArray as [ | b rest]; [discriminate | ].
  rewrite Hlen.
  set (s := AudioMonitor.byteSum (b :: rest)) in *.
  exists ((2 * s + 128) / 256).
  split; [reflexivity | ].
  pose proof (Z.div_mod (2 * s + 128) 256 ltac:(lia)) as Hdm.
  pose proof (Z.mod_pos_bound (2 * s + 128) 256 ltac:(lia)) as Hmod.
  change (Z.of_nat 128) with 128 in *.
  change (2 * 128) with 256.
  split; lia.
Qed.

(** X14. For the 128 bins the analyser is configured with, the level a
    frame delivers to every callback is a whole number between 0 and 255,
    within half a unit of the mean of the bytes (halves rounded up); the
    detector's crash-sound test [level >= 100] succeeds exactly when the
    bytes add up to at least 12736. *)
Theorem frame_level_is_rounded_mean (C : Type)
  (dataArray : list Byte.byte) (m : AudioMonitor.t C) :
  length dataArray = 128%nat ->
  AudioMonitor.isMonitoring m = true ->
  exists n : Z,
    snd (AudioMonitor.analyzeAudio dataArray m)
    = map (fun cb => (cb, {| level := ofInt n |}))
        (AudioMonitor.callbacks m)
    /\ AudioMonitor.soundLevel (fst (AudioMonitor.analyzeAudio dataArray m))
       = ofInt n
    /\ 0 <= n <= 255
    /\ 128 * n - 64 <= AudioMonitor.byteSum dataArray <= 128 * n + 63
    /\ (ge (ofInt n) (Fin (crashSoundLevel defaultThresholds)) = true
        <-> 12736 <= AudioMonitor.byteSum dataArray).
Proof.
  intros Hlen Hmon.
  destruct (roundedAverage_128 dataArray Hlen) as [n [Hn [Hrange Hsum]]].
  exists n. unfold AudioMonitor.analyzeAudio. rewrite Hmon, Hn.
  cbn [negb fst snd AudioMonitor.soundLevel].
  split; [reflexivity | ]. split; [reflexivity | ].
  split; [exact Hrange | ]. split; [exact Hsum | ].
  change (Fin (crashSoundLevel defaultThresholds)) with (ofInt 100).
  rewrite ge_ofInt. lia.
Qed.

Lemma frame_level_is_rounded_mean_witness :
  exists n : Z,
    snd (AudioMonitor.analyzeAudio (repeat Byte.x64 128)
           (AudioMonitor.startMonitoring true (Some tt)
              (AudioMonitor.new unit)))
    = [(tt, {| level := ofInt n |})]
    /\ 0 <= n <= 255
    /\ (ge (ofInt n) (Fin (crashSoundLevel defaultThresholds)) = true
        <-> 12736 <= AudioMonitor.byteSum (repeat Byte.x64 128)).
Proof.
  destruct (frame_level_is_rounded_mean unit (repeat Byte.x64 128)
              (AudioMonitor.startMonitoring true (Some tt)
                 (AudioMonitor.new unit)))
    as [n [Hcalls [_ [Hrange [_ Hcrash]]]]].
  - reflexivity.
  - reflexivity.
  - exists n. split; [exact Hcalls | ]. split; [exact Hrange | exact Hcrash].
Defined.

Lemma analyzeAudio_peak (C : Type) (dataArray : list Byte.byte)
  (m : AudioMonitor.t C) (p : Z) :
  length dataArray = 128%nat ->
  AudioMonitor.isMonitoring m = true ->
  AudioMonitor.peakLevel m = ofInt p ->
  exists n : Z,
    AudioMonitor.roundedAverage dataArray = ofInt n
    /\ AudioMonitor.peakLevel (fst (AudioMonitor.analyzeAudio dataArray m))
       = ofInt (Z.max p n)
    /\ AudioMonitor.isMonitoring
         (fst (AudioMonitor.analyzeAudio dataArray m)) = true.
Proof.
  intros Hlen Hmon Hpeak.
  destruct (roundedAverage_128 dataArray Hlen) as [n [Hn _]].
  exists n. split; [exact Hn | ].
  unfold AudioMonitor.analyzeAudio. rewrite Hmon, Hn, Hpeak.
  cbn [negb fst AudioMonitor.peakLevel AudioMonitor.isMonitoring].
  split; [ | reflexivity].
  destruct (gt (ofInt n) (ofInt p)) eqn:E.
  - apply gt_ofInt in E. f_equal. lia.
  - destruct (Z.lt_ge_cases p n) as [H | H].
    + apply gt_ofInt in H. congruence.
    + f_equal. lia.
Qed.

Lemma fold_left_max_ge (levels : list Z) :
  forall p : Z,
    p <= fold_left Z.max levels p
    /\ Forall (fun n => n <= fold_left Z.max levels p) levels
    /\ (fold_left Z.max levels p = p \/ In (fold_left Z.max levels p) levels).
Proof.
  induction levels as [ | n rest IH]; intros p; cbn [fold_left].
  - split; [lia | ]. split; [constructor | left; reflexivity].
  - destruct (IH (Z.max p n)) as [Hle [Hall Hin]].
    split; [lia | ]. split.
    + constructor; [lia | exact Hall].
    + destruct Hin as [Heq | Hin].
      * destruct (Z.max_spec p n) as [[_ Hm] | [_ Hm]].
        -- right. left. congruence.
        -- left. congruence.
      * right. right. exact Hin.
Qed.

(** X15. While the monitor runs, [peakLevel] is the running maximum of the
    frame levels: after any list of 128-bin frames it is the largest of the
    peak before and the levels of the frames, each level the whole number
    the frame delivers. So it is no smaller than the peak before, no
    smaller than the level of any frame, and equal to one of them. *)
Theorem peak_is_running_maximum (C : Type)
  (frames : list (list Byte.byte)) :
  forall (m : AudioMonitor.t C) (p : Z),
    Forall (fun dataArray => length dataArray = 128%nat) frames ->
    AudioMonitor.isMonitoring m = true ->
    AudioMonitor.peakLevel m = ofInt p ->
    exists levels : list Z,
      Forall2 (fun dataArray n =>
                 AudioMonitor.roundedAverage dataArray = ofInt n)
        frames levels
      /\ AudioMonitor.peakLevel (AudioMonitor.analyzeFrames frames m)
         = ofInt (fold_left Z.max levels p)
      /\ p <= fold_left Z.max levels p
      /\ Forall (fun n => n <= fold_left Z.max levels p) levels
      /\ (fold_left Z.max levels p = p
          \/ In (fold_left Z.max levels p) levels).
Proof.
  induction frames as [ | dataArray rest IH]; intros m p Hlens Hmon Hpeak.
  - exists []. split; [constructor | ]. split; [exact Hpeak | ].
    apply (fold_left_max_ge [] p).
  - inversion Hlens as [ | d l Hlen Hrest]; subst.
    destruct (analyzeAudio_peak C dataArray m p Hlen Hmon Hpeak)
      as [n [Hn [Hpeak1 Hmon1]]].
    destruct (IH _ (Z.max p n) Hrest Hmon1 Hpeak1)
      as [levels [Hlevels [Hp' _]]].
    exists (n :: levels).
    split; [constructor; assumption | ].
    split; [exact Hp' | ].
    apply (fold_left_max_ge (n :: levels) p).
Qed.

Lemma peak_is_running_maximum_witness :
  (exists levels : list Z,
      Forall2 (fun dataArray n =>
                 AudioMonitor.roundedAverage dataArray = ofInt n)
        [repeat Byte.x64 128; repeat Byte.x10 128; repeat Byte.x30 128]
        levels
      /\ AudioMonitor.peakLevel
           (AudioMonitor.analyzeFrames
              [repeat Byte.x64 128; repeat Byte.x10 128;
               repeat Byte.x30 128]
              (AudioMonitor.startMonitoring true (Some tt)
                 (AudioMonitor.new unit)))
         = ofInt (fold_left Z.max levels 0))
  /\ map AudioMonitor.roundedAverage
       [repeat Byte.x64 128; repeat Byte.x10 128; repeat Byte.x30 128]
     = [ofInt 100; ofInt 16; ofInt 48]
  /\ AudioMonitor.peakLevel
       (AudioMonitor.analyzeFrames
          [repeat Byte.x64 128; repeat Byte.x10 128; repeat Byte.x30 128]
          (AudioMonitor.startMonitoring true (Some tt)
             (AudioMonitor.new unit)))
     = ofInt 100.
Proof.
  split; [ | split; vm_compute; reflexivity].
  destruct (peak_is_running_maximum unit
              [repeat Byte.x64 128; repeat Byte.x10 128; repeat Byte.x30 128]
              (AudioMonitor.startMonitoring true (Some tt)
                 (AudioMonitor.new unit)) 0)
    as [levels [Hlevels [Hpeak _]]].
  - repeat constructor.
  - reflexivity.
  - reflexivity.
  - exists levels. split; [exact Hlevels | exact Hpeak].
Defined.

(** ** The sensor manager *)

Lemma orZero_not_NaN (v : option num) : orZero v <> NaN.
Proof. destruct v as [[q | | | ] | ]; discriminate. Qed.

(** X16. The two handlers share one [sensorData] object and each renews
    only its own part, so every callback call carries the other part as the
    last event of the other kind left it: after a motion event, an
    orientation event hands every callback the impact force of that motion
    event again, together with the new angles (a missing or NaN angle read
    as 0), and a motion event hands on the angles of the last orientation
    event unchanged. *)
Theorem handlers_redeliver_the_other_reading (C : Type)
  (gForce : num -> num -> num -> num)
  (accel : SensorManager.RawAcceleration)
  (event : SensorManager.RawOrientation) (m : SensorManager.t C) :
  SensorManager.isMonitoring m = true ->
  let force :=
    gForce (orZero (SensorManager.rawX accel))
      (orZero (SensorManager.rawY accel))
      (orZero (SensorManager.rawZ accel)) in
  let angles :=
    {| alpha := orZero (SensorManager.rawAlpha event);
       beta := orZero (SensorManager.rawBeta event);
       gamma := orZero (SensorManager.rawGamma event) |} in
  let afterMotion := fst (SensorManager.handleMotion gForce (Some accel) m) in
  let afterOrientation := fst (SensorManager.handleOrientation event m) in
  map (fun call => SensorManager.toSensorData (snd call))
    (snd (SensorManager.handleOrientation event afterMotion))
  = map (fun _ => mkSensorData force angles) (SensorManager.callbacks m)
  /\ map (fun call => SensorManager.toSensorData (snd call))
       (snd (SensorManager.handleMotion gForce (Some accel)
               afterOrientation))
     = map (fun _ => mkSensorData force angles) (SensorManager.callbacks m)
  /\ alpha angles <> NaN /\ beta angles <> NaN /\ gamma angles <> NaN.
Proof.
  intros Hmon force angles afterMotion afterOrientation.
  subst afterMotion afterOrientation.
  unfold SensorManager.handleMotion, SensorManager.handleOrientation,
    SensorManager.notifyCallbacks.
  rewrite Hmon. cbn [negb fst snd SensorManager.isMonitoring
    SensorManager.setSensorData SensorManager.callbacks
    SensorManager.sensorData]. rewrite Hmon.
  cbn [negb fst snd SensorManager.isMonitoring
    SensorManager.setSensorData SensorManager.callbacks
    SensorManager.sensorData].
  rewrite !map_map.
  split; [reflexivity | ]. split; [reflexivity | ].
  subst angles. cbn [alpha beta gamma].
  repeat split; apply orZero_not_NaN.
Qed.

Lemma handlers_redeliver_the_other_reading_witness :
  map (fun call => SensorManager.toSensorData (snd call))
    (snd (SensorManager.handleOrientation
            {| SensorManager.rawAlpha := None;
               SensorManager.rawBeta := Some (Fin 90);
               SensorManager.rawGamma := Some NaN |}
            (fst (SensorManager.handleMotion (fun x y z => z)
                    (Some {| SensorManager.rawX := None;
                             SensorManager.rawY := None;
                             SensorManager.rawZ := Some (Fin 7) |})
                    (SensorManager.startMonitoring true true (Some tt)
                       (SensorManager.new unit))))))
  = [ mkSensorData (Fin 7)
        {| alpha := Fin 0; beta := Fin 90; gamma := Fin 0 |} ].
Proof.
  destruct (handlers_redeliver_the_other_reading unit (fun x y z => z)
              {| SensorManager.rawX := None;
                 SensorManager.rawY := None;
                 SensorManager.rawZ := Some (Fin 7) |}
              {| SensorManager.rawAlpha := None;
                 SensorManager.rawBeta := Some (Fin 90);
                 SensorManager.rawGamma := Some NaN |}
              (SensorManager.startMonitoring true true (Some tt)
                 (SensorManager.new unit)))
    as [Hfirst _].
  - reflexivity.
  - exact Hfirst.
Defined.

Lemma ge_refl (a : num) : a <> NaN -> ge a a = true.
Proof.
  destruct a as [q | | | ]; simpl; try reflexivity; try congruence.
  intros _. apply Qle_bool_iff. apply Qle_refl.
Qed.

Lemma ge_trans (a b c : num) :
  ge a b = true -> ge b c = true -> ge a c = true.
Proof.
  destruct a as [qa | | | ], b as [qb | | | ], c as [qc | | | ]; simpl;
    try discriminate; try reflexivity.
  rewrite !Qle_bool_iff. intros H1 H2. apply Qle_trans with qb; assumption.
Qed.

Lemma not_gt_ge (a b : num) :
  a <> NaN -> b <> NaN -> gt a b = false -> ge b a = true.
Proof.
  destruct a as [qa | | | ], b as [qb | | | ]; simpl;
    try discriminate; try reflexivity; try congruence.
  intros _ _ H. apply negb_false_iff in H. exact H.
Qed.

Lemma gt_ge (a b : num) : gt a b = true -> ge a b = true.
Proof.
  destruct a as [qa | | | ], b as [qb | | | ]; simpl;
    try discriminate; try reflexivity.
  intros H. apply negb_true_iff in H. apply Qle_bool_iff.
  destruct (Qlt_le_dec qb qa) as [Hlt | Hle].
  - apply Qlt_le_weak. exact Hlt.
  - apply Qle_bool_iff in Hle. congruence.
Qed.

Lemma last_cons (A : Type) (a d : A) (l : list A) :
  last (a :: l) d = last l a.
Proof.
  revert a d. induction l as [ | b l IH]; intros a d; [reflexivity | ].
  change (last (a :: b :: l) d) with (last (b :: l) d).
  rewrite (IH b d), (IH b a). reflexivity.
Qed.

Lemma motionForces_cons (gForce : num -> num -> num -> num)
  (e : SensorManager.Event) (rest : list SensorManager.Event) :
  motionForces gForce (e :: rest)
  = motionForces gForce [e] ++ motionForces gForce rest.
Proof.
  unfold motionForces. cbn [flat_map]. rewrite app_nil_r. reflexivity.
Qed.

(** One event: [maxImpact] and [impactForce] after it. *)
Lemma handle_maxImpact (C : Type) (gForce : num -> num -> num -> num)
  (e : SensorManager.Event) (m : SensorManager.t C) :
  (forall x y z, x <> NaN -> y <> NaN -> z <> NaN -> gForce x y z <> NaN) ->
  SensorManager.isMonitoring m = true ->
  SensorManager.maxImpact (SensorManager.sensorData m) <> NaN ->
  let m' := SensorManager.handle gForce e m in
  let mx := SensorManager.maxImpact (SensorManager.sensorData m) in
  let mx' := SensorManager.maxImpact (SensorManager.sensorData m') in
  SensorManager.isMonitoring m' = true
  /\ mx' <> NaN
  /\ ge mx' mx = true
  /\ Forall (fun f => ge mx' f = true) (motionForces gForce [e])
  /\ (mx' = mx \/ In mx' (motionForces gForce [e]))
  /\ SensorManager.impactForce (SensorManager.sensorData m')
     = last (motionForces gForce [e])
         (SensorManager.impactForce (SensorManager.sensorData m)).
Proof.
  intros Hforce Hmon Hmax m' mx mx'. subst m' mx mx'.
  assert (Hsame : ge (SensorManager.maxImpact (SensorManager.sensorData m))
                    (SensorManager.maxImpact (SensorManager.sensorData m))
                  = true) by (apply ge_refl; exact Hmax).
  destruct e as [[a | ] | event]; unfold SensorManager.handle,
    SensorManager.handleMotion, SensorManager.handleOrientation;
    rewrite Hmon; cbn [negb fst motionForces flat_map app last
                         SensorManager.sensorData SensorManager.setSensorData
                         SensorManager.maxImpact SensorManager.impactForce
                         SensorManager.isMonitoring].
  - set (f := gForce _ _ _).
    assert (Hf : f <> NaN)
      by (apply Hforce; apply orZero_not_NaN).
    split; [exact Hmon | ].
    destruct (gt f (SensorManager.maxImpact (SensorManager.sensorData m)))
      eqn:E.
    + split; [exact Hf | ]. split; [apply gt_ge; exact E | ].
      split; [constructor; [apply ge_refl; exact Hf | constructor] | ].
      split; [right; left; reflexivity | reflexivity].
    + split; [exact Hmax | ]. split; [exact Hsame | ].
      split; [constructor;
              [apply not_gt_ge; [exact Hf | exact Hmax | exact E]
              | constructor] | ].
      split; [left; reflexivity | reflexivity].
  - split; [exact Hmon | ]. split; [exact Hmax | ]. split; [exact Hsame | ].
    split; [constructor | ]. split; [left; reflexivity | reflexivity].
  - split; [exact Hmon | ]. split; [exact Hmax | ]. split; [exact Hsame | ].
    split; [constructor | ]. split; [left; reflexivity | reflexivity].
Qed.

(** X17. While the manager monitors and no calibration timer fires,
    [maxImpact] is the running maximum of the impact force: after any list
    of motion and orientation events it is no smaller than it was and no
    smaller than any force computed for the motion events of the list, and
    it is either the old value or one of those forces; [impactForce] is the
    last of those forces, or the old one when the list has none. So
    [maxImpact] stays at or above the current [impactForce] once it is.
    (The force computation yields NaN on no arguments that are numbers, the
    only ones [handleMotion] passes.) *)
Theorem maxImpact_is_running_maximum (C : Type)
  (gForce : num -> num -> num -> num) (events : list SensorManager.Event) :
  forall m : SensorManager.t C,
    (forall x y z,
        x <> NaN -> y <> NaN -> z <> NaN -> gForce x y z <> NaN) ->
    SensorManager.isMonitoring m = true ->
    SensorManager.maxImpact (SensorManager.sensorData m) <> NaN ->
    let m' := SensorManager.handleAll gForce events m in
    let forces := motionForces gForce events in
    let mx := SensorManager.maxImpact (SensorManager.sensorData m) in
    let mx' := SensorManager.maxImpact (SensorManager.sensorData m') in
    ge mx' mx = true
    /\ Forall (fun f => ge mx' f = true) forces
    /\ (mx' = mx \/ In mx' forces)
    /\ SensorManager.impactForce (SensorManager.sensorData m')
       = last forces
           (SensorManager.impactForce (SensorManager.sensorData m))
    /\ (ge mx (SensorManager.impactForce (SensorManager.sensorData m))
        = true ->
        ge mx' (SensorManager.impactForce (SensorManager.sensorData m'))
        = true).
Proof.
  assert (Hmain :
    forall m : SensorManager.t C,
      (forall x y z,
          x <> NaN -> y <> NaN -> z <> NaN -> gForce x y z <> NaN) ->
      SensorManager.isMonitoring m = true ->
      SensorManager.maxImpact (SensorManager.sensorData m) <> NaN ->
      let m' := SensorManager.handleAll gForce events m in
      let forces := motionForces gForce events in
      let mx := SensorManager.maxImpact (SensorManager.sensorData m) in
      let mx' := SensorManager.maxImpact (SensorManager.sensorData m') in
      ge mx' mx = true
      /\ Forall (fun f => ge mx' f = true) forces
      /\ (mx' = mx \/ In mx' forces)
      /\ SensorManager.impactForce (SensorManager.sensorData m')
         = last forces
             (SensorManager.impactForce (SensorManager.sensorData m))).
  { induction events as [ | e rest IH]; intros m Hforce Hmon Hmax.
    - cbn. split; [apply ge_refl; exact Hmax | ].
      split; [constructor | ]. split; [left; reflexivity | reflexivity].
    - destruct (handle_maxImpact C gForce e m Hforce Hmon Hmax)
        as [Hmon1 [Hmax1 [Hup1 [Hall1 [Hin1 Hlast1]]]]].
      destruct (IH (SensorManager.handle gForce e m) Hforce Hmon1 Hmax1)
        as [Hup [Hall [Hin Hlast]]].
      cbv zeta.
      change (SensorManager.handleAll gForce (e :: rest) m)
        with (SensorManager.handleAll gForce rest
                (SensorManager.handle gForce e m)).
      rewrite (motionForces_cons gForce e rest).
      set (m1 := SensorManager.handle gForce e m) in *.
      set (mx' := SensorManager.maxImpact
                    (SensorManager.sensorData
                       (SensorManager.handleAll gForce rest m1))) in *.
      split; [exact (ge_trans _ _ _ Hup Hup1) | ].
      split.
      { apply Forall_app. split; [ | exact Hall].
        eapply Forall_impl; [ | exact Hall1]. cbv beta.
        intros f Hf. exact (ge_trans _ _ _ Hup Hf). }
      split.
      { destruct Hin as [Heq | Hin].
        - destruct Hin1 as [Heq1 | Hin1].
          + left. congruence.
          + right. apply in_or_app. left. rewrite Heq. exact Hin1.
        - right. apply in_or_app. right. exact Hin. }
      rewrite Hlast, Hlast1.
      destruct (motionForces gForce [e]) as [ | f [ | f2 l]] eqn:Ee;
        cbn [app last]; try reflexivity.
      + symmetry. apply last_cons.
      + exfalso. destruct e as [[a | ] | event]; discriminate Ee. }
  intros m Hforce Hmon Hmax. cbv zeta.
  destruct (Hmain m Hforce Hmon Hmax) as [Hup [Hall [Hin Hlast]]].
  split; [exact Hup | ]. split; [exact Hall | ].
  split; [exact Hin | ]. split; [exact Hlast | ].
  intros Hinv. rewrite Hlast.
  destruct (motionForces gForce events) as [ | f l] eqn:Ef.
  - cbn [last]. exact (ge_trans _ _ _ Hup Hinv).
  - rewrite Forall_forall in Hall. apply Hall.
    pose proof (@exists_last _ (f :: l) ltac:(discriminate))
      as [l' [a Hl]].
    rewrite Hl. rewrite last_last. apply in_or_app. right. left.
    reflexivity.
Qed.

Lemma maxImpact_is_running_maximum_witness :
  let m' :=
    SensorManager.handleAll (fun x y z => z)
      [ SensorManager.Motion
          (Some {| SensorManager.rawX := None;
                   SensorManager.rawY := None;
                   SensorManager.rawZ := Some (Fin 7) |});
        SensorManager.Orientation
          {| SensorManager.rawAlpha := None;
             SensorManager.rawBeta := Some (Fin 90);
             SensorManager.rawGamma := None |};
        SensorManager.Motion
          (Some {| SensorManager.rawX := None;
                   SensorManager.rawY := None;
                   SensorManager.rawZ := Some (Fin 1) |}) ]
      (SensorManager.startMonitoring true true (Some tt)
         (SensorManager.new unit)) in
  Forall (fun f => ge (SensorManager.maxImpact
                         (SensorManager.sensorData m')) f = true)
    [Fin 7; Fin 1]
  /\ SensorManager.impactForce (SensorManager.sensorData m') = Fin 1
  /\ SensorManager.maxImpact (SensorManager.sensorData m') = Fin 7.
Proof.
  cbv zeta.
  destruct (maxImpact_is_running_maximum unit (fun x y z => z)
              [ SensorManager.Motion
                  (Some {| SensorManager.rawX := None;
                           SensorManager.rawY := None;
                           SensorManager.rawZ := Some (Fin 7) |});
                SensorManager.Orientation
                  {| SensorManager.rawAlpha := None;
                     SensorManager.rawBeta := Some (Fin 90);
                     SensorManager.rawGamma := None |};
                SensorManager.Motion
                  (Some {| SensorManager.rawX := None;
                           SensorManager.rawY := None;
                           SensorManager.rawZ := Some (Fin 1) |}) ]
              (SensorManager.startMonitoring true true (Some tt)
                 (SensorManager.new unit)))
    as [_ [Hall [_ [Hlast _]]]].
  - intros x y z _ _ Hz. exact Hz.
  - reflexivity.
  - discriminate.
  - split; [exact Hall | ]. split; [exact Hlast | reflexivity].
Defined.

Lemma handleMotion_frame (C : Type) (gForce : num -> num -> num -> num)
  (accel : SensorManager.RawAcceleration) (m : SensorManager.t C) :
  SensorManager.isMonitoring m = true ->
  let r := SensorManager.handleMotion gForce (Some accel) m in
  SensorManager.isMonitoring (fst r) = true
  /\ SensorManager.callbacks (fst r) = SensorManager.callbacks m
  /\ length (snd r) = length (SensorManager.callbacks m).
Proof.
  intros Hmon r. subst r. unfold SensorManager.handleMotion,
    SensorManager.notifyCallbacks.
  rewrite Hmon. cbn [negb fst snd SensorManager.isMonitoring
    SensorManager.callbacks SensorManager.setSensorData].
  rewrite length_map. repeat split. exact Hmon.
Qed.

Lemma dispatchMotion_count (C : Type) (gForce : num -> num -> num -> num)
  (accel : SensorManager.RawAcceleration) (n : nat) :
  forall m : SensorManager.t C,
    SensorManager.isMonitoring m = true ->
    length (snd (SensorManager.dispatchMotion gForce n (Some accel) m))
    = (n * length (SensorManager.callbacks m))%nat.
Proof.
  induction n as [ | n IH]; intros m Hmon; [reflexivity | ].
  cbn [SensorManager.dispatchMotion].
  destruct (handleMotion_frame C gForce accel m Hmon) as [Hmon1 [Hcb Hlen]].
  destruct (SensorManager.handleMotion gForce (Some accel) m)
    as [m1 calls1] eqn:E1.
  cbn [fst snd] in Hmon1, Hcb, Hlen.
  specialize (IH m1 Hmon1).
  destruct (SensorManager.dispatchMotion gForce n (Some accel) m1)
    as [m2 calls2] eqn:E2.
  cbn [snd] in *. rewrite length_app, Hlen, IH, Hcb. lia.
Qed.

(** X18. [stopMonitoring] removes neither the callbacks nor the window
    listeners, and the next [startMonitoring] adds one more of each: after
    a stop and a start with a callback, on a page with motion events, one
    [devicemotion] event makes (listeners + 1) times (callbacks + 1)
    callback calls, where before the stop it made listeners times
    callbacks. *)
Theorem restart_multiplies_callback_calls (C : Type)
  (gForce : num -> num -> num -> num) (hasOrientation : bool) (cb : C)
  (accel : SensorManager.RawAcceleration) (m : SensorManager.t C) :
  SensorManager.isMonitoring m = true ->
  let m' := SensorManager.startMonitoring true hasOrientation (Some cb)
              (SensorManager.stopMonitoring m) in
  length (snd (SensorManager.dispatchMotion gForce
                 (SensorManager.motionListeners m) (Some accel) m))
  = (SensorManager.motionListeners m
     * length (SensorManager.callbacks m))%nat
  /\ SensorManager.motionListeners m'
     = S (SensorManager.motionListeners m)
  /\ SensorManager.callbacks m' = SensorManager.callbacks m ++ [cb]
  /\ length (snd (SensorManager.dispatchMotion gForce
                    (SensorManager.motionListeners m') (Some accel) m'))
     = (S (SensorManager.motionListeners m)
        * S (length (SensorManager.callbacks m)))%nat.
Proof.
  intros Hmon m'.
  split; [apply dispatchMotion_count; exact Hmon | ].
  assert (Hm' : SensorManager.isMonitoring m' = true) by reflexivity.
  assert (Hl : SensorManager.motionListeners m'
               = S (SensorManager.motionListeners m)) by reflexivity.
  assert (Hc : SensorManager.callbacks m'
               = SensorManager.callbacks m ++ [cb]) by reflexivity.
  split; [exact Hl | ]. split; [exact Hc | ].
  rewrite (dispatchMotion_count C gForce accel _ m' Hm'), Hl, Hc.
  rewrite length_app. cbn [length]. lia.
Qed.

Lemma restart_multiplies_callback_calls_witness :
  length
    (snd (SensorManager.dispatchMotion (fun x y z => z) 2
            (Some {| SensorManager.rawX := None;
                     SensorManager.rawY := None;
                     SensorManager.rawZ := Some (Fin 7) |})
            (SensorManager.startMonitoring true true (Some tt)
               (SensorManager.stopMonitoring
                  (SensorManager.startMonitoring true true (Some tt)
                     (SensorManager.new unit))))))
  = 4%nat.
Proof.
  destruct (restart_multiplies_callback_calls unit (fun x y z => z) true tt
              {| SensorManager.rawX := None;
                 SensorManager.rawY := None;
                 SensorManager.rawZ := Some (Fin 7) |}
              (SensorManager.startMonitoring true true (Some tt)
                 (SensorManager.new unit)))
    as [_ [_ [_ Hcount]]].
  - reflexivity.
  - exact Hcount.
Defined.

(** X23. Because an orientation event hands the stored impact force to the
    callbacks again, every such event that arrives while the stored force
    is at or above the low threshold runs the impact path of an active
    detector once more for each callback call: another impact entry, and
    another alert request, classified on the old force and on the time
    since the tracker started. *)
Theorem orientation_event_repeats_the_impact (C : Type)
  (browser : Browser) (event : SensorManager.RawOrientation)
  (m : SensorManager.t C) (currentTime alertTime rotationTime : Z)
  (w : World) :
  SensorManager.isMonitoring m = true ->
  isActive (accidentDetector w) = true ->
  ge (SensorManager.impactForce (SensorManager.sensorData m))
    (Fin (lowImpact (detectionThresholds (accidentDetector w)))) = true ->
  let force := SensorManager.impactForce (SensorManager.sensorData m) in
  let d := accidentDetector w in
  let forceDuration :=
    if sustainedHighForce d then currentTime - highForceStartTime d else 0 in
  let s := calculateSeverity (detectionThresholds d) force forceDuration in
  length (snd (SensorManager.handleOrientation event m))
  = length (SensorManager.callbacks m)
  /\ Forall
       (fun call =>
          let w' := analyzeSensorData browser currentTime alertTime
                      rotationTime
                      (SensorManager.toSensorData (snd call)) w in
          In {| type := Impact;
                severity := s;
                metrics := ImpactMetrics force forceDuration;
                timestamp := currentTime |}
            (detectionHistory (accidentDetector w'))
          /\ In (AlertRequest alertTime s
                   (ImpactDetails force forceDuration))
               (calls w'))
       (snd (SensorManager.handleOrientation event m)).
Proof.
  intros Hmon Hact Hge force d forceDuration s.
  unfold SensorManager.handleOrientation, SensorManager.notifyCallbacks.
  rewrite Hmon.
  cbn [negb snd SensorManager.callbacks SensorManager.setSensorData
         SensorManager.sensorData].
  split; [apply length_map | ].
  apply Forall_forall. intros call Hin. apply in_map_iff in Hin.
  destruct Hin as [cb [<- _]]. cbn [snd].
  unfold SensorManager.toSensorData. cbn [SensorManager.impactForce
    SensorManager.rotation].
  destruct (analyzeSensorData_impact_path browser currentTime alertTime
              rotationTime
              (mkSensorData
                 (SensorManager.impactForce (SensorManager.sensorData m))
                 {| alpha := orZero (SensorManager.rawAlpha event);
                    beta := orZero (SensorManager.rawBeta event);
                    gamma := orZero (SensorManager.rawGamma event) |})
              w Hact Hge) as [_ [Hhist Hreq]].
  split; [exact Hhist | exact Hreq].
Qed.

Lemma orientation_event_repeats_the_impact_witness :
  Forall
    (fun call =>
       In (AlertRequest (someTime + 250) critical
             (ImpactDetails (Fin 7) 250))
         (calls
            (analyzeSensorData fullBrowser (someTime + 250)
               (someTime + 250) (someTime + 250)
               (SensorManager.toSensorData (snd call))
               (worldAfter fullBrowser initialWorld
                  [ Start;
                    SensorSample someTime someTime someTime
                      (flatSample 7) ]))))
    (snd (SensorManager.handleOrientation
            {| SensorManager.rawAlpha := Some (Fin 1);
               SensorManager.rawBeta := None;
               SensorManager.rawGamma := None |}
            (fst (SensorManager.handleMotion
                    (fun x y z => orZero (Some z))
                    (Some {| SensorManager.rawX := None;
                             SensorManager.rawY := None;
                             SensorManager.rawZ := Some (Fin 7) |})
                    (SensorManager.startMonitoring true true (Some tt)
                       (SensorManager.new unit)))))).
Proof.
  destruct (orientation_event_repeats_the_impact unit fullBrowser
              {| SensorManager.rawAlpha := Some (Fin 1);
                 SensorManager.rawBeta := None;
                 SensorManager.rawGamma := None |}
              (fst (SensorManager.handleMotion
                      (fun x y z => orZero (Some z))
                      (Some {| SensorManager.rawX := None;
                               SensorManager.rawY := None;
                               SensorManager.rawZ := Some (Fin 7) |})
                      (SensorManager.startMonitoring true true (Some tt)
                         (SensorManager.new unit))))
              (someTime + 250) (someTime + 250) (someTime + 250)
              (worldAfter fullBrowser initialWorld
                 [ Start;
                   SensorSample someTime someTime someTime
                     (flatSample 7) ]))
    as [_ Hall].
  - reflexivity.
  - vm_compute; reflexivity.
  - vm_compute; reflexivity.
  - eapply Forall_impl; [ | exact Hall].
    cbv beta. intros call [_ Hreq]. exact Hreq.
Defined.

(** * Properties of the voice listener *)

Lemma startsWith_spec (s prefix : Voice.jsString) :
  Voice.startsWith s prefix = true <-> exists rest, s = prefix ++ rest.
Proof.
  revert s. induction prefix as [ | c prefix IH]; intros s.
  - split; [intros _; exists s; reflexivity | ].
    intros _. destruct s; reflexivity.
  - destruct s as [ | c' s]; simpl.
    + split; [discriminate | intros [rest H]; discriminate].
    + rewrite andb_true_iff, N.eqb_eq, IH. split.
      * intros [-> [rest ->]]. exists rest. reflexivity.
      * intros [rest H]. injection H as -> ->.
        split; [reflexivity | exists rest; reflexivity].
Qed.

(** [includes] is the substring test. *)
Lemma includes_spec (s search : Voice.jsString) :
  Voice.includes s search = true <->
  exists before after, s = before ++ search ++ after.
Proof.
  induction s as [ | c s IH]; cbn [Voice.includes].
  - rewrite orb_false_r, startsWith_spec. split.
    + intros [rest H]. exists [], rest. exact H.
    + intros [before [after H]].
      destruct before; [exists after; exact H | discriminate].
  - rewrite orb_true_iff, startsWith_spec, IH. split.
    + intros [[rest H] | [before [after H]]].
      * exists [], rest. exact H.
      * exists (c :: before), after. rewrite H. reflexivity.
    + intros [before [after H]]. destruct before as [ | c' before].
      * left. exists after. exact H.
      * right. injection H as -> H. exists before, after. exact H.
Qed.

Lemma includes_trans (s middle search : Voice.jsString) :
  Voice.includes s middle = true ->
  Voice.includes middle search = true ->
  Voice.includes s search = true.
Proof.
  rewrite !includes_spec.
  intros [b1 [a1 ->]] [b2 [a2 ->]].
  exists (b1 ++ b2), (a2 ++ a1). rewrite <- !app_assoc. reflexivity.
Qed.

Lemma keyword_includes_stem (keyword : Voice.jsString) :
  In keyword Voice.cancelKeywords ->
  exists stem,
    In stem Voice.cancelStems /\ Voice.includes keyword stem = true.
Proof.
  unfold Voice.cancelKeywords. cbn [map In]. intros H.
  repeat (destruct H as [H | H]; [subst keyword | ]); [ .. | contradiction];
    first
      [ solve [eexists; split;
               [left; reflexivity | vm_compute; reflexivity]]
      | solve [eexists; split;
               [right; left; reflexivity | vm_compute; reflexivity]]
      | solve [eexists; split;
               [do 2 right; left; reflexivity | vm_compute; reflexivity]]
      | solve [eexists; split;
               [do 3 right; left; reflexivity | vm_compute; reflexivity]]
      | solve [eexists; split;
               [do 4 right; left; reflexivity | vm_compute; reflexivity]]
      | solve [eexists; split;
               [do 5 right; left; reflexivity | vm_compute; reflexivity]]
      | solve [eexists; split;
               [do 6 right; left; reflexivity | vm_compute; reflexivity]]
      | solve [eexists; split;
               [do 7 right; left; reflexivity | vm_compute; reflexivity]] ].
Qed.

Lemma stem_is_keyword (stem : Voice.jsString) :
  In stem Voice.cancelStems -> In stem Voice.cancelKeywords.
Proof.
  unfold Voice.cancelStems, Voice.cancelKeywords. cbn [map In].
  intros H.
  repeat (destruct H as [H | H]; [rewrite <- H; tauto | ]).
  contradiction.
Qed.

Example broken_window_cancels :
  Voice.matchesCancelKeyword Voice.transcriptBroken = true.
Proof. vm_compute. reflexivity. Qed.

Example help_me_does_not_cancel :
  Voice.matchesCancelKeyword Voice.transcriptHelp = false.
Proof. vm_compute. reflexivity. Qed.

(** X19. The voice handler cancels exactly when the lower-cased transcript
    contains, anywhere and also inside a longer word, one of the eight
    strings cancel, stop, ok, fine, safe, no emergency, false alarm,
    mistake: the other five keywords of the array contain one of these and
    add nothing. Otherwise the handler leaves the world as it is. *)
Theorem voice_cancels_iff_transcript_contains_stem
  (toLowerCase : Voice.jsString -> Voice.jsString)
  (results : list Voice.jsString) (now : Z) (w : World) :
  let transcript := toLowerCase (concat results) in
  (Voice.matchesCancelKeyword transcript = true <->
   exists stem before after,
     In stem Voice.cancelStems
     /\ transcript = before ++ stem ++ after)
  /\ Voice.matchesCancelKeyword transcript
     = existsb (Voice.includes transcript) Voice.cancelStems
  /\ Voice.onresult toLowerCase results now w
     = (if existsb (Voice.includes transcript) Voice.cancelStems
        then cancelAlert now w else w).
Proof.
  intros transcript.
  assert (Hiff : Voice.matchesCancelKeyword transcript = true <->
                 existsb (Voice.includes transcript) Voice.cancelStems
                 = true).
  { unfold Voice.matchesCancelKeyword. rewrite !existsb_exists. split.
    - intros [keyword [Hin Hinc]].
      destruct (keyword_includes_stem keyword Hin) as [stem [Hs Hks]].
      exists stem. split; [exact Hs | ].
      exact (includes_trans _ _ _ Hinc Hks).
    - intros [stem [Hin Hinc]]. exists stem.
      split; [apply stem_is_keyword; exact Hin | exact Hinc]. }
  assert (Heq : Voice.matchesCancelKeyword transcript
                = existsb (Voice.includes transcript) Voice.cancelStems).
  { destruct (Voice.matchesCancelKeyword transcript) eqn:E1;
      destruct (existsb (Voice.includes transcript) Voice.cancelStems)
        eqn:E2; try reflexivity.
    - destruct Hiff as [H _]. specialize (H eq_refl). discriminate.
    - destruct Hiff as [_ H]. specialize (H eq_refl). discriminate. }
  split; [ | split; [exact Heq | ]].
  - rewrite Heq, existsb_exists. split.
    + intros [stem [Hin Hinc]]. apply includes_spec in Hinc.
      destruct Hinc as [before [after H]].
      exists stem, before, after. split; assumption.
    + intros [stem [before [after [Hin H]]]]. exists stem.
      split; [exact Hin | ]. apply includes_spec.
      exists before, after. exact H.
  - unfold Voice.onresult. fold transcript. rewrite Heq. reflexivity.
Qed.

(** * Properties of the emergency module *)

(** X20. The emergency number round-trips: after [setEmergencyNumber]
    the getter returns the number just set, whatever it is. After a reload
    of the page a stored non-empty number is still returned, while an empty
    one falls back to the default 911; [saveEmergencyNumber] with an empty
    or missing input field changes nothing. *)
Theorem emergency_number_round_trip (number : String.string)
  (h : EmergencyHandler.t) :
  EmergencyHandler.getEmergencyNumber
    (EmergencyHandler.setEmergencyNumber number h) = number
  /\ EmergencyHandler.getEmergencyNumber
       (EmergencyHandler.reload
          (EmergencyHandler.setEmergencyNumber number h))
     = match number with
       | String.EmptyString => EmergencyHandler.defaultNumber
       | String.String _ _ => number
       end
  /\ EmergencyHandler.saveEmergencyNumber (Some String.EmptyString) h = h
  /\ EmergencyHandler.saveEmergencyNumber None h = h
  /\ EmergencyHandler.getEmergencyNumber
       (EmergencyHandler.new
          {| EmergencyHandler.storedEmergencyNumber := None;
             EmergencyHandler.storedEnableAutoCall := None |})
     = EmergencyHandler.defaultNumber.
Proof.
  destruct number; repeat split.
Qed.

(** X21. [getCurrentPosition] rejects in exactly two situations: the page
    has no geolocation and the tracker holds no position younger than
    30000 ms, or the browser answers with an error and the tracker holds no
    position at all. In every other case it resolves: with the cached
    position when that is younger than 30000 ms (the browser is not asked
    and the tracker is unchanged), with the new position when the browser
    succeeds (and the tracker stores it), with the last known position when
    the browser fails. [sendAlert] builds its message from the placeholder
    exactly when the promise rejects. *)
Theorem getCurrentPosition_outcomes (now : Z)
  (geolocation : option GPSTracker.Answer) (g : GPSTracker.t) :
  let fresh :=
    match GPSTracker.currentPosition g with
    | Some p => now - GPSTracker.timestamp p <? 30000
    | None => false
    end in
  let outcome := GPSTracker.getCurrentPosition now geolocation g in
  (snd outcome = GPSTracker.Rejected <->
   (geolocation = None /\ fresh = false)
   \/ (geolocation = Some GPSTracker.Failure
       /\ GPSTracker.currentPosition g = None))
  /\ (fresh = true ->
      fst outcome = g
      /\ exists p, GPSTracker.currentPosition g = Some p
                   /\ snd outcome = GPSTracker.Resolved p)
  /\ (forall p, fresh = false ->
                geolocation = Some (GPSTracker.Success p) ->
                snd outcome = GPSTracker.Resolved p
                /\ GPSTracker.currentPosition (fst outcome) = Some p)
  /\ (forall p, fresh = false ->
                geolocation = Some GPSTracker.Failure ->
                GPSTracker.currentPosition g = Some p ->
                snd outcome = GPSTracker.Resolved p /\ fst outcome = g)
  /\ (snd (GPSTracker.alertLocation (snd outcome)) = false <->
      snd outcome = GPSTracker.Rejected).
Proof.
  intros fresh outcome. subst fresh outcome.
  unfold GPSTracker.getCurrentPosition, GPSTracker.askPosition,
    GPSTracker.onAnswer.
  destruct (GPSTracker.currentPosition g) as [p | ] eqn:Hp;
    [destruct (now - GPSTracker.timestamp p <? 30000) eqn:Hage | ];
    destruct geolocation as [[q | ] | ]; cbn [negb fst snd];
    try rewrite Hp; cbn [fst snd GPSTracker.alertLocation];
    repeat split; intros;
    repeat match goal with
      | H : _ /\ _ |- _ => destruct H
      | H : _ \/ _ |- _ => destruct H
      | H : Some _ = Some _ |- _ => injection H as H; try subst
      | H : GPSTracker.Success _ = GPSTracker.Success _ |- _ =>
          injection H as H; try subst
      end;
    try discriminate; try congruence; try reflexivity;
    try (eexists; split; reflexivity);
    try (left; split; reflexivity);
    try (right; split; reflexivity).
Qed.

(** * No request without an impact *)

Lemma NoImpactEntry_hasRecentImpact (d : AccidentDetector)
  (currentTime timeWindow : Z) :
  NoImpactEntry d -> hasRecentImpact d currentTime timeWindow = None.
Proof.
  intros H. apply hasRecentImpact_None. intros e Hin Hty.
  unfold NoImpactEntry in H. rewrite Forall_forall in H.
  exfalso. exact (H e Hin Hty).
Qed.

Lemma step_without_impact (browser : Browser) (w w' : World) (i : Input) :
  step browser w i = Some w' ->
  NoImpactEntry (accidentDetector w) ->
  belowLow (detectionThresholds (accidentDetector w)) i = true ->
  NoImpactEntry (accidentDetector w')
  /\ detectionThresholds (accidentDetector w')
     = detectionThresholds (accidentDetector w)
  /\ alertRequests (calls w') = alertRequests (calls w).
Proof.
  intros Hstep Hno Hlow. destruct i; simpl in Hstep.
  - injection Hstep as <-. repeat split. constructor.
  - injection Hstep as <-. repeat split. exact Hno.
  - injection Hstep as <-. simpl in Hlow. apply negb_true_iff in Hlow.
    unfold analyzeSensorData.
    destruct (isActive (accidentDetector w)); cbn [negb];
      [ | repeat split; exact Hno].
    rewrite Hlow. cbn [accidentDetector setDetector calls].
    split; [ | split; [ | reflexivity]].
    + apply checkRotationAnomaly_Forall;
        [intros e He; rewrite He; discriminate | exact Hno].
    + pose proof (checkRotationAnomaly_trackerView rotationTime
                    (rotation sensorData)
                    (setSustainedHighForce false (accidentDetector w)))
        as Hv.
      unfold trackerView in Hv. injection Hv as Hthr _ _. exact Hthr.
  - injection Hstep as <-. unfold analyzeAudioData.
    destruct (isActive (accidentDetector w)); cbn [negb];
      [ | repeat split; exact Hno].
    destruct (ge (level audioData) _); [ | repeat split; exact Hno].
    destruct (5000 <? _); [ | repeat split; exact Hno].
    rewrite (NoImpactEntry_hasRecentImpact _ _ _ Hno).
    repeat split; exact Hno.
  - unfold countdownTick in Hstep.
    destruct (countdownTimer (alertHandler w)) as [t | ]; [ | discriminate].
    destruct (t - 1 <? 0); injection Hstep as <-;
      [ | repeat split; exact Hno].
    unfold sendEmergencyAlert.
    destruct (emergencyHandlerDefined browser); repeat split; exact Hno.
  - injection Hstep as <-. repeat split; exact Hno.
  - unfold resetTimerFires in Hstep.
    destruct (takeDue now (resetTimers w)); [ | discriminate].
    injection Hstep as <-. repeat split; exact Hno.
  - injection Hstep as <-. unfold callEmergencyNow, sendEmergencyAlert.
    destruct (emergencyHandlerDefined browser); repeat split; exact Hno.
  - unfold dispatchSettles in Hstep.
    destruct (pendingDispatch w); [discriminate | ].
    injection Hstep as <-. repeat split; exact Hno.
  - injection Hstep as <-. unfold showAlert.
    destruct (isAlertActive (alertHandler w)); repeat split; exact Hno.
Qed.

(** X22. Without an impact there is never an alert request: from a history
    with no impact entry (such as the empty one [start()] leaves), through
    any inputs whose sensor samples all stay below the low threshold, the
    detector calls [triggerAccidentAlert] not once, however loud the audio
    samples and however large the rotation jumps, and the history still has
    no impact entry. *)
Theorem no_request_without_impact (browser : Browser)
  (inputs : list Input) :
  forall w w' : World,
    NoImpactEntry (accidentDetector w) ->
    forallb (belowLow (detectionThresholds (accidentDetector w))) inputs
    = true ->
    run browser w inputs = Some w' ->
    alertRequests (calls w') = alertRequests (calls w)
    /\ NoImpactEntry (accidentDetector w').
Proof.
  induction inputs as [ | i rest IH]; intros w w' Hno Hlow Hrun.
  - simpl in Hrun. injection Hrun as <-. split; [reflexivity | exact Hno].
  - simpl in Hlow. apply andb_prop in Hlow. destruct Hlow as [Hi Hrest].
    simpl in Hrun.
    destruct (step browser w i) as [w1 | ] eqn:Hstep; [ | discriminate].
    destruct (step_without_impact browser w w1 i Hstep Hno Hi)
      as [Hno1 [Hthr Hreq]].
    rewrite <- Hthr in Hrest.
    destruct (IH w1 w' Hno1 Hrest Hrun) as [Hreq' Hno'].
    split; [congruence | exact Hno'].
Qed.

Lemma no_request_without_impact_witness :
  alertRequests
    (calls
       (worldAfter fullBrowser alertingWorld
          [ Start;
            SensorSample (someTime + 20) (someTime + 20) (someTime + 20)
              (tippedSample 1);
            AudioSample (someTime + 30000) (someTime + 30000)
              {| level := Fin 120 |} ]))
  = alertRequests (calls (start alertingWorld)).
Proof.
  assert (Hrun :
            run fullBrowser (start alertingWorld)
              [ SensorSample (someTime + 20) (someTime + 20)
                  (someTime + 20) (tippedSample 1);
                AudioSample (someTime + 30000) (someTime + 30000)
                  {| level := Fin 120 |} ]
            = Some (worldAfter fullBrowser alertingWorld
                      [ Start;
                        SensorSample (someTime + 20) (someTime + 20)
                          (someTime + 20) (tippedSample 1);
                        AudioSample (someTime + 30000) (someTime + 30000)
                          {| level := Fin 120 |} ]))
    by (vm_compute; reflexivity).
  destruct (no_request_without_impact fullBrowser
              [ SensorSample (someTime + 20) (someTime + 20)
                  (someTime + 20) (tippedSample 1);
                AudioSample (someTime + 30000) (someTime + 30000)
                  {| level := Fin 120 |} ]
              (start alertingWorld)
              (worldAfter fullBrowser alertingWorld
                 [ Start;
                   SensorSample (someTime + 20) (someTime + 20)
                     (someTime + 20) (tippedSample 1);
                   AudioSample (someTime + 30000) (someTime + 30000)
                     {| level := Fin 120 |} ]))
    as [Hreq _].
  - constructor.
  - vm_compute; reflexivity.
  - exact Hrun.
  - exact Hreq.
Defined.
